(** * SOEM interface for a CiA 402 drive: embedding and verification

    Shallow embedding of [soem_interface_backup.c]: the CiA 402 status
    decoder and transition planner, the SDO helpers, the EtherCAT slave-state
    controller, the PDO mapping configuration and the cyclic exchange thread.

    The SOEM master library is an external collaborator.  It is modelled as
    an interface ([Transport]) over an abstract master state; every call the
    source makes into it is recorded, in order, in a trace of events.
    Floating-point arithmetic is abstracted behind [CFloat].  Textual
    logging ([printf], [fprintf]) is not modelled. *)

From Stdlib Require Import ZArith List Bool Lia QArith.
Import ListNotations.
Open Scope Z_scope.

(* ================================================================== *)
(** * Machine integers *)

Definition uint8 (v : Z) : Z := v mod 2 ^ 8.
Definition uint16 (v : Z) : Z := v mod 2 ^ 16.
Definition uint32 (v : Z) : Z := v mod 2 ^ 32.

(** C truth value of an integer expression. *)
Definition truthy (v : Z) : bool := negb (v =? 0).

(* ================================================================== *)
(** * CiA 402 definitions *)

Definition CIA402_STATUSWORD_FAULT : Z := 0x0008.
Definition CIA402_CONTROLWORD_FAULT_RESET : Z := 0x0080.

(** Modelled from the spec: the enumeration [cia402_state_t] is declared in
    [soem_interface.h], which is not part of the sources; its eight members
    are the ones the source names in [get_cia402_state_name]. *)
Inductive cia402_state_t : Type :=
| CIA402_STATE_NOT_READY
| CIA402_STATE_SWITCH_ON_DISABLED
| CIA402_STATE_READY_TO_SWITCH_ON
| CIA402_STATE_SWITCHED_ON
| CIA402_STATE_OPERATION_ENABLED
| CIA402_STATE_QUICK_STOP_ACTIVE
| CIA402_STATE_FAULT_REACTION_ACTIVE
| CIA402_STATE_FAULT.

Definition cia402_state_eqb (a b : cia402_state_t) : bool :=
  match a, b with
  | CIA402_STATE_NOT_READY, CIA402_STATE_NOT_READY
  | CIA402_STATE_SWITCH_ON_DISABLED, CIA402_STATE_SWITCH_ON_DISABLED
  | CIA402_STATE_READY_TO_SWITCH_ON, CIA402_STATE_READY_TO_SWITCH_ON
  | CIA402_STATE_SWITCHED_ON, CIA402_STATE_SWITCHED_ON
  | CIA402_STATE_OPERATION_ENABLED, CIA402_STATE_OPERATION_ENABLED
  | CIA402_STATE_QUICK_STOP_ACTIVE, CIA402_STATE_QUICK_STOP_ACTIVE
  | CIA402_STATE_FAULT_REACTION_ACTIVE, CIA402_STATE_FAULT_REACTION_ACTIVE
  | CIA402_STATE_FAULT, CIA402_STATE_FAULT => true
  | _, _ => false
  end.

(** [get_cia402_state], lines 89-109. *)
Definition get_cia402_state (statusword : Z) : cia402_state_t :=
  let state_bits := Z.land statusword 0x006F in
  match state_bits with
  | 0x0000 => CIA402_STATE_NOT_READY
  | 0x0040 => CIA402_STATE_SWITCH_ON_DISABLED
  | 0x0021 => CIA402_STATE_READY_TO_SWITCH_ON
  | 0x0023 => CIA402_STATE_SWITCHED_ON
  | 0x0027 => CIA402_STATE_OPERATION_ENABLED
  | 0x0007 => CIA402_STATE_QUICK_STOP_ACTIVE
  | 0x000F => CIA402_STATE_FAULT_REACTION_ACTIVE
  | 0x0008 => CIA402_STATE_FAULT
  | _ =>
      if truthy (Z.land statusword CIA402_STATUSWORD_FAULT)
      then CIA402_STATE_FAULT
      else CIA402_STATE_NOT_READY
  end.

(** The decoder as the specification words it: a table on the bits selected
    by 0x6F, and a fallback on bit 3 of the statusword. *)
Definition decode_table : list (Z * cia402_state_t) :=
  [ (0x00, CIA402_STATE_NOT_READY);
    (0x40, CIA402_STATE_SWITCH_ON_DISABLED);
    (0x21, CIA402_STATE_READY_TO_SWITCH_ON);
    (0x23, CIA402_STATE_SWITCHED_ON);
    (0x27, CIA402_STATE_OPERATION_ENABLED);
    (0x07, CIA402_STATE_QUICK_STOP_ACTIVE);
    (0x0F, CIA402_STATE_FAULT_REACTION_ACTIVE);
    (0x08, CIA402_STATE_FAULT) ].

Definition table_lookup (bits : Z) : option cia402_state_t :=
  option_map snd (find (fun e => fst e =? bits) decode_table).

Definition decode_spec (statusword : Z) : cia402_state_t :=
  match table_lookup (Z.land statusword 0x6F) with
  | Some s => s
  | None =>
      if Z.testbit statusword 3 then CIA402_STATE_FAULT
      else CIA402_STATE_NOT_READY
  end.

(** [get_cia402_controlword_for_transition], lines 125-155.  The source
    never calls this function. *)
Definition get_cia402_controlword_for_transition
    (current_state target_state : cia402_state_t) : Z :=
  match current_state with
  | CIA402_STATE_NOT_READY
  | CIA402_STATE_SWITCH_ON_DISABLED =>
      if cia402_state_eqb target_state CIA402_STATE_READY_TO_SWITCH_ON
      then 0x0006 else 0x0006
  | CIA402_STATE_READY_TO_SWITCH_ON =>
      if cia402_state_eqb target_state CIA402_STATE_SWITCHED_ON
      then 0x0007 else 0x0006
  | CIA402_STATE_SWITCHED_ON =>
      if cia402_state_eqb target_state CIA402_STATE_OPERATION_ENABLED
      then 0x000F else 0x0006
  | CIA402_STATE_FAULT => 0x0080
  | _ => 0x0006
  end.

(** The controlword selection of [perform_cia402_transition_to_operational],
    lines 384-408: the fault test followed by the switch. *)
Definition transition_controlword (current_cia402_state : cia402_state_t) : Z :=
  if cia402_state_eqb current_cia402_state CIA402_STATE_FAULT
  then CIA402_CONTROLWORD_FAULT_RESET
  else
    match current_cia402_state with
    | CIA402_STATE_NOT_READY
    | CIA402_STATE_SWITCH_ON_DISABLED => 0x0006
    | CIA402_STATE_READY_TO_SWITCH_ON => 0x0007
    | CIA402_STATE_SWITCHED_ON => 0x000F
    | CIA402_STATE_QUICK_STOP_ACTIVE => 0x0006
    | _ => 0x0006
    end.

(* ================================================================== *)
(** * Process images *)

(** Modelled from the spec: [somanet_rx_pdo_enhanced_t] and
    [somanet_tx_pdo_enhanced_t] are declared in [soem_interface.h], which is
    not part of the sources.  The records carry the fields the source
    accesses and the ones the specification lists for the fixed-layout
    prefix of the process image. *)
Record rx_pdo : Type := {
  controlword : Z;
  modes_of_operation : Z;
  target_torque : Z;
  target_position : Z
}.

Record tx_pdo : Type := {
  statusword : Z;
  modes_of_operation_display : Z;
  position_actual_value : Z;
  velocity_actual_value : Z;
  torque_actual_value : Z
}.

(* ================================================================== *)
(** * SOEM constants (values of SOEM's [ethercattype.h]) *)

Definition EC_STATE_INIT : Z := 0x01.
Definition EC_STATE_PRE_OP : Z := 0x02.
Definition EC_STATE_BOOT : Z := 0x03.
Definition EC_STATE_SAFE_OP : Z := 0x04.
Definition EC_STATE_OPERATIONAL : Z := 0x08.

Definition EC_TIMEOUTRET : Z := 2000.
Definition EC_TIMEOUTRXM : Z := 700000.
Definition EC_TIMEOUTSTATE : Z := 2000000.

(* ================================================================== *)
(** * The transport and the trace of calls *)

(** One event per call into the master library, or per [usleep]. *)
Inductive event : Type :=
| EvSDOwrite (slave index subindex size data wkc : Z)
| EvSDOread (slave index subindex size wkc data : Z)
| EvWriteState (slave state : Z)
| EvStateCheck (slave reqstate timeout ret : Z)
| EvSend (outputs : option rx_pdo)
| EvReceive (wkc : Z) (inputs : tx_pdo)
| EvSleep (usec : Z).

(** The master library over its own state [T].  [T] holds the [ec_slave]
    table, which the source assigns to directly ([slave_set_state],
    [slave_set_ALstatuscode]) and reads ([slave_state]), and the working
    counters of [ec_group[0]].  [elapse] is the passing of time during
    [usleep]. *)
Class Transport (T : Type) : Type := {
  group_outputsWKC : T -> Z;
  group_inputsWKC : T -> Z;
  slave_state : Z -> T -> Z;
  slave_set_state : Z -> Z -> T -> T;
  slave_set_ALstatuscode : Z -> Z -> T -> T;
  ec_writestate : Z -> T -> Z * T;
  ec_statecheck : Z -> Z -> Z -> T -> Z * T;
  ec_SDOwrite : Z -> Z -> Z -> bool -> Z -> Z -> Z -> T -> Z * T;
  ec_SDOread : Z -> Z -> Z -> bool -> Z -> Z -> T -> Z * Z * T;
  ec_send_processdata : option rx_pdo -> T -> Z * T;
  ec_receive_processdata : Z -> T -> Z * tx_pdo * T;
  elapse : Z -> T -> T
}.

(** Floating-point operations the source uses on [float]. *)
Class CFloat (F : Type) : Type := {
  f_mul : F -> F -> F;
  f_1000 : F;
  f_to_int16 : F -> Z;
  f_of_int32 : Z -> F
}.

(* ================================================================== *)
(** * A state monad with divergence *)

Definition M (S A : Type) : Type := S -> option (A * S).

Definition ret {S A : Type} (a : A) : M S A := fun s => Some (a, s).

Definition bind {S A B : Type} (m : M S A) (k : A -> M S B) : M S B :=
  fun s => match m s with
           | Some (a, s') => k a s'
           | None => None
           end.

Definition diverge {S A : Type} : M S A := fun _ => None.

Notation "x <- m ;; k" := (bind m (fun x => k))
  (at level 61, m at next level, right associativity).
Notation "' p <- m ;; k" := (bind m (fun x => let p := x in k))
  (at level 61, p pattern, m at next level, right associativity).
Notation "m ;; k" := (bind m (fun _ => k))
  (at level 61, right associativity).

(* ================================================================== *)
(** * Trace projections *)

(** An SDO write request: index, subindex, size and data. *)
Definition sdo_request : Type := (Z * Z * Z * Z)%type.

Fixpoint sdo_writes (tr : list event) : list (sdo_request * Z) :=
  match tr with
  | [] => []
  | EvSDOwrite _ index subindex size data k :: tr' =>
      ((index, subindex, size, data), k) :: sdo_writes tr'
  | _ :: tr' => sdo_writes tr'
  end.

Fixpoint sdo_transactions (tr : list event) : nat :=
  match tr with
  | [] => O
  | EvSDOwrite _ _ _ _ _ _ :: tr' => S (sdo_transactions tr')
  | EvSDOread _ _ _ _ _ _ :: tr' => S (sdo_transactions tr')
  | _ :: tr' => sdo_transactions tr'
  end.

Fixpoint state_requests (tr : list event) : list (Z * Z) :=
  match tr with
  | [] => []
  | EvWriteState slave st :: tr' => (slave, st) :: state_requests tr'
  | _ :: tr' => state_requests tr'
  end.

Fixpoint received (tr : list event) : list (Z * tx_pdo) :=
  match tr with
  | [] => []
  | EvReceive k img :: tr' => (k, img) :: received tr'
  | _ :: tr' => received tr'
  end.

Fixpoint sent (tr : list event) : list (option rx_pdo) :=
  match tr with
  | [] => []
  | EvSend o :: tr' => o :: sent tr'
  | _ :: tr' => sent tr'
  end.

Fixpoint sleeps (tr : list event) : list Z :=
  match tr with
  | [] => []
  | EvSleep us :: tr' => us :: sleeps tr'
  | _ :: tr' => sleeps tr'
  end.

(* ================================================================== *)
(** * The master side: SDO helpers, slave-state controller, PDO mapping *)

Section Bus.
Context {T : Type} {TR : Transport T}.

(** The master state together with the trace of the calls made so far. *)
Record bus : Type := { tp : T; trace : list event }.

Definition emit (t : T) (e : event) (b : bus) : bus :=
  {| tp := t; trace := trace b ++ [e] |}.

Definition usleep (usec : Z) : M bus unit :=
  fun b => Some (tt, emit (elapse usec (tp b)) (EvSleep usec) b).

(** [ec_slave[slave].state = st; ec_writestate(slave);] *)
Definition request_state (slave st : Z) : M bus unit :=
  fun b =>
    let '(_, t) := ec_writestate slave (slave_set_state slave st (tp b)) in
    Some (tt, emit t (EvWriteState slave st) b).

Definition statecheck (slave reqstate timeout : Z) : M bus Z :=
  fun b =>
    let '(r, t) := ec_statecheck slave reqstate timeout (tp b) in
    Some (r, emit t (EvStateCheck slave reqstate timeout r) b).

Definition clear_ALstatuscode (slave : Z) : M bus unit :=
  fun b => Some (tt, {| tp := slave_set_ALstatuscode slave 0 (tp b);
                        trace := trace b |}).

Definition read_slave_state (slave : Z) : M bus Z :=
  fun b => Some (slave_state slave (tp b), b).

(** [is_slave_operational], lines 250-253. *)
Definition is_slave_operational (slave_idx : Z) : M bus bool :=
  st <- read_slave_state slave_idx ;;
  ret (Z.land st 0x0F =? EC_STATE_OPERATIONAL).

(** [soem_interface_write_sdo], lines 269-277. *)
Definition soem_interface_write_sdo
    (slave_idx index subindex data_size data : Z) : M bus Z :=
  fun b =>
    let '(wkc_sdo, t) :=
      ec_SDOwrite slave_idx index subindex false data_size data
                  EC_TIMEOUTRXM (tp b) in
    let b' := emit t (EvSDOwrite slave_idx index subindex data_size data
                                 wkc_sdo) b in
    if wkc_sdo =? 0 then Some (-1, b') else Some (0, b').

(** [soem_interface_read_sdo], lines 279-288: the status and the content
    of the buffer after the call. *)
Definition soem_interface_read_sdo
    (slave_idx index subindex data_size : Z) : M bus (Z * Z) :=
  fun b =>
    let '(wkc_sdo, data, t) :=
      ec_SDOread slave_idx index subindex false data_size
                 EC_TIMEOUTRXM (tp b) in
    let b' := emit t (EvSDOread slave_idx index subindex data_size
                                wkc_sdo data) b in
    if wkc_sdo =? 0 then Some (-1, data, b') else Some (0, data, b').

(** ** Slave-state controller *)

Definition max_retries : Z := 5.

(** The body of the retry loop of [soem_interface_set_ethercat_state],
    lines 296-343: [Some r] when the body returns [r], [None] when control
    reaches [retry_count++]. *)
Definition set_state_attempt (slave_idx desired_state : Z)
  : M bus (option Z) :=
  clear_ALstatuscode slave_idx ;;
  request_state slave_idx desired_state ;;
  usleep 20000 ;;
  wkc_state <- statecheck slave_idx desired_state EC_TIMEOUTSTATE ;;
  st <- read_slave_state slave_idx ;;
  if (0 <? wkc_state) && (Z.land st 0x0F =? desired_state)
  then ret (Some 0)
  else
    if (desired_state =? EC_STATE_OPERATIONAL)
       && (Z.land st 0x0F =? EC_STATE_PRE_OP)
    then
      request_state slave_idx EC_STATE_SAFE_OP ;;
      usleep 200000 ;;
      safe <- statecheck slave_idx EC_STATE_SAFE_OP (EC_TIMEOUTSTATE * 2) ;;
      if 0 <? safe then
        request_state slave_idx EC_STATE_OPERATIONAL ;;
        usleep 200000 ;;
        op <- statecheck slave_idx EC_STATE_OPERATIONAL
                         (EC_TIMEOUTSTATE * 2) ;;
        if 0 <? op then ret (Some 0) else ret None
      else ret None
    else ret None.

(** The loop [while (retry_count < max_retries)], with the fall-through
    [return -1] of line 354. *)
Fixpoint set_state_loop (fuel : nat) (slave_idx desired_state : Z)
    (retry_count : Z) : M bus Z :=
  if retry_count <? max_retries then
    match fuel with
    | O => diverge
    | S fuel' =>
        r <- set_state_attempt slave_idx desired_state ;;
        match r with
        | Some v => ret v
        | None =>
            let retry_count := retry_count + 1 in
            (if retry_count <? max_retries then usleep 50000 else ret tt) ;;
            set_state_loop fuel' slave_idx desired_state retry_count
        end
    end
  else ret (-1).

(** [soem_interface_set_ethercat_state], lines 291-355. *)
Definition soem_interface_set_ethercat_state
    (slave_idx desired_state : Z) : M bus Z :=
  set_state_loop (Z.to_nat max_retries) slave_idx desired_state 0.

(** ** PDO mapping configuration *)

(** [if (rc != 0) return -1;] *)
Definition or_fail (rc : Z) (k : M bus Z) : M bus Z :=
  if rc =? 0 then k else ret (-1).

(** The comparison loop of lines 570-580, entered when the count read
    from the drive equals [num_mapped_objects]; [i] is the loop index and
    [mapped_objects] the entries from [i] on. *)
Fixpoint mapping_entries_match (slave_idx pdo_map_idx i : Z)
    (mapped_objects : list Z) : M bus bool :=
  match mapped_objects with
  | [] => ret true
  | obj :: rest =>
      ' (rc, current_object) <-
        soem_interface_read_sdo slave_idx pdo_map_idx (uint8 (i + 1)) 4 ;;
      if rc =? 0 then
        if uint32 current_object =? obj
        then mapping_entries_match slave_idx pdo_map_idx (i + 1) rest
        else ret false
      else ret false
  end.

(** Step 1, lines 562-587: [true] when the function returns 0 there. *)
Definition mapping_already_matches (slave_idx pdo_map_idx : Z)
    (mapped_objects : list Z) : M bus bool :=
  let num_mapped_objects := Z.of_nat (length mapped_objects) in
  ' (rc, current_num_objects) <-
    soem_interface_read_sdo slave_idx pdo_map_idx 0x00 1 ;;
  if rc =? 0 then
    if uint8 current_num_objects =? num_mapped_objects
    then mapping_entries_match slave_idx pdo_map_idx 0 mapped_objects
    else ret false
  else ret false.

(** Step 4, lines 607-614: [0] when every write succeeded. *)
Fixpoint write_mapping_objects (slave_idx pdo_map_idx i : Z)
    (mapped_objects : list Z) : M bus Z :=
  match mapped_objects with
  | [] => ret 0
  | obj :: rest =>
      rc <- soem_interface_write_sdo slave_idx pdo_map_idx
                                     (uint8 (i + 1)) 4 obj ;;
      or_fail rc
        (usleep 20000 ;;
         write_mapping_objects slave_idx pdo_map_idx (i + 1) rest)
  end.

Definition zero_val : Z := 0.
Definition original_assign_val : Z := 1.

(** Steps 2 to 7, lines 589-648. *)
Definition rewrite_pdo_mapping (slave_idx pdo_assign_idx pdo_map_idx : Z)
    (mapped_objects : list Z) : M bus Z :=
  let num_mapped_objects := Z.of_nat (length mapped_objects) in
  rc <- soem_interface_write_sdo slave_idx pdo_assign_idx 0x00 1 zero_val ;;
  or_fail rc (
  usleep 50000 ;;
  rc <- soem_interface_write_sdo slave_idx pdo_map_idx 0x00 1 zero_val ;;
  or_fail rc (
  usleep 50000 ;;
  rc <- write_mapping_objects slave_idx pdo_map_idx 0 mapped_objects ;;
  or_fail rc (
  rc <- soem_interface_write_sdo slave_idx pdo_map_idx 0x00 1
                                 num_mapped_objects ;;
  or_fail rc (
  usleep 50000 ;;
  rc <- soem_interface_write_sdo slave_idx pdo_assign_idx 0x00 1
                                 original_assign_val ;;
  or_fail rc (
  usleep 50000 ;;
  ' (rc, verified_num_objects) <-
    soem_interface_read_sdo slave_idx pdo_map_idx 0x00 1 ;;
  if rc =? 0 then
    if uint8 verified_num_objects =? num_mapped_objects
    then ret 0 else ret (-1)
  else ret (-1)))))).

(** [soem_interface_configure_pdo_mapping_enhanced], lines 545-649.  The
    array [mapped_objects] comes with its length: [num_mapped_objects] is
    the length of the list (a [uint8_t], so at most 255 entries). *)
Definition soem_interface_configure_pdo_mapping_enhanced
    (slave_idx pdo_assign_idx pdo_map_idx : Z) (mapped_objects : list Z)
  : M bus Z :=
  rc <- soem_interface_set_ethercat_state slave_idx EC_STATE_PRE_OP ;;
  or_fail rc (
  usleep 100000 ;;
  matches <- mapping_already_matches slave_idx pdo_map_idx mapped_objects ;;
  if (matches : bool) then ret 0
  else rewrite_pdo_mapping slave_idx pdo_assign_idx pdo_map_idx
                           mapped_objects).

Definition rxpdo_mapping : list Z :=
  [0x60400010; 0x60600008; 0x60710010; 0x607A0020].
Definition txpdo_mapping : list Z :=
  [0x60410010; 0x60610008; 0x60640020; 0x60770010].

(** [configure_somanet_pdo_mapping_enhanced], lines 702-740. *)
Definition configure_somanet_pdo_mapping_enhanced (slave_idx : Z) : M bus Z :=
  rc <- soem_interface_set_ethercat_state slave_idx EC_STATE_INIT ;;
  or_fail rc (
  rc <- soem_interface_set_ethercat_state slave_idx EC_STATE_PRE_OP ;;
  or_fail rc (
  ' (rc, _) <- soem_interface_read_sdo slave_idx 0x1C12 0x00 1 ;;
  if negb (rc =? 0) then ret 0
  else
    _ <- soem_interface_configure_pdo_mapping_enhanced
           slave_idx 0x1C12 0x1600 rxpdo_mapping ;;
    _ <- soem_interface_configure_pdo_mapping_enhanced
           slave_idx 0x1C13 0x1A00 txpdo_mapping ;;
    ret 0)).

End Bus.

Arguments bus T : clear implicits.

(* ================================================================== *)
(** * The cyclic side: shared variables, CiA 402 bring-up, cyclic loop *)

Section Cyclic.
Context {T : Type} {TR : Transport T} {F : Type} {FL : CFloat F}.

(** The file-scope variables of the source together with the master.
    [somanet_outputs] and [somanet_inputs] are [None] for a null pointer
    and otherwise hold the content of the process image they point to. *)
Record world : Type := {
  ec : bus T;
  somanet_outputs : option rx_pdo;
  somanet_inputs : option tx_pdo;
  wkc : Z;
  expectedWKC : Z;
  master_initialized : Z;
  communication_ok : Z;
  target_torque_f : F;
  current_position_f : F;
  current_velocity_f : F;
  current_cia402_state : cia402_state_t;
  current_statusword : Z;
  current_controlword : Z
}.

Definition set_ec (b : bus T) (w : world) : world :=
  {| ec := b; somanet_outputs := somanet_outputs w;
     somanet_inputs := somanet_inputs w; wkc := wkc w;
     expectedWKC := expectedWKC w;
     master_initialized := master_initialized w;
     communication_ok := communication_ok w;
     target_torque_f := target_torque_f w;
     current_position_f := current_position_f w;
     current_velocity_f := current_velocity_f w;
     current_cia402_state := current_cia402_state w;
     current_statusword := current_statusword w;
     current_controlword := current_controlword w |}.

Definition set_outputs (o : option rx_pdo) (w : world) : world :=
  {| ec := ec w; somanet_outputs := o;
     somanet_inputs := somanet_inputs w; wkc := wkc w;
     expectedWKC := expectedWKC w;
     master_initialized := master_initialized w;
     communication_ok := communication_ok w;
     target_torque_f := target_torque_f w;
     current_position_f := current_position_f w;
     current_velocity_f := current_velocity_f w;
     current_cia402_state := current_cia402_state w;
     current_statusword := current_statusword w;
     current_controlword := current_controlword w |}.

Definition set_inputs (i : option tx_pdo) (w : world) : world :=
  {| ec := ec w; somanet_outputs := somanet_outputs w;
     somanet_inputs := i; wkc := wkc w;
     expectedWKC := expectedWKC w;
     master_initialized := master_initialized w;
     communication_ok := communication_ok w;
     target_torque_f := target_torque_f w;
     current_position_f := current_position_f w;
     current_velocity_f := current_velocity_f w;
     current_cia402_state := current_cia402_state w;
     current_statusword := current_statusword w;
     current_controlword := current_controlword w |}.

Definition set_wkc (v : Z) (w : world) : world :=
  {| ec := ec w; somanet_outputs := somanet_outputs w;
     somanet_inputs := somanet_inputs w; wkc := v;
     expectedWKC := expectedWKC w;
     master_initialized := master_initialized w;
     communication_ok := communication_ok w;
     target_torque_f := target_torque_f w;
     current_position_f := current_position_f w;
     current_velocity_f := current_velocity_f w;
     current_cia402_state := current_cia402_state w;
     current_statusword := current_statusword w;
     current_controlword := current_controlword w |}.

Definition set_expectedWKC (v : Z) (w : world) : world :=
  {| ec := ec w; somanet_outputs := somanet_outputs w;
     somanet_inputs := somanet_inputs w; wkc := wkc w;
     expectedWKC := v;
     master_initialized := master_initialized w;
     communication_ok := communication_ok w;
     target_torque_f := target_torque_f w;
     current_position_f := current_position_f w;
     current_velocity_f := current_velocity_f w;
     current_cia402_state := current_cia402_state w;
     current_statusword := current_statusword w;
     current_controlword := current_controlword w |}.

Definition set_communication_ok (v : Z) (w : world) : world :=
  {| ec := ec w; somanet_outputs := somanet_outputs w;
     somanet_inputs := somanet_inputs w; wkc := wkc w;
     expectedWKC := expectedWKC w;
     master_initialized := master_initialized w;
     communication_ok := v;
     target_torque_f := target_torque_f w;
     current_position_f := current_position_f w;
     current_velocity_f := current_velocity_f w;
     current_cia402_state := current_cia402_state w;
     current_statusword := current_statusword w;
     current_controlword := current_controlword w |}.

Definition set_target_torque_f (v : F) (w : world) : world :=
  {| ec := ec w; somanet_outputs := somanet_outputs w;
     somanet_inputs := somanet_inputs w; wkc := wkc w;
     expectedWKC := expectedWKC w;
     master_initialized := master_initialized w;
     communication_ok := communication_ok w;
     target_torque_f := v;
     current_position_f := current_position_f w;
     current_velocity_f := current_velocity_f w;
     current_cia402_state := current_cia402_state w;
     current_statusword := current_statusword w;
     current_controlword := current_controlword w |}.

Definition set_current_position_f (v : F) (w : world) : world :=
  {| ec := ec w; somanet_outputs := somanet_outputs w;
     somanet_inputs := somanet_inputs w; wkc := wkc w;
     expectedWKC := expectedWKC w;
     master_initialized := master_initialized w;
     communication_ok := communication_ok w;
     target_torque_f := target_torque_f w;
     current_position_f := v;
     current_velocity_f := current_velocity_f w;
     current_cia402_state := current_cia402_state w;
     current_statusword := current_statusword w;
     current_controlword := current_controlword w |}.

Definition set_current_velocity_f (v : F) (w : world) : world :=
  {| ec := ec w; somanet_outputs := somanet_outputs w;
     somanet_inputs := somanet_inputs w; wkc := wkc w;
     expectedWKC := expectedWKC w;
     master_initialized := master_initialized w;
     communication_ok := communication_ok w;
     target_torque_f := target_torque_f w;
     current_position_f := current_position_f w;
     current_velocity_f := v;
     current_cia402_state := current_cia402_state w;
     current_statusword := current_statusword w;
     current_controlword := current_controlword w |}.

Definition set_current_cia402_state (v : cia402_state_t) (w : world)
  : world :=
  {| ec := ec w; somanet_outputs := somanet_outputs w;
     somanet_inputs := somanet_inputs w; wkc := wkc w;
     expectedWKC := expectedWKC w;
     master_initialized := master_initialized w;
     communication_ok := communication_ok w;
     target_torque_f := target_torque_f w;
     current_position_f := current_position_f w;
     current_velocity_f := current_velocity_f w;
     current_cia402_state := v;
     current_statusword := current_statusword w;
     current_controlword := current_controlword w |}.

Definition set_current_statusword (v : Z) (w : world) : world :=
  {| ec := ec w; somanet_outputs := somanet_outputs w;
     somanet_inputs := somanet_inputs w; wkc := wkc w;
     expectedWKC := expectedWKC w;
     master_initialized := master_initialized w;
     communication_ok := communication_ok w;
     target_torque_f := target_torque_f w;
     current_position_f := current_position_f w;
     current_velocity_f := current_velocity_f w;
     current_cia402_state := current_cia402_state w;
     current_statusword := v;
     current_controlword := current_controlword w |}.

Definition set_current_controlword (v : Z) (w : world) : world :=
  {| ec := ec w; somanet_outputs := somanet_outputs w;
     somanet_inputs := somanet_inputs w; wkc := wkc w;
     expectedWKC := expectedWKC w;
     master_initialized := master_initialized w;
     communication_ok := communication_ok w;
     target_torque_f := target_torque_f w;
     current_position_f := current_position_f w;
     current_velocity_f := current_velocity_f w;
     current_cia402_state := current_cia402_state w;
     current_statusword := current_statusword w;
     current_controlword := v |}.

(** Field updates of the output image. *)
Definition with_controlword (v : Z) (o : rx_pdo) : rx_pdo :=
  {| controlword := v; modes_of_operation := modes_of_operation o;
     target_torque := target_torque o;
     target_position := target_position o |}.

Definition with_modes_of_operation (v : Z) (o : rx_pdo) : rx_pdo :=
  {| controlword := controlword o; modes_of_operation := v;
     target_torque := target_torque o;
     target_position := target_position o |}.

Definition with_target_torque (v : Z) (o : rx_pdo) : rx_pdo :=
  {| controlword := controlword o;
     modes_of_operation := modes_of_operation o;
     target_torque := v; target_position := target_position o |}.

(** Running a master-side computation inside the world. *)
Definition on_bus {A : Type} (m : M (bus T) A) : M world A :=
  fun w => match m (ec w) with
           | Some (a, b) => Some (a, set_ec b w)
           | None => None
           end.

Definition update (f : world -> world) : M world unit :=
  fun w => Some (tt, f w).

Definition gets {A : Type} (f : world -> A) : M world A :=
  fun w => Some (f w, w).

(** [ec_send_processdata()]: the master sends the output image. *)
Definition send_processdata : M world Z :=
  fun w =>
    let '(r, t) := ec_send_processdata (somanet_outputs w) (tp (ec w)) in
    Some (r, set_ec (emit t (EvSend (somanet_outputs w)) (ec w)) w).

(** [ec_receive_processdata(timeout)]: the master overwrites the input
    image and returns the working counter. *)
Definition receive_processdata (timeout : Z) : M world Z :=
  fun w =>
    let '(k, img, t) := ec_receive_processdata timeout (tp (ec w)) in
    let i := match somanet_inputs w with
             | Some _ => Some img
             | None => None
             end in
    Some (k, set_inputs i (set_ec (emit t (EvReceive k img) (ec w)) w)).

(** ** CiA 402 bring-up *)

Definition max_attempts : Z := 50.

(** The body of the loop of [perform_cia402_transition_to_operational],
    lines 365-422: [Some r] when the body returns [r], [None] when it
    runs to its end. *)
Definition cia402_attempt : M world (option Z) :=
  inputs <- gets somanet_inputs ;;
  match inputs with
  | None => ret (Some (-1))
  | Some img =>
      update (set_current_statusword (statusword img)) ;;
      sw <- gets current_statusword ;;
      update (set_current_cia402_state (get_cia402_state sw)) ;;
      st <- gets current_cia402_state ;;
      if cia402_state_eqb st CIA402_STATE_OPERATION_ENABLED
      then ret (Some 0)
      else
        update (set_current_controlword (transition_controlword st)) ;;
        cw <- gets current_controlword ;;
        update (fun w => set_outputs
                           (option_map (with_controlword cw)
                                       (somanet_outputs w)) w) ;;
        send_processdata ;;
        k <- receive_processdata EC_TIMEOUTRET ;;
        update (set_wkc k) ;;
        ret None
  end.

(** The loop [while (attempt < max_attempts)] and the fall-through
    [return -1] of line 426. *)
Fixpoint cia402_loop (fuel : nat) (attempt : Z) : M world Z :=
  if attempt <? max_attempts then
    match fuel with
    | O => diverge
    | S fuel' =>
        r <- cia402_attempt ;;
        match r with
        | Some v => ret v
        | None =>
            let attempt := attempt + 1 in
            on_bus (usleep 5000) ;;
            cia402_loop fuel' attempt
        end
    end
  else ret (-1).

(** [perform_cia402_transition_to_operational], lines 358-427. *)
Definition perform_cia402_transition_to_operational (slave_idx : Z)
  : M world Z :=
  cia402_loop (Z.to_nat max_attempts) 0.

(** ** The cyclic thread *)

(** Line 837 of [soem_interface_init_enhanced], the only assignment to
    [expectedWKC] in the source. *)
Definition assign_expectedWKC (w : world) : world :=
  set_expectedWKC (group_outputsWKC (tp (ec w)) * 2
                   + group_inputsWKC (tp (ec w))) w.

(** Lines 449-462: the output image written under the mutex. *)
Definition write_output_image (w : world) : world :=
  match somanet_outputs w with
  | Some o =>
      let o :=
        if cia402_state_eqb (current_cia402_state w)
                            CIA402_STATE_OPERATION_ENABLED
        then with_target_torque
               (f_to_int16 (f_mul (target_torque_f w) f_1000)) o
        else with_target_torque 0 o in
      let o := with_controlword (current_controlword w) o in
      let o := with_modes_of_operation 4 o in
      set_outputs (Some o) w
  | None => w
  end.

(** Lines 478-485: the telemetry read from the input image under the
    mutex. *)
Definition read_input_image (w : world) : world :=
  match somanet_inputs w with
  | Some img =>
      let w := set_current_statusword (statusword img) w in
      let w := set_current_cia402_state
                 (get_cia402_state (current_statusword w)) w in
      let w := set_current_position_f
                 (f_of_int32 (position_actual_value img)) w in
      set_current_velocity_f (f_of_int32 (velocity_actual_value img)) w
  | None => w
  end.

Definition is_some {A : Type} (o : option A) : bool :=
  match o with Some _ => true | None => false end.

(** One iteration of [while (ecat_thread_running)], lines 448-505;
    the argument and the result are [state_machine_initialized]. *)
Definition ecat_cycle (slave_idx : Z) (state_machine_initialized : bool)
  : M world bool :=
  update write_output_image ;;
  send_processdata ;;
  k <- receive_processdata EC_TIMEOUTRET ;;
  update (set_wkc k) ;;
  on_bus (usleep 5000) ;;
  w <- gets (fun w => w) ;;
  smi <-
    (if wkc w >=? expectedWKC w then
       update (set_communication_ok 1) ;;
       update read_input_image ;;
       if negb state_machine_initialized
          && is_some (somanet_inputs w) && is_some (somanet_outputs w)
       then
         r <- perform_cia402_transition_to_operational slave_idx ;;
         if r =? 0 then ret true else ret state_machine_initialized
       else ret state_machine_initialized
     else
       update (set_communication_ok 0) ;;
       ret state_machine_initialized) ;;
  op <- on_bus (is_slave_operational slave_idx) ;;
  (if negb op
   then _ <- on_bus (statecheck slave_idx EC_STATE_OPERATIONAL
                                EC_TIMEOUTSTATE) ;; ret tt
   else ret tt) ;;
  on_bus (usleep 1000) ;;
  ret smi.

(** [soem_interface_send_and_receive_pdo], lines 910-916. *)
Definition soem_interface_send_and_receive_pdo (target_torque : F)
    (w : world) : world :=
  if truthy (master_initialized w)
  then set_target_torque_f target_torque w
  else w.

(** What the control thread and the stop flag do between two iterations:
    the value of [ecat_thread_running] read by the loop test, and the
    setpoint the control thread requested since the previous iteration,
    if any. *)
Record tick : Type := {
  ecat_thread_running : bool;
  requested_torque : option F
}.

Definition control_thread (tk : tick) (w : world) : world :=
  match requested_torque tk with
  | Some v => soem_interface_send_and_receive_pdo v w
  | None => w
  end.

(** The cyclic loop of [ecat_loop], lines 447-506, over the ticks
    observed; the thread is still running when the observation ends. *)
Fixpoint ecat_loop (ticks : list tick) (state_machine_initialized : bool)
  : M world unit :=
  match ticks with
  | [] => diverge
  | tk :: rest =>
      if ecat_thread_running tk then
        update (control_thread tk) ;;
        smi <- ecat_cycle 1 state_machine_initialized ;;
        ecat_loop rest smi
      else ret tt
  end.

(** The telemetry getters, lines 918-944. *)
Definition soem_interface_get_current_position (w : world) : F :=
  current_position_f w.
Definition soem_interface_get_current_velocity (w : world) : F :=
  current_velocity_f w.
Definition soem_interface_get_communication_status (w : world) : Z :=
  communication_ok w.
Definition soem_interface_get_cia402_state (w : world) : cia402_state_t :=
  current_cia402_state w.
Definition soem_interface_get_statusword (w : world) : Z :=
  current_statusword w.

End Cyclic.

Arguments world T F : clear implicits.
Arguments tick F : clear implicits.

(* ================================================================== *)
(** * A scripted drive

    A concrete transport for closed examples.  The object dictionary
    stores what is written.  Three scripts decide what the bus does next:
    which SDO transactions fail, what the coming state checks return and
    leave in [ec_slave[].state], and what the coming process-data exchanges
    return.  Once a script is used up the drive is well behaved: SDO
    transactions succeed, a state check confirms the requested state, an
    exchange returns working counter 3 and an all-zero image. *)

Record drive : Type := {
  d_od : Z -> Z -> option Z;
  d_sdo_faults : list bool;
  d_state : Z;
  d_checks : list (Z * Z);
  d_exchanges : list (Z * tx_pdo)
}.

Definition od_store (index subindex v : Z) (od : Z -> Z -> option Z)
  : Z -> Z -> option Z :=
  fun i s => if (i =? index) && (s =? subindex) then Some v else od i s.

Definition zero_image : tx_pdo :=
  {| statusword := 0; modes_of_operation_display := 0;
     position_actual_value := 0; velocity_actual_value := 0;
     torque_actual_value := 0 |}.

Definition next_fault (d : drive) : bool * list bool :=
  match d_sdo_faults d with
  | [] => (false, [])
  | f :: rest => (f, rest)
  end.

Definition drive_SDOwrite (slave index subindex : Z) (ca : bool)
    (size data timeout : Z) (d : drive) : Z * drive :=
  let '(fault, rest) := next_fault d in
  if fault then
    (0, {| d_od := d_od d; d_sdo_faults := rest; d_state := d_state d;
           d_checks := d_checks d; d_exchanges := d_exchanges d |})
  else
    (1, {| d_od := od_store index subindex data (d_od d);
           d_sdo_faults := rest; d_state := d_state d;
           d_checks := d_checks d; d_exchanges := d_exchanges d |}).

Definition drive_SDOread (slave index subindex : Z) (ca : bool)
    (size timeout : Z) (d : drive) : Z * Z * drive :=
  let '(fault, rest) := next_fault d in
  let d' := {| d_od := d_od d; d_sdo_faults := rest; d_state := d_state d;
               d_checks := d_checks d; d_exchanges := d_exchanges d |} in
  if fault then (0, 0, d')
  else match d_od d index subindex with
       | Some v => (1, v, d')
       | None => (0, 0, d')
       end.

Definition drive_set_state (slave st : Z) (d : drive) : drive :=
  {| d_od := d_od d; d_sdo_faults := d_sdo_faults d; d_state := st;
     d_checks := d_checks d; d_exchanges := d_exchanges d |}.

Definition drive_statecheck (slave reqstate timeout : Z) (d : drive)
  : Z * drive :=
  match d_checks d with
  | [] => (reqstate, drive_set_state slave reqstate d)
  | (r, st) :: rest =>
      (r, {| d_od := d_od d; d_sdo_faults := d_sdo_faults d; d_state := st;
             d_checks := rest; d_exchanges := d_exchanges d |})
  end.

Definition drive_receive (timeout : Z) (d : drive) : Z * tx_pdo * drive :=
  match d_exchanges d with
  | [] => (3, zero_image, d)
  | (k, img) :: rest =>
      (k, img, {| d_od := d_od d; d_sdo_faults := d_sdo_faults d;
                  d_state := d_state d; d_checks := d_checks d;
                  d_exchanges := rest |})
  end.

#[export] Instance drive_transport : Transport drive := {
  group_outputsWKC := fun _ => 1;
  group_inputsWKC := fun _ => 1;
  slave_state := fun _ d => d_state d;
  slave_set_state := drive_set_state;
  slave_set_ALstatuscode := fun _ _ d => d;
  ec_writestate := fun _ d => (1, d);
  ec_statecheck := drive_statecheck;
  ec_SDOwrite := drive_SDOwrite;
  ec_SDOread := drive_SDOread;
  ec_send_processdata := fun _ d => (1, d);
  ec_receive_processdata := drive_receive;
  elapse := fun _ d => d
}.

(** The low 16 bits of an integer, read as an [int16_t]. *)
Definition int16 (v : Z) : Z := (v + 2 ^ 15) mod 2 ^ 16 - 2 ^ 15.

(** A stand-in for [float] for the closed examples only: exact rational
    arithmetic, not IEEE binary32.  Products are not rounded and
    [f_of_int32] is exact, so it agrees with the C code only where binary32
    is exact; it differs, for instance, on 0.01f * 1000.0f and on integers
    above 2^24.  The conversion to [int16_t] drops the fractional part and
    keeps the low 16 bits.  The theorems are stated for every [CFloat] and
    none depends on this instance. *)
#[export] Instance rational_float : CFloat Q := {
  f_mul := Qmult;
  f_1000 := 1000 # 1;
  f_to_int16 := fun q => int16 (Z.quot (Qnum q) (Z.pos (Qden q)));
  f_of_int32 := inject_Z
}.

(** A drive whose object dictionary holds the given entries. *)
Fixpoint od_of_list (l : list (Z * Z * Z)) : Z -> Z -> option Z :=
  match l with
  | [] => fun _ _ => None
  | (i, s, v) :: rest => od_store i s v (od_of_list rest)
  end.

Definition quiet_drive (od : Z -> Z -> option Z) (st : Z) : drive :=
  {| d_od := od; d_sdo_faults := []; d_state := st; d_checks := [];
     d_exchanges := [] |}.

Definition fresh_bus (d : drive) : bus drive := {| tp := d; trace := [] |}.

Definition fresh_world (d : drive) (o : option rx_pdo) (i : option tx_pdo)
    (st : cia402_state_t) (torque : Q) : world drive Q :=
  {| ec := fresh_bus d; somanet_outputs := o; somanet_inputs := i;
     wkc := 0; expectedWKC := 3; master_initialized := 1;
     communication_ok := 0; target_torque_f := torque;
     current_position_f := 0%Q; current_velocity_f := 0%Q;
     current_cia402_state := st; current_statusword := 0;
     current_controlword := 0 |}.

(** ** Concrete drives and worlds used in the examples *)

(** A dictionary with two PDOs assigned and three of the four RxPDO
    entries mapped. *)
Definition partial_od : Z -> Z -> option Z :=
  od_of_list [(0x1C12, 0, 2); (0x1600, 0, 3); (0x1600, 1, 0x60400010);
              (0x1600, 2, 0x60600008); (0x1600, 3, 0x60710010)].

(** A dictionary that already holds the RxPDO mapping. *)
Definition mapped_od : Z -> Z -> option Z :=
  od_of_list [(0x1C12, 0, 1); (0x1600, 0, 4); (0x1600, 1, 0x60400010);
              (0x1600, 2, 0x60600008); (0x1600, 3, 0x60710010);
              (0x1600, 4, 0x607A0020)].

(** The tenth SDO transaction, the read-back of step 7, fails. *)
Definition read_back_fails : drive :=
  {| d_od := partial_od; d_sdo_faults := repeat false 9 ++ [true];
     d_state := EC_STATE_PRE_OP; d_checks := []; d_exchanges := [] |}.

(** The slave answers the first state check from PRE-OP and then stops
    answering. *)
Definition stuck_in_pre_op : drive :=
  {| d_od := partial_od; d_sdo_faults := [];
     d_state := EC_STATE_PRE_OP;
     d_checks := [(EC_STATE_PRE_OP, EC_STATE_PRE_OP); (0, 0)];
     d_exchanges := [] |}.

(** Every state check fails and leaves PRE-OP in [ec_slave[].state]. *)
Definition never_confirms : drive :=
  {| d_od := partial_od; d_sdo_faults := [];
     d_state := EC_STATE_PRE_OP;
     d_checks := repeat (0, EC_STATE_PRE_OP) 10;
     d_exchanges := [] |}.

(** Every state check fails and leaves INIT in [ec_slave[].state]. *)
Definition stays_in_init : drive :=
  {| d_od := partial_od; d_sdo_faults := [];
     d_state := EC_STATE_INIT;
     d_checks := repeat (0, EC_STATE_INIT) 5;
     d_exchanges := [] |}.

Definition enabled_image : tx_pdo :=
  {| statusword := 0x0237; modes_of_operation_display := 4;
     position_actual_value := 100; velocity_actual_value := 7;
     torque_actual_value := 0 |}.

Definition ready_image : tx_pdo :=
  {| statusword := 0x0231; modes_of_operation_display := 4;
     position_actual_value := 0; velocity_actual_value := 0;
     torque_actual_value := 0 |}.

Definition some_outputs : rx_pdo :=
  {| controlword := 0; modes_of_operation := 0; target_torque := 55;
     target_position := 0 |}.

(** One exchange with working counter 2, below the expected 3. *)
Definition degraded_drive : drive :=
  {| d_od := partial_od; d_sdo_faults := [];
     d_state := EC_STATE_OPERATIONAL; d_checks := [];
     d_exchanges := [(2, enabled_image)] |}.

(** One exchange with working counter 3. *)
Definition healthy_drive : drive :=
  {| d_od := partial_od; d_sdo_faults := [];
     d_state := EC_STATE_OPERATIONAL; d_checks := [];
     d_exchanges := [(3, enabled_image)] |}.



(** The frame claim read literally: the configuration requests no slave
    state and leaves the state of the slave as it was. *)
Definition configuration_requests_no_state : Prop :=
  forall (d : drive) (r : Z) (b' : bus drive),
    soem_interface_configure_pdo_mapping_enhanced
      1 0x1C12 0x1600 rxpdo_mapping (fresh_bus d)
    = Some (r, b') ->
    state_requests (trace b') = [] /\ d_state (tp b') = d_state d.

(** The escalation claim read literally: an attempt for OPERATIONAL that
    finds the slave in PRE-OP always requests SAFE-OP and then OPERATIONAL
    again. *)
Definition escalation_always_rerequests : Prop :=
  forall (d : drive) (k : Z) (b1 : bus drive),
    (clear_ALstatuscode 1 ;;
     request_state 1 EC_STATE_OPERATIONAL ;;
     usleep 20000 ;;
     statecheck 1 EC_STATE_OPERATIONAL EC_TIMEOUTSTATE) (fresh_bus d)
    = Some (k, b1) ->
    Z.land (slave_state 1 (tp b1)) 0x0F = EC_STATE_PRE_OP ->
    exists r b',
      set_state_attempt 1 EC_STATE_OPERATIONAL (fresh_bus d) = Some (r, b')
      /\ state_requests (trace b')
         = [(1, EC_STATE_OPERATIONAL); (1, EC_STATE_SAFE_OP);
            (1, EC_STATE_OPERATIONAL)].

(* ================================================================== *)
(** * Vocabulary of the statements *)

(** The state requests one attempt may issue for [desired_state]: the
    request itself, then, only when OPERATIONAL is asked for, SAFE-OP, and
    after SAFE-OP an OPERATIONAL request again. *)
Definition attempt_block (slave_idx desired_state : Z) (blk : list (Z * Z))
  : Prop :=
  blk = [(slave_idx, desired_state)]
  \/ (desired_state = EC_STATE_OPERATIONAL
      /\ (blk = [(slave_idx, EC_STATE_OPERATIONAL);
                 (slave_idx, EC_STATE_SAFE_OP)]
          \/ blk = [(slave_idx, EC_STATE_OPERATIONAL);
                    (slave_idx, EC_STATE_SAFE_OP);
                    (slave_idx, EC_STATE_OPERATIONAL)])).

(** [follows plan ws c]: the writes [ws] carry out [plan] in order, every
    write but possibly the last succeeded, and nothing follows a failed
    write; [c] tells whether the whole plan was carried out. *)
Inductive follows : list sdo_request -> list (sdo_request * Z) -> bool -> Prop :=
| follows_done : follows [] [] true
| follows_ok (q : sdo_request) (k : Z) plan ws c :
    k <> 0 -> follows plan ws c -> follows (q :: plan) ((q, k) :: ws) c
| follows_abort (q : sdo_request) plan : follows (q :: plan) [(q, 0)] false.

(** The write sequence in the words of the specification, for
    [n = length mapped_objects] entries. *)
Definition planned_writes (pdo_assign_idx pdo_map_idx : Z)
    (mapped_objects : list Z) : list sdo_request :=
  [(pdo_assign_idx, 0, 1, 0); (pdo_map_idx, 0, 1, 0)]
  ++ map (fun e => (pdo_map_idx, Z.of_nat (fst e), 4, snd e))
         (combine (seq 1 (length mapped_objects)) mapped_objects)
  ++ [(pdo_map_idx, 0, 1, Z.of_nat (length mapped_objects));
      (pdo_assign_idx, 0, 1, 1)].

(** The requests of step 4 as the source issues them, from index [i]. *)
Fixpoint entry_writes (pdo_map_idx i : Z) (mapped_objects : list Z)
  : list sdo_request :=
  match mapped_objects with
  | [] => []
  | obj :: rest =>
      (pdo_map_idx, uint8 (i + 1), 4, obj)
        :: entry_writes pdo_map_idx (i + 1) rest
  end.

Definition ends_with_failed_write (tr : list event) : Prop :=
  exists pre slave index subindex size data,
    tr = pre ++ [EvSDOwrite slave index subindex size data 0].

Section BusVocabulary.
Context {T : Type} {TR : Transport T}.

(** A computation that carries out the writes of [plan] and aborts with
    -1 at the first failing write, the failed write being the last event;
    [Q] describes its return when no write failed. *)
Definition phase (m : M (bus T) Z) (plan : list sdo_request)
    (Q : Z -> bus T -> Prop) (b : bus T) : Prop :=
  exists r b' ws c,
    m b = Some (r, b')
    /\ sdo_writes (trace b') = sdo_writes (trace b) ++ ws
    /\ state_requests (trace b') = state_requests (trace b)
    /\ follows plan ws c
    /\ (c = false -> r = -1 /\ ends_with_failed_write (trace b'))
    /\ (c = true -> Q r b').

(** [retries slave_idx desired_state retry_count b n r b']: from the bus
    [b], with [retry_count] attempts already made, the controller makes [n]
    more attempts and returns [r] in [b'].  An attempt that returns 0 ends
    the call with 0.  A failed attempt is followed by a 50 ms sleep and
    another attempt as long as fewer than five were made; the failure of
    the fifth ends the call with -1 at once. *)
Inductive retries (slave_idx desired_state : Z)
  : Z -> bus T -> nat -> Z -> bus T -> Prop :=
| retries_success (retry_count : Z) (b b' : bus T) :
    set_state_attempt slave_idx desired_state b = Some (Some 0, b') ->
    retries slave_idx desired_state retry_count b 1 0 b'
| retries_exhausted (b b' : bus T) :
    set_state_attempt slave_idx desired_state b = Some (None, b') ->
    retries slave_idx desired_state 4 b 1 (-1) b'
| retries_again (retry_count : Z) (b b1 : bus T) (n : nat) (r : Z)
    (b' : bus T) :
    retry_count < 4 ->
    set_state_attempt slave_idx desired_state b = Some (None, b1) ->
    retries slave_idx desired_state (retry_count + 1)
            (emit (elapse 50000 (tp b1)) (EvSleep 50000) b1) n r b' ->
    retries slave_idx desired_state retry_count b (S n) r b'.

Definition returns_zero (r : Z) (_ : bus T) : Prop := r = 0.

(** The return of step 7: the last event is the read-back of the entry
    count, and the result is 0 exactly when that read succeeded and gave
    [n]. *)
Definition read_back_decides (slave_idx pdo_map_idx n : Z)
    (r : Z) (b' : bus T) : Prop :=
  exists pre k v,
    trace b' = pre ++ [EvSDOread slave_idx pdo_map_idx 0 1 k v]
    /\ (r = 0 \/ r = -1)
    /\ (r = 0 <-> k <> 0 /\ uint8 v = n).

(** What the drive answers when its mapping object is read: the count
    equals the number of target entries, and subindex [i + 1] holds the
    [i]-th target entry. *)
Fixpoint entries_read_back (slave_idx pdo_map_idx i : Z)
    (mapped_objects : list Z) (t : T) : Prop :=
  match mapped_objects with
  | [] => True
  | obj :: rest =>
      let '(k, v, t') :=
        ec_SDOread slave_idx pdo_map_idx (i + 1) false 4 EC_TIMEOUTRXM t in
      k <> 0 /\ uint32 v = obj
      /\ entries_read_back slave_idx pdo_map_idx (i + 1) rest t'
  end.

Definition mapping_reads_back (slave_idx pdo_map_idx : Z)
    (mapped_objects : list Z) (t : T) : Prop :=
  let '(k, v, t') :=
    ec_SDOread slave_idx pdo_map_idx 0 false 1 EC_TIMEOUTRXM t in
  k <> 0 /\ uint8 v = Z.of_nat (length mapped_objects)
  /\ entries_read_back slave_idx pdo_map_idx 0 mapped_objects t'.

End BusVocabulary.

Section CyclicVocabulary.
Context {T : Type} {TR : Transport T} {F : Type} {FL : CFloat F}.

#[local] Abbreviation world := (world T F).

(** What the bring-up phase leaves alone. *)
Definition bringup_frame (w w' : world) : Prop :=
  expectedWKC w' = expectedWKC w
  /\ communication_ok w' = communication_ok w
  /\ master_initialized w' = master_initialized w
  /\ target_torque_f w' = target_torque_f w
  /\ current_position_f w' = current_position_f w
  /\ current_velocity_f w' = current_velocity_f w
  /\ option_map target_torque (somanet_outputs w')
     = option_map target_torque (somanet_outputs w)
  /\ is_some (somanet_inputs w') = is_some (somanet_inputs w).

Definition not_enabled (img : tx_pdo) : Prop :=
  get_cia402_state (statusword img) <> CIA402_STATE_OPERATION_ENABLED.

(** The working counter and the input image the transport returns for
    the exchange of the iteration that starts in [w]. *)
Definition cycle_exchange (w : world) : Z * tx_pdo :=
  let '(_, t) :=
    ec_send_processdata (somanet_outputs (write_output_image w))
                        (tp (ec w)) in
  fst (ec_receive_processdata EC_TIMEOUTRET t).

End CyclicVocabulary.

(** ** The scripted drive as a function of its object dictionary *)

Definition quiet_bus (od : Z -> Z -> option Z) (st : Z) (tr : list event)
  : bus drive :=
  {| tp := quiet_drive od st; trace := tr |}.

(** Step 1 on a quiet drive, as a function of the object dictionary. *)
Fixpoint od_entries_match (od : Z -> Z -> option Z) (pdo_map_idx i : Z)
    (mapped_objects : list Z) : bool :=
  match mapped_objects with
  | [] => true
  | obj :: rest =>
      match od pdo_map_idx (uint8 (i + 1)) with
      | Some v =>
          if uint32 v =? obj
          then od_entries_match od pdo_map_idx (i + 1) rest
          else false
      | None => false
      end
  end.

Definition od_matches (od : Z -> Z -> option Z) (pdo_map_idx : Z)
    (mapped_objects : list Z) : bool :=
  match od pdo_map_idx 0 with
  | Some v =>
      if uint8 v =? Z.of_nat (length mapped_objects)
      then od_entries_match od pdo_map_idx 0 mapped_objects
      else false
  | None => false
  end.

Fixpoint store_entries (pdo_map_idx i : Z) (mapped_objects : list Z)
    (od : Z -> Z -> option Z) : Z -> Z -> option Z :=
  match mapped_objects with
  | [] => od
  | obj :: rest =>
      store_entries pdo_map_idx (i + 1) rest
                    (od_store pdo_map_idx (uint8 (i + 1)) obj od)
  end.

Definition rewritten_od (pdo_assign_idx pdo_map_idx : Z)
    (mapped_objects : list Z) (od : Z -> Z -> option Z)
  : Z -> Z -> option Z :=
  od_store pdo_assign_idx 0 1
    (od_store pdo_map_idx 0 (Z.of_nat (length mapped_objects))
       (store_entries pdo_map_idx 0 mapped_objects
          (od_store pdo_map_idx 0 0 (od_store pdo_assign_idx 0 0 od)))).



(* ================================================================== *)
(** * The remaining master-side functions *)

Section DriveParameters.
Context {T : Type} {TR : Transport T}.

(** [initialize_cia402_parameters], lines 158-247.  Only the write of the
    mode of operation is checked; the result of every other transaction is
    only printed. *)
Definition initialize_cia402_parameters (slave_idx : Z) : M (bus T) Z :=
  let torque_mode := 4 in
  rc <- soem_interface_write_sdo slave_idx 0x6060 0x00 1 torque_mode ;;
  or_fail rc (
  let motor_rated_current := 3000 in
  _ <- soem_interface_write_sdo slave_idx 0x6075 0x00 4
                                motor_rated_current ;;
  let max_torque := 1000 in
  _ <- soem_interface_write_sdo slave_idx 0x6072 0x00 2 max_torque ;;
  let torque_slope := 10000 in
  _ <- soem_interface_write_sdo slave_idx 0x6087 0x00 4 torque_slope ;;
  let interpolation_time_period := 1 in
  let interpolation_time_index := -3 in
  _ <- soem_interface_write_sdo slave_idx 0x60C2 0x01 1
                                interpolation_time_period ;;
  _ <- soem_interface_write_sdo slave_idx 0x60C2 0x02 1
                                interpolation_time_index ;;
  let encoder_increments := 4096 in
  _ <- soem_interface_write_sdo slave_idx 0x608F 0x01 4
                                encoder_increments ;;
  let gear_ratio_num := 1 in
  _ <- soem_interface_write_sdo slave_idx 0x608F 0x02 4 gear_ratio_num ;;
  usleep 100000 ;;
  _ <- soem_interface_read_sdo slave_idx 0x6061 0x00 1 ;;
  ret 0).

(** The loop [for (int i = 1; i <= num_mapped_objects && i <= 3; i++)] of
    [check_pdo_mapping_needed], lines 522-526 and 534-538. *)
Fixpoint read_first_objects (fuel : nat) (slave_idx index : Z)
    (i num_mapped_objects : Z) : M (bus T) unit :=
  if (i <=? num_mapped_objects) && (i <=? 3) then
    match fuel with
    | O => diverge
    | S fuel' =>
        _ <- soem_interface_read_sdo slave_idx index (uint8 i) 4 ;;
        read_first_objects fuel' slave_idx index (i + 1) num_mapped_objects
    end
  else ret tt.

(** [check_pdo_mapping_needed], lines 513-542. *)
Definition check_pdo_mapping_needed (slave_idx : Z) : M (bus T) Z :=
  ' (rc, num_mapped_objects) <-
    soem_interface_read_sdo slave_idx 0x1600 0x00 1 ;;
  (if rc =? 0
   then read_first_objects 3 slave_idx 0x1600 1 (uint8 num_mapped_objects)
   else ret tt) ;;
  ' (rc, num_mapped_objects) <-
    soem_interface_read_sdo slave_idx 0x1A00 0x00 1 ;;
  (if rc =? 0
   then read_first_objects 3 slave_idx 0x1A00 1 (uint8 num_mapped_objects)
   else ret tt) ;;
  ret 1.

(** The fields of a mapping entry as [validate_pdo_configuration] takes
    them apart, lines 662-664 and 678-680. *)
Definition entry_index (mapped_object : Z) : Z :=
  Z.land (Z.shiftr mapped_object 16) 0xFFFF.
Definition entry_subindex (mapped_object : Z) : Z :=
  Z.land (Z.shiftr mapped_object 8) 0xFF.
Definition entry_bit_length (mapped_object : Z) : Z :=
  Z.land mapped_object 0xFF.

(** The loop [for (int i = 1; i <= num_objects; i++)] of
    [validate_pdo_configuration], lines 659-668 and 675-684. *)
Fixpoint read_all_objects (fuel : nat) (slave_idx index : Z)
    (i num_objects : Z) : M (bus T) unit :=
  if i <=? num_objects then
    match fuel with
    | O => diverge
    | S fuel' =>
        _ <- soem_interface_read_sdo slave_idx index (uint8 i) 4 ;;
        read_all_objects fuel' slave_idx index (i + 1) num_objects
    end
  else ret tt.

(** [validate_pdo_configuration], lines 652-699. *)
Definition validate_pdo_configuration (slave_idx : Z) : M (bus T) Z :=
  ' (rc, num_rx_objects) <-
    soem_interface_read_sdo slave_idx 0x1600 0x00 1 ;;
  (if rc =? 0
   then read_all_objects 255 slave_idx 0x1600 1 (uint8 num_rx_objects)
   else ret tt) ;;
  ' (rc, num_tx_objects) <-
    soem_interface_read_sdo slave_idx 0x1A00 0x00 1 ;;
  (if rc =? 0
   then read_all_objects 255 slave_idx 0x1A00 1 (uint8 num_tx_objects)
   else ret tt) ;;
  _ <- soem_interface_read_sdo slave_idx 0x1C12 0x00 1 ;;
  _ <- soem_interface_read_sdo slave_idx 0x1C13 0x00 1 ;;
  ret 0.

End DriveParameters.

(** [ec_close()], the one call of [soem_interface_stop_master] that
    [Transport] does not have. *)
Class Teardown (T : Type) : Type := {
  ec_close : T -> T
}.

Section Shutdown.
Context {T : Type} {TR : Transport T} {TD : Teardown T}
        {F : Type} {FL : CFloat F}.

#[local] Abbreviation world := (world T F).

Definition set_master_initialized (v : Z) (w : world) : world :=
  {| ec := ec w; somanet_outputs := somanet_outputs w;
     somanet_inputs := somanet_inputs w; wkc := wkc w;
     expectedWKC := expectedWKC w;
     master_initialized := v;
     communication_ok := communication_ok w;
     target_torque_f := target_torque_f w;
     current_position_f := current_position_f w;
     current_velocity_f := current_velocity_f w;
     current_cia402_state := current_cia402_state w;
     current_statusword := current_statusword w;
     current_controlword := current_controlword w |}.

(** [soem_interface_stop_master], lines 946-972, from the point where
    [pthread_join] has returned: the world is the one the cyclic thread left
    when it saw [ecat_thread_running = 0]. *)
Definition soem_interface_stop_master : M world unit :=
  fun w =>
    if truthy (master_initialized w) then
      (update (fun w =>
                 set_outputs
                   (option_map
                      (fun o => with_controlword 0x0006
                                  (with_target_torque 0 o))
                      (somanet_outputs w)) w) ;;
       send_processdata ;;
       on_bus (usleep 10000) ;;
       _ <- on_bus (soem_interface_set_ethercat_state 0 EC_STATE_SAFE_OP) ;;
       _ <- on_bus (soem_interface_set_ethercat_state 0 EC_STATE_INIT) ;;
       update (fun w => set_ec {| tp := ec_close (tp (ec w));
                                  trace := trace (ec w) |} w) ;;
       update (set_master_initialized 0)) w
    else Some (tt, w).

End Shutdown.

#[export] Instance drive_teardown : Teardown drive := {
  ec_close := fun d => d
}.

(* ================================================================== *)
(** * More vocabulary *)

(** The addressed slave and object of every SDO transaction. *)
Fixpoint sdo_addresses (tr : list event) : list (Z * Z) :=
  match tr with
  | [] => []
  | EvSDOwrite slave index _ _ _ _ :: tr' =>
      (slave, index) :: sdo_addresses tr'
  | EvSDOread slave index _ _ _ _ :: tr' =>
      (slave, index) :: sdo_addresses tr'
  | _ :: tr' => sdo_addresses tr'
  end.

(** Microseconds spent in [usleep]. *)
Definition time_slept (tr : list event) : Z :=
  fold_right Z.add 0 (sleeps tr).

(** The parameter writes of [initialize_cia402_parameters], in order. *)
Definition parameter_writes : list sdo_request :=
  [(0x6060, 0, 1, 4); (0x6075, 0, 4, 3000); (0x6072, 0, 2, 1000);
   (0x6087, 0, 4, 10000); (0x60C2, 1, 1, 1); (0x60C2, 2, 1, -3);
   (0x608F, 1, 4, 4096); (0x608F, 2, 4, 1)].

Section MoreVocabulary.
Context {T : Type} {TR : Transport T}.

(** [m] always returns, and the events it adds to the trace all satisfy
    [P]. *)
Definition stays_within {A : Type} (P : event -> Prop) (m : M (bus T) A)
  : Prop :=
  forall b, exists a b' delta,
      m b = Some (a, b')
      /\ trace b' = trace b ++ delta
      /\ Forall P delta.

End MoreVocabulary.

Definition is_sleep (e : event) : Prop :=
  match e with EvSleep _ => True | _ => False end.

(** A state request or state check for [slave], or a sleep. *)
Definition state_event (slave : Z) (e : event) : Prop :=
  match e with
  | EvWriteState s _ => s = slave
  | EvStateCheck s _ _ _ => s = slave
  | EvSleep _ => True
  | _ => False
  end.

(** An SDO read of [slave] on one of the objects [indices]. *)
Definition sdo_read_of (slave : Z) (indices : list Z) (e : event) : Prop :=
  match e with
  | EvSDOread s i _ _ _ _ => s = slave /\ In i indices
  | _ => False
  end.

(** An SDO transaction of [slave] on one of the objects [indices]. *)
Definition sdo_on (slave : Z) (indices : list Z) (e : event) : Prop :=
  match e with
  | EvSDOread s i _ _ _ _ => s = slave /\ In i indices
  | EvSDOwrite s i _ _ _ _ => s = slave /\ In i indices
  | _ => False
  end.

(** The output image with torque 0 and the Shutdown controlword. *)
Definition safe_image (o : rx_pdo) : rx_pdo :=
  {| controlword := 0x0006; modes_of_operation := modes_of_operation o;
     target_torque := 0; target_position := target_position o |}.

Definition zero_torque (o : option rx_pdo) : Prop :=
  match o with
  | Some img => target_torque img = 0
  | None => True
  end.

(** The events of the first request of an attempt, and of a request made
    during the escalation. *)
Definition first_try (slave st k : Z) : list event :=
  [EvWriteState slave st; EvSleep 20000;
   EvStateCheck slave st EC_TIMEOUTSTATE k].

Definition escalation_try (slave st k : Z) : list event :=
  [EvWriteState slave st; EvSleep 200000;
   EvStateCheck slave st (EC_TIMEOUTSTATE * 2) k].

(** What one attempt of the state controller adds to the trace, with its
    result [r] and the state [st] left in [ec_slave[].state]. *)
Definition attempt_trace (slave desired : Z) (r : option Z) (st : Z)
    (delta : list event) : Prop :=
  (exists k,
      delta = first_try slave desired k
      /\ ((r = Some 0 /\ 0 < k /\ Z.land st 0x0F = desired) \/ r = None))
  \/ (desired = EC_STATE_OPERATIONAL
      /\ exists k k2,
        delta = first_try slave desired k
                ++ escalation_try slave EC_STATE_SAFE_OP k2
        /\ k2 <= 0 /\ r = None)
  \/ (desired = EC_STATE_OPERATIONAL
      /\ exists k k2 k3,
        delta = first_try slave desired k
                ++ escalation_try slave EC_STATE_SAFE_OP k2
                ++ escalation_try slave EC_STATE_OPERATIONAL k3
        /\ 0 < k2
        /\ ((r = Some 0 /\ 0 < k3) \/ (r = None /\ k3 <= 0))).

(** The SDO write events of [slave] for the requests [reqs] with the working
    counters [ks]. *)
Definition write_events (slave : Z) (reqs : list sdo_request) (ks : list Z)
  : list event :=
  map (fun p : sdo_request * Z =>
         let '((index, subindex, size, data), k) := p in
         EvSDOwrite slave index subindex size data k)
      (combine reqs ks).

(** What the mapping steps of the PDO configuration may add to the trace:
    a sleep, an SDO read of the mapping object, or an SDO write to the
    assignment or the mapping object, all on [slave]. *)
Definition mapping_event (slave pdo_assign_idx pdo_map_idx : Z) (e : event)
  : Prop :=
  match e with
  | EvSleep _ => True
  | EvSDOread s i _ _ _ _ => s = slave /\ i = pdo_map_idx
  | EvSDOwrite s i _ _ _ _ =>
      s = slave /\ (i = pdo_assign_idx \/ i = pdo_map_idx)
  | _ => False
  end.

(** What [configure_somanet_pdo_mapping_enhanced] may add after its two
    state requests: the steps of either configuration, state events of the
    slave, or the probe of object 0x1C12. *)
Definition somanet_event (slave : Z) (e : event) : Prop :=
  state_event slave e
  \/ mapping_event slave 0x1C12 0x1600 e
  \/ mapping_event slave 0x1C13 0x1A00 e.

(** The command of the bring-up planner for the state the input image
    [img] decodes to, written into the output image [o]. *)
Definition bringup_command (o : option rx_pdo) (img : tx_pdo)
  : option rx_pdo :=
  option_map
    (with_controlword
       (transition_controlword (get_cia402_state (statusword img)))) o.

(** What the bring-up phase adds to the trace when it starts from the input
    image [img0] and receives the exchanges [rcv]. *)
Fixpoint bringup_events (o : option rx_pdo) (img0 : tx_pdo)
    (rcv : list (Z * tx_pdo)) : list event :=
  match rcv with
  | [] => []
  | (k, img) :: rest =>
      EvSend (bringup_command o img0) :: EvReceive k img :: EvSleep 5000
      :: bringup_events o img rest
  end.

(** An output image that differs from [o] at most in its controlword. *)
Definition same_setpoint (o o' : option rx_pdo) : Prop :=
  option_map target_torque o' = option_map target_torque o
  /\ option_map modes_of_operation o' = option_map modes_of_operation o
  /\ option_map target_position o' = option_map target_position o.

(** An output image with controlword [c] in torque mode. *)
Definition carries (c : Z) (o : option rx_pdo) : Prop :=
  match o with
  | Some img => controlword img = c /\ modes_of_operation img = 4
  | None => True
  end.

Definition running {F : Type} (tk : tick F) : Prop :=
  ecat_thread_running tk = true.

(** One exchange below the expected working counter, with an image that
    decodes to ReadyToSwitchOn. *)
Definition silent_drive : drive :=
  {| d_od := partial_od; d_sdo_faults := [];
     d_state := EC_STATE_OPERATIONAL; d_checks := [];
     d_exchanges := [(2, ready_image)] |}.


(* ================================================================== *)
(** * Status decoder *)

Lemma fault_bit_test (statusword : Z) :
  truthy (Z.land statusword CIA402_STATUSWORD_FAULT) = Z.testbit statusword 3.
Proof.
  assert (E : Z.land statusword 8 = if Z.testbit statusword 3 then 8 else 0).
  { apply Z.bits_inj'; intros n Hn.
    rewrite Z.land_spec.
    destruct (Z.eqb_spec n 3) as [-> | Hne].
    - now destruct (Z.testbit statusword 3).
    - assert (H8 : Z.testbit 8 n = false).
      { change 8 with (2 ^ 3). apply Z.pow2_bits_false. congruence. }
      rewrite H8, andb_false_r.
      destruct (Z.testbit statusword 3); [now rewrite H8 | now rewrite Z.bits_0]. }
  unfold truthy, CIA402_STATUSWORD_FAULT. rewrite E.
  now destruct (Z.testbit statusword 3).
Qed.

Lemma state_bits_range (statusword : Z) :
  0 <= Z.land statusword 0x6F < 2 ^ 7.
Proof.
  replace (Z.land statusword 0x6F)
    with (Z.land (Z.land statusword 0x6F) (Z.ones 7)).
  - rewrite Z.land_ones by lia. apply Z.mod_pos_bound. lia.
  - now rewrite <- Z.land_assoc.
Qed.

Lemma decode_cases (bits : Z) (fallback : cia402_state_t) :
  0 <= bits < 2 ^ 7 ->
  match bits with
  | 0x0000 => CIA402_STATE_NOT_READY
  | 0x0040 => CIA402_STATE_SWITCH_ON_DISABLED
  | 0x0021 => CIA402_STATE_READY_TO_SWITCH_ON
  | 0x0023 => CIA402_STATE_SWITCHED_ON
  | 0x0027 => CIA402_STATE_OPERATION_ENABLED
  | 0x0007 => CIA402_STATE_QUICK_STOP_ACTIVE
  | 0x000F => CIA402_STATE_FAULT_REACTION_ACTIVE
  | 0x0008 => CIA402_STATE_FAULT
  | _ => fallback
  end
  = match table_lookup bits with
    | Some s => s
    | None => fallback
    end.
Proof.
  intros Hr. change (2 ^ 7) with 128 in Hr.
  destruct bits as [| p | p]; [reflexivity | | lia].
  do 7 (destruct p as [p | p |]; try reflexivity; try lia).
Qed.

(** C2.  The status decoder is the table of the specification on the bits
    selected by 0x6F, with the fallback on bit 3 of the statusword: Fault
    when it is set, NotReady otherwise.  It is a function of the masked bits
    alone, defined on every input. *)
Theorem get_cia402_state_decodes (statusword : Z) :
  get_cia402_state statusword = decode_spec statusword
  /\ get_cia402_state statusword
     = get_cia402_state (Z.land statusword 0x6F).
Proof.
  assert (D : forall sw, get_cia402_state sw = decode_spec sw).
  { intros sw. unfold get_cia402_state, decode_spec.
    rewrite fault_bit_test. cbv zeta.
    apply decode_cases, state_bits_range. }
  split; [apply D|].
  rewrite !D. unfold decode_spec.
  rewrite <- Z.land_assoc. change (Z.land 0x6F 0x6F) with 0x6F.
  rewrite Z.land_spec. change (Z.testbit 0x6F 3) with true.
  now rewrite andb_true_r.
Qed.

Example decode_0x0231 :
  get_cia402_state 0x0231 = CIA402_STATE_READY_TO_SWITCH_ON
  /\ transition_controlword (get_cia402_state 0x0231) = 0x07.
Proof. split; reflexivity. Qed.

Example decode_0x0008 :
  get_cia402_state 0x0008 = CIA402_STATE_FAULT
  /\ transition_controlword (get_cia402_state 0x0008) = 0x80.
Proof. split; reflexivity. Qed.

Example decode_unlisted_patterns :
  get_cia402_state 0x0048 = CIA402_STATE_FAULT
  /\ get_cia402_state 0x0060 = CIA402_STATE_NOT_READY
  /\ get_cia402_state 0xFF90 = CIA402_STATE_NOT_READY.
Proof. repeat split; reflexivity. Qed.

(* ================================================================== *)
(** * Traces *)

Lemma sdo_writes_app (a b : list event) :
  sdo_writes (a ++ b) = sdo_writes a ++ sdo_writes b.
Proof.
  induction a as [| e a IH]; [reflexivity|].
  destruct e; simpl; rewrite IH; reflexivity.
Qed.

Lemma sdo_transactions_app (a b : list event) :
  sdo_transactions (a ++ b) = (sdo_transactions a + sdo_transactions b)%nat.
Proof.
  induction a as [| e a IH]; [reflexivity|].
  destruct e; simpl; rewrite IH; reflexivity.
Qed.

Lemma state_requests_app (a b : list event) :
  state_requests (a ++ b) = state_requests a ++ state_requests b.
Proof.
  induction a as [| e a IH]; [reflexivity|].
  destruct e; simpl; rewrite IH; reflexivity.
Qed.

Lemma received_app (a b : list event) :
  received (a ++ b) = received a ++ received b.
Proof.
  induction a as [| e a IH]; [reflexivity|].
  destruct e; simpl; rewrite IH; reflexivity.
Qed.

Lemma sent_app (a b : list event) :
  sent (a ++ b) = sent a ++ sent b.
Proof.
  induction a as [| e a IH]; [reflexivity|].
  destruct e; simpl; rewrite IH; reflexivity.
Qed.

Lemma sleeps_app (a b : list event) :
  sleeps (a ++ b) = sleeps a ++ sleeps b.
Proof.
  induction a as [| e a IH]; [reflexivity|].
  destruct e; simpl; rewrite IH; reflexivity.
Qed.

Ltac project_trace :=
  rewrite ?sdo_writes_app, ?sdo_transactions_app, ?state_requests_app,
    ?received_app, ?sent_app, ?sleeps_app.

(* ================================================================== *)
(** * Slave-state controller *)

Section BusFacts.
Context {T : Type} {TR : Transport T}.

Ltac run_call :=
  match goal with
  | |- context [ec_statecheck ?s ?r ?t ?x] =>
      destruct (ec_statecheck s r t x) as [? ?] eqn:?
  | |- context [ec_writestate ?s ?x] =>
      destruct (ec_writestate s x) as [? ?] eqn:?
  end.

(** What one attempt does, in terms of what the transport answers. *)
Lemma set_state_attempt_runs (slave_idx desired_state : Z) (b : bus T) :
  exists r b' blk,
    set_state_attempt slave_idx desired_state b = Some (r, b')
    /\ state_requests (trace b') = state_requests (trace b) ++ blk
    /\ attempt_block slave_idx desired_state blk
    /\ sdo_transactions (trace b') = sdo_transactions (trace b)
    /\ sdo_writes (trace b') = sdo_writes (trace b)
    /\ (r = Some 0 \/ r = None).
Proof.
  unfold set_state_attempt, bind, clear_ALstatuscode, request_state,
    usleep, statecheck, read_slave_state, ret, emit; simpl.
  repeat run_call; simpl.
  match goal with
  | |- context [if ?c then _ else _] => destruct c
  end.
  { eexists _, _, _; split; [reflexivity|]. simpl.
    project_trace; simpl.
    repeat split; [rewrite <- !app_assoc; reflexivity | now left | lia | now rewrite ?app_nil_r | now left]. }
  match goal with
  | |- context [if ?c then _ else _] => destruct c eqn:Hesc
  end.
  2:{ eexists _, _, _; split; [reflexivity|]. simpl.
      project_trace; simpl.
      repeat split; [rewrite <- !app_assoc; reflexivity | now left | lia | now rewrite ?app_nil_r | now right]. }
  apply andb_true_iff in Hesc. destruct Hesc as [Hop _].
  apply Z.eqb_eq in Hop.
  simpl. repeat run_call; simpl.
  match goal with
  | |- context [if ?c then _ else _] => destruct c
  end.
  2:{ eexists _, _, _; split; [reflexivity|]. simpl.
      project_trace; simpl.
      repeat split; [rewrite <- !app_assoc; simpl; reflexivity | | lia | now rewrite ?app_nil_r | now right].
      right; split; [assumption|]. left. now rewrite Hop. }
  simpl. repeat run_call; simpl.
  match goal with
  | |- context [if ?c then _ else _] => destruct c
  end;
    (eexists _, _, _; split; [reflexivity|]; simpl;
     project_trace; simpl;
     repeat split; [rewrite <- !app_assoc; simpl; reflexivity | | lia | now rewrite ?app_nil_r | auto];
     right; split; [assumption|]; right; now rewrite Hop).
Qed.

Lemma set_state_loop_runs (slave_idx desired_state : Z) (fuel : nat) :
  forall (retry_count : Z) (b : bus T),
    0 <= retry_count ->
    max_retries - retry_count <= Z.of_nat fuel ->
    exists r b' blocks,
      set_state_loop fuel slave_idx desired_state retry_count b
      = Some (r, b')
      /\ state_requests (trace b')
         = state_requests (trace b) ++ concat blocks
      /\ Forall (attempt_block slave_idx desired_state) blocks
      /\ Z.of_nat (length blocks) <= Z.max 0 (max_retries - retry_count)
      /\ (r = 0 \/ r = -1)
      /\ (r = -1 ->
          Z.of_nat (length blocks) = Z.max 0 (max_retries - retry_count))
      /\ (retry_count < max_retries -> blocks <> [])
      /\ sdo_transactions (trace b') = sdo_transactions (trace b)
      /\ sdo_writes (trace b') = sdo_writes (trace b).
Proof.
  unfold max_retries.
  induction fuel as [| fuel IH]; intros rc b Hrc Hfuel.
  - assert (E : (rc <? 5) = false) by (apply Z.ltb_ge; lia).
    cbn [set_state_loop]. unfold max_retries. rewrite E.
    apply Z.ltb_ge in E.
    exists (-1), b, []. cbn [concat length]. rewrite app_nil_r.
    repeat split; auto; try lia.
  - cbn [set_state_loop]. unfold max_retries.
    destruct (rc <? 5) eqn:E.
    2:{ apply Z.ltb_ge in E.
        exists (-1), b, []. cbn [concat length]. rewrite app_nil_r.
        repeat split; auto; try lia. }
    apply Z.ltb_lt in E.
    destruct (set_state_attempt_runs slave_idx desired_state b)
      as (r & b1 & blk & Hrun & Hreq & Hblk & Hsdo & Hwr & Hr).
    unfold bind at 1. rewrite Hrun.
    destruct Hr as [-> | ->].
    + exists 0, b1, [blk]. cbn [concat length]. rewrite app_nil_r.
      repeat split; auto; try lia; try discriminate.
    + set (u := if rc + 1 <? 5 then usleep 50000 else ret tt).
      assert (Hu : exists b2, u b1 = Some (tt, b2)
                              /\ state_requests (trace b2)
                                 = state_requests (trace b1)
                              /\ sdo_transactions (trace b2)
                                 = sdo_transactions (trace b1)
                              /\ sdo_writes (trace b2)
                                 = sdo_writes (trace b1)).
      { subst u. destruct (rc + 1 <? 5).
        - eexists; split; [reflexivity|]. unfold emit; simpl.
          project_trace; simpl.
          rewrite !app_nil_r. repeat split; lia.
        - eexists; split; [reflexivity|]. repeat split; reflexivity. }
      destruct Hu as (b2 & Hu & Hreq2 & Hsdo2 & Hwr2).
      unfold bind. rewrite Hu.
      destruct (IH (rc + 1) b2 ltac:(lia) ltac:(lia))
        as (r & b' & blocks & Hloop & Hreq' & Hall & Hlen & Hr & Hfail
            & _ & Hsdo' & Hwr').
      rewrite Hloop.
      exists r, b', (blk :: blocks). cbn [concat length].
      repeat split; auto; try discriminate.
      * rewrite Hreq', Hreq2, Hreq. now rewrite <- app_assoc.
      * lia.
      * intros Hm. specialize (Hfail Hm). lia.
      * congruence.
      * congruence.
Qed.

Lemma set_ethercat_state_runs (slave_idx desired_state : Z) (b : bus T) :
  exists r b' blocks,
    soem_interface_set_ethercat_state slave_idx desired_state b
    = Some (r, b')
    /\ (r = 0 \/ r = -1)
    /\ state_requests (trace b')
       = state_requests (trace b) ++ concat blocks
    /\ Forall (attempt_block slave_idx desired_state) blocks
    /\ (1 <= length blocks <= 5)%nat
    /\ (r = -1 -> length blocks = 5%nat)
    /\ sdo_transactions (trace b') = sdo_transactions (trace b)
    /\ sdo_writes (trace b') = sdo_writes (trace b).
Proof.
  destruct (set_state_loop_runs slave_idx desired_state
              (Z.to_nat max_retries) 0 b)
    as (r & b' & blocks & Hrun & Hreq & Hall & Hlen & Hr & Hfail & Hne
        & Hsdo & Hwr); [lia | unfold max_retries; lia |].
  exists r, b', blocks. unfold max_retries in *.
  repeat split; auto; try lia.
  destruct blocks as [| blk blocks]; simpl; [|lia].
  exfalso. apply Hne; [lia | reflexivity].
Qed.

(** The attempts determine the result: two chains from the same bus agree
    on the number of attempts, the result and the final bus. *)
Lemma retries_deterministic (slave_idx desired_state retry_count : Z)
    (b : bus T) (n : nat) (r : Z) (b' : bus T) :
  retries slave_idx desired_state retry_count b n r b' ->
  forall (n2 : nat) (r2 : Z) (b2 : bus T),
    retries slave_idx desired_state retry_count b n2 r2 b2 ->
    n = n2 /\ r = r2 /\ b' = b2.
Proof.
  induction 1 as [rc b b' Ha | b b' Ha | rc b b1 n r b' Hlt Ha Hnext IH];
    intros n2 r2 b2 H2; inversion H2; subst; try congruence; try lia.
  - split; [reflexivity|]. split; congruence.
  - split; [reflexivity|]. split; congruence.
  - match goal with
    | Hn : retries _ _ _ (emit _ _ ?bx) _ _ _ |- _ =>
        assert (E : b1 = bx) by congruence; subst;
        destruct (IH _ _ _ Hn) as (-> & -> & ->); auto
    end.
Qed.

(** The loop from attempt number [retry_count], attempt by attempt. *)
Lemma set_state_loop_retries (slave_idx desired_state : Z) (fuel : nat) :
  forall (retry_count : Z) (b : bus T),
    0 <= retry_count < max_retries ->
    max_retries - retry_count <= Z.of_nat fuel ->
    exists r b' blocks,
      set_state_loop fuel slave_idx desired_state retry_count b
      = Some (r, b')
      /\ (r = 0 \/ r = -1)
      /\ state_requests (trace b')
         = state_requests (trace b) ++ concat blocks
      /\ Forall (attempt_block slave_idx desired_state) blocks
      /\ 1 <= Z.of_nat (length blocks) <= max_retries - retry_count
      /\ (r = -1 -> Z.of_nat (length blocks) = max_retries - retry_count)
      /\ retries slave_idx desired_state retry_count b (length blocks) r b'.
Proof.
  unfold max_retries.
  induction fuel as [| fuel IH]; intros rc b Hrc Hfuel; [lia|].
  cbn [set_state_loop]. unfold max_retries.
  assert (E : (rc <? 5) = true) by (apply Z.ltb_lt; lia).
  rewrite E.
  destruct (set_state_attempt_runs slave_idx desired_state b)
    as (ra & b1 & blk & Hrun & Hreq & Hblk & _ & _ & Hra).
  unfold bind at 1. rewrite Hrun.
  destruct Hra as [-> | ->].
  - exists 0, b1, [blk]. cbn [concat length]. rewrite app_nil_r.
    split; [reflexivity|]. split; [now left|]. split; [exact Hreq|].
    split; [constructor; [exact Hblk | constructor]|].
    split; [lia|]. split; [discriminate|].
    apply retries_success. exact Hrun.
  - destruct (rc + 1 <? 5) eqn:E1.
    + apply Z.ltb_lt in E1.
      unfold bind at 1, usleep at 1.
      set (b2 := emit (elapse 50000 (tp b1)) (EvSleep 50000) b1).
      assert (Hreq2 : state_requests (trace b2) = state_requests (trace b1)).
      { subst b2. unfold emit. cbn [trace]. project_trace.
        cbn [state_requests]. now rewrite app_nil_r. }
      destruct (IH (rc + 1) b2 ltac:(lia) ltac:(lia))
        as (r & b' & blocks & Hloop & Hr & Hreq' & Hall & Hlen & Hfail
            & Hchain).
      rewrite Hloop.
      exists r, b', (blk :: blocks). cbn [concat length].
      split; [reflexivity|]. split; [exact Hr|].
      split; [rewrite Hreq', Hreq2, Hreq; now rewrite <- app_assoc|].
      split; [constructor; assumption|].
      split; [lia|].
      split; [intros Hm; specialize (Hfail Hm); lia|].
      apply retries_again with b1; [lia | exact Hrun | exact Hchain].
    + apply Z.ltb_ge in E1.
      assert (rc = 4) by lia. subst rc.
      assert (Hend : set_state_loop fuel slave_idx desired_state (4 + 1) b1
                     = Some (-1, b1)) by (destruct fuel; reflexivity).
      unfold bind at 1, ret at 1. rewrite Hend.
      exists (-1), b1, [blk]. cbn [concat length]. rewrite app_nil_r.
      split; [reflexivity|]. split; [now right|]. split; [exact Hreq|].
      split; [constructor; [exact Hblk | constructor]|].
      split; [lia|]. split; [intros _; lia|].
      apply retries_exhausted. exact Hrun.
Qed.

(** C7, as amended.  The controller always returns, after at most five
    attempts.  It returns 0 as soon as an attempt succeeds; an attempt that
    fails is followed by a 50 ms sleep and another attempt while fewer than
    five were made, and when the fifth attempt fails the controller returns
    -1.  An attempt that asked for OPERATIONAL and found the slave in
    PRE-OP requests SAFE-OP once; it requests OPERATIONAL a second time
    exactly when the SAFE-OP check returned a positive value, and never a
    third time. *)
Theorem set_ethercat_state_retries_and_escalation :
  (forall (slave_idx desired_state : Z) (b : bus T),
      exists r b' blocks,
        soem_interface_set_ethercat_state slave_idx desired_state b
        = Some (r, b')
        /\ (r = 0 \/ r = -1)
        /\ state_requests (trace b')
           = state_requests (trace b) ++ concat blocks
        /\ Forall (attempt_block slave_idx desired_state) blocks
        /\ (1 <= length blocks <= 5)%nat
        /\ (r = -1 -> length blocks = 5%nat)
        /\ retries slave_idx desired_state 0 b (length blocks) r b')
  /\ (forall (slave_idx k : Z) (b b1 : bus T),
        (clear_ALstatuscode slave_idx ;;
         request_state slave_idx EC_STATE_OPERATIONAL ;;
         usleep 20000 ;;
         statecheck slave_idx EC_STATE_OPERATIONAL EC_TIMEOUTSTATE) b
        = Some (k, b1) ->
        Z.land (slave_state slave_idx (tp b1)) 0x0F = EC_STATE_PRE_OP ->
        exists safe b2 r b',
          (request_state slave_idx EC_STATE_SAFE_OP ;;
           usleep 200000 ;;
           statecheck slave_idx EC_STATE_SAFE_OP (EC_TIMEOUTSTATE * 2)) b1
          = Some (safe, b2)
          /\ set_state_attempt slave_idx EC_STATE_OPERATIONAL b
             = Some (r, b')
          /\ state_requests (trace b')
             = state_requests (trace b)
               ++ [(slave_idx, EC_STATE_OPERATIONAL);
                   (slave_idx, EC_STATE_SAFE_OP)]
               ++ (if 0 <? safe
                   then [(slave_idx, EC_STATE_OPERATIONAL)] else [])
          /\ ((0 <? safe) = false -> r = None /\ b' = b2)).
Proof.
  split.
  - intros slave_idx desired_state b.
    destruct (set_state_loop_retries slave_idx desired_state
                (Z.to_nat max_retries) 0 b)
      as (r & b' & blocks & H1 & H2 & H3 & H4 & H5 & H6 & H7);
      [unfold max_retries; lia | unfold max_retries; lia |].
    unfold max_retries in *.
    exists r, b', blocks.
    split; [exact H1|]. split; [exact H2|]. split; [exact H3|].
    split; [exact H4|]. split; [lia|].
    split; [intros Hm; specialize (H6 Hm); lia | exact H7].
  - intros slave_idx k b b1 Hfirst Hpre.
    unfold bind, clear_ALstatuscode, request_state, usleep, statecheck,
      ret, emit in Hfirst; cbn [tp trace] in Hfirst.
    match type of Hfirst with
    | context [ec_writestate ?s ?x] =>
        destruct (ec_writestate s x) as [w1 t1] eqn:Ew
    end.
    cbn [tp trace] in Hfirst.
    match type of Hfirst with
    | context [ec_statecheck ?s ?r ?t ?x] =>
        destruct (ec_statecheck s r t x) as [k1 t2] eqn:Ec
    end.
    inversion Hfirst; subst k b1; clear Hfirst. cbn [tp] in Hpre.
    unfold set_state_attempt, bind, clear_ALstatuscode, request_state,
      usleep, statecheck, read_slave_state, ret, emit; cbn [tp trace].
    rewrite Ew. cbn [tp trace]. rewrite Ec. cbn [tp trace].
    rewrite Hpre.
    change (EC_STATE_PRE_OP =? EC_STATE_OPERATIONAL) with false.
    rewrite andb_false_r.
    change ((EC_STATE_OPERATIONAL =? EC_STATE_OPERATIONAL)
            && (EC_STATE_PRE_OP =? EC_STATE_PRE_OP)) with true.
    cbv iota.
    repeat (cbn [tp trace]; run_call). cbn [tp trace].
    match goal with
    | |- context [0 <? ?safe] => destruct (0 <? safe) eqn:Hsafe
    end.
    + repeat (cbn [tp trace]; run_call). cbn [tp trace].
      match goal with
      | |- context [if ?c then _ else _] => destruct c
      end;
        (eexists _, _, _, _; split; [reflexivity|]; split; [reflexivity|];
         rewrite Hsafe; split; [|discriminate];
         cbn [trace]; project_trace; simpl;
         rewrite <- !app_assoc; reflexivity).
    + eexists _, _, _, _; split; [reflexivity|]; split; [reflexivity|].
      rewrite Hsafe. split; [|auto].
      cbn [trace]; project_trace; simpl.
      rewrite <- !app_assoc; reflexivity.
Qed.
End BusFacts.

(* ================================================================== *)
(** * PDO mapping configuration *)

Lemma follows_app_done p1 w1 p2 w2 c :
  follows p1 w1 true -> follows p2 w2 c -> follows (p1 ++ p2) (w1 ++ w2) c.
Proof.
  intros H1 H2. remember true as c1 eqn:Hc.
  induction H1; simpl; try discriminate; auto.
  apply follows_ok; auto.
Qed.

Lemma follows_app_abort p1 w1 p2 :
  follows p1 w1 false -> follows (p1 ++ p2) w1 false.
Proof.
  intros H1. remember false as c1 eqn:Hc.
  induction H1; simpl; try discriminate.
  - apply follows_ok; auto.
  - apply follows_abort.
Qed.

Lemma uint8_small (v : Z) : 0 <= v <= 255 -> uint8 v = v.
Proof. intros H. unfold uint8. apply Z.mod_small. lia. Qed.


Section MappingFacts.
Context {T : Type} {TR : Transport T}.

Lemma phase_write (slave_idx index subindex size data : Z) (b : bus T) :
  phase (soem_interface_write_sdo slave_idx index subindex size data)
        [(index, subindex, size, data)] returns_zero b.
Proof.
  unfold phase, soem_interface_write_sdo.
  destruct (ec_SDOwrite slave_idx index subindex false size data
                        EC_TIMEOUTRXM (tp b)) as [k t].
  destruct (Z.eqb_spec k 0) as [-> | Hk].
  - eexists _, _, [((index, subindex, size, data), 0)], false.
    split; [reflexivity|].
    unfold emit; cbn [trace]. project_trace. cbn [sdo_writes state_requests].
    split; [reflexivity|]. split; [apply app_nil_r|].
    split; [apply follows_abort|].
    split; [|discriminate]. intros _. split; [reflexivity|].
    now eexists _, _, _, _, _, _.
  - eexists _, _, [((index, subindex, size, data), k)], true.
    split; [reflexivity|].
    unfold emit; cbn [trace]. project_trace. cbn [sdo_writes state_requests].
    split; [reflexivity|]. split; [apply app_nil_r|].
    split; [apply follows_ok; [assumption | apply follows_done]|].
    split; [discriminate|]. reflexivity.
Qed.

Lemma phase_seq (m1 k : M (bus T) Z) p1 p2 Q (b : bus T) :
  phase m1 p1 returns_zero b ->
  (forall b1, phase k p2 Q b1) ->
  phase (rc <- m1 ;; or_fail rc k) (p1 ++ p2) Q b.
Proof.
  intros (r1 & b1 & ws1 & c1 & Hrun & Hw & Hs & Hf & Hab & Hok) Hk.
  unfold phase, bind. rewrite Hrun.
  destruct c1.
  - rewrite (Hok eq_refl). unfold or_fail. cbn [Z.eqb].
    destruct (Hk b1) as (r & b' & ws & c & Hrun' & Hw' & Hs' & Hf' & Hab' & Hok').
    exists r, b', (ws1 ++ ws), c. split; [assumption|].
    repeat split.
    + rewrite Hw', Hw. now rewrite app_assoc.
    + congruence.
    + now apply follows_app_done.
    + now apply Hab'.
    + now apply Hab'.
    + assumption.
  - destruct (Hab eq_refl) as [-> Hend]. unfold or_fail. cbn [Z.eqb].
    exists (-1), b1, ws1, false. split; [reflexivity|].
    repeat split; auto.
    + now apply follows_app_abort.
    + discriminate.
Qed.

Lemma phase_sleep (usec : Z) (k : M (bus T) Z) p Q (b : bus T) :
  (forall b1, phase k p Q b1) ->
  phase (usleep usec ;; k) p Q b.
Proof.
  intros Hk. unfold phase, bind, usleep.
  destruct (Hk (emit (elapse usec (tp b)) (EvSleep usec) b))
    as (r & b' & ws & c & Hrun & Hw & Hs & Hrest).
  exists r, b', ws, c. split; [assumption|].
  unfold emit in Hw, Hs; cbn [trace] in Hw, Hs.
  rewrite sdo_writes_app in Hw. rewrite state_requests_app in Hs.
  cbn [sdo_writes state_requests] in Hw, Hs. rewrite app_nil_r in Hw, Hs.
  auto.
Qed.

Lemma phase_ret0 (b : bus T) : phase (ret 0) [] returns_zero b.
Proof.
  exists 0, b, [], true. rewrite app_nil_r.
  repeat split; try discriminate. apply follows_done.
Qed.

Lemma phase_write_mapping_objects (slave_idx pdo_map_idx : Z)
    (mapped_objects : list Z) :
  forall (i : Z) (b : bus T),
    phase (write_mapping_objects slave_idx pdo_map_idx i mapped_objects)
          (entry_writes pdo_map_idx i mapped_objects) returns_zero b.
Proof.
  induction mapped_objects as [| obj rest IH]; intros i b.
  - apply phase_ret0.
  - cbn [write_mapping_objects entry_writes].
    apply (phase_seq _ _ [_] _ _ b).
    + apply phase_write.
    + intros b1. apply phase_sleep. intros b2. apply IH.
Qed.

Lemma phase_read_back (slave_idx pdo_map_idx n : Z) (b : bus T) :
  phase (' (rc, verified_num_objects) <-
           soem_interface_read_sdo slave_idx pdo_map_idx 0x00 1 ;;
         if rc =? 0 then
           if uint8 verified_num_objects =? n then ret 0 else ret (-1)
         else ret (-1))
        [] (read_back_decides slave_idx pdo_map_idx n) b.
Proof.
  unfold phase, bind, soem_interface_read_sdo.
  destruct (ec_SDOread slave_idx pdo_map_idx 0 false 1 EC_TIMEOUTRXM (tp b))
    as [[k v] t].
  assert (Hproj : forall r,
    sdo_writes (trace (emit t (EvSDOread slave_idx pdo_map_idx 0 1 k v) b))
    = sdo_writes (trace b) ++ []
    /\ state_requests
         (trace (emit t (EvSDOread slave_idx pdo_map_idx 0 1 k v) b))
       = state_requests (trace b)
    /\ follows [] [] true
    /\ (true = false ->
        r = -1
        /\ ends_with_failed_write
             (trace (emit t (EvSDOread slave_idx pdo_map_idx 0 1 k v) b)))).
  { intros r. unfold emit; cbn [trace]. project_trace.
    cbn [sdo_writes state_requests].
    split; [reflexivity|]. split; [apply app_nil_r|].
    split; [apply follows_done | discriminate]. }
  destruct (Z.eqb_spec k 0) as [-> | Hk]; cbn [Z.eqb].
  - eexists (-1), _, [], true. split; [reflexivity|].
    destruct (Hproj (-1)) as (H1 & H2 & H3 & H4).
    repeat (split; [assumption|]). intros _.
    exists (trace b), 0, v. split; [reflexivity|].
    split; [now right|]. split; [discriminate | intros [H _]; congruence].
  - destruct (Z.eqb_spec (uint8 v) n) as [Hv | Hv].
    + eexists 0, _, [], true. split; [reflexivity|].
      destruct (Hproj 0) as (H1 & H2 & H3 & H4).
      repeat (split; [assumption|]). intros _.
      exists (trace b), k, v. split; [reflexivity|].
      split; [now left|]. split; auto.
    + eexists (-1), _, [], true. split; [reflexivity|].
      destruct (Hproj (-1)) as (H1 & H2 & H3 & H4).
      repeat (split; [assumption|]). intros _.
      exists (trace b), k, v. split; [reflexivity|].
      split; [now right|]. split; [discriminate | intros [_ H]; congruence].
Qed.

End MappingFacts.

Section ConfigurationFacts.
Context {T : Type} {TR : Transport T}.

Lemma read_sdo_runs (slave_idx index subindex size : Z) (b : bus T) :
  exists k v t,
    ec_SDOread slave_idx index subindex false size EC_TIMEOUTRXM (tp b)
    = (k, v, t)
    /\ soem_interface_read_sdo slave_idx index subindex size b
       = Some ((if k =? 0 then -1 else 0), v,
               emit t (EvSDOread slave_idx index subindex size k v) b).
Proof.
  unfold soem_interface_read_sdo.
  destruct (ec_SDOread slave_idx index subindex false size EC_TIMEOUTRXM
                       (tp b)) as [[k v] t].
  exists k, v, t. split; [reflexivity|]. now destruct (k =? 0).
Qed.

Lemma emit_read_projections (t : T) (s i u z k v : Z) (b : bus T) :
  sdo_writes (trace (emit t (EvSDOread s i u z k v) b))
  = sdo_writes (trace b)
  /\ state_requests (trace (emit t (EvSDOread s i u z k v) b))
     = state_requests (trace b).
Proof.
  unfold emit; cbn [trace]. project_trace.
  cbn [sdo_writes state_requests]. now rewrite !app_nil_r.
Qed.

Lemma emit_sleep_projections (t : T) (usec : Z) (b : bus T) :
  sdo_writes (trace (emit t (EvSleep usec) b)) = sdo_writes (trace b)
  /\ state_requests (trace (emit t (EvSleep usec) b))
     = state_requests (trace b).
Proof.
  unfold emit; cbn [trace]. project_trace.
  cbn [sdo_writes state_requests]. now rewrite !app_nil_r.
Qed.

Lemma mapping_entries_match_runs (slave_idx pdo_map_idx : Z)
    (mapped_objects : list Z) :
  forall (i : Z) (b : bus T),
    exists m b',
      mapping_entries_match slave_idx pdo_map_idx i mapped_objects b
      = Some (m, b')
      /\ sdo_writes (trace b') = sdo_writes (trace b)
      /\ state_requests (trace b') = state_requests (trace b).
Proof.
  induction mapped_objects as [| obj rest IH]; intros i b.
  - exists true, b. auto.
  - cbn [mapping_entries_match]. unfold bind.
    destruct (read_sdo_runs slave_idx pdo_map_idx (uint8 (i + 1)) 4 b)
      as (k & v & t & _ & ->).
    destruct (emit_read_projections t slave_idx pdo_map_idx
                (uint8 (i + 1)) 4 k v b) as [Hw Hs].
    destruct (k =? 0); cbn [Z.eqb].
    + eexists _, _. split; [reflexivity | auto].
    + destruct (uint32 v =? obj).
      * destruct (IH (i + 1)
                    (emit t (EvSDOread slave_idx pdo_map_idx
                                       (uint8 (i + 1)) 4 k v) b))
          as (m & b' & -> & Hw' & Hs').
        exists m, b'. split; [reflexivity|]. split; congruence.
      * eexists _, _. split; [reflexivity | auto].
Qed.

Lemma mapping_entries_match_true (slave_idx pdo_map_idx : Z)
    (mapped_objects : list Z) :
  forall (i : nat) (b : bus T),
    (i + length mapped_objects <= 255)%nat ->
    entries_read_back slave_idx pdo_map_idx (Z.of_nat i) mapped_objects
                      (tp b) ->
    exists b',
      mapping_entries_match slave_idx pdo_map_idx (Z.of_nat i)
                            mapped_objects b
      = Some (true, b').
Proof.
  induction mapped_objects as [| obj rest IH]; intros i b Hlen Hrb.
  - exists b. reflexivity.
  - cbn [mapping_entries_match entries_read_back length] in *.
    unfold bind.
    rewrite uint8_small by lia.
    destruct (read_sdo_runs slave_idx pdo_map_idx (Z.of_nat i + 1) 4 b)
      as (k & v & t & E & ->).
    rewrite E in Hrb. destruct Hrb as (Hk & Hv & Hrest).
    apply Z.eqb_neq in Hk. rewrite Hk. cbn [Z.eqb].
    apply Z.eqb_eq in Hv. rewrite Hv.
    replace (Z.of_nat i + 1) with (Z.of_nat (S i)) in * by lia.
    apply IH; [lia | exact Hrest].
Qed.

Lemma mapping_already_matches_runs (slave_idx pdo_map_idx : Z)
    (mapped_objects : list Z) (b : bus T) :
  exists m b',
    mapping_already_matches slave_idx pdo_map_idx mapped_objects b
    = Some (m, b')
    /\ sdo_writes (trace b') = sdo_writes (trace b)
    /\ state_requests (trace b') = state_requests (trace b).
Proof.
  unfold mapping_already_matches, bind.
  destruct (read_sdo_runs slave_idx pdo_map_idx 0 1 b)
    as (k & v & t & _ & ->).
  destruct (emit_read_projections t slave_idx pdo_map_idx 0 1 k v b)
    as [Hw Hs].
  destruct (k =? 0); cbn [Z.eqb].
  - eexists _, _. split; [reflexivity | auto].
  - destruct (uint8 v =? Z.of_nat (length mapped_objects)).
    + destruct (mapping_entries_match_runs slave_idx pdo_map_idx
                  mapped_objects 0
                  (emit t (EvSDOread slave_idx pdo_map_idx 0 1 k v) b))
        as (m & b' & -> & Hw' & Hs').
      exists m, b'. split; [reflexivity|]. split; congruence.
    + eexists _, _. split; [reflexivity | auto].
Qed.

Lemma mapping_already_matches_true (slave_idx pdo_map_idx : Z)
    (mapped_objects : list Z) (b : bus T) :
  (length mapped_objects <= 255)%nat ->
  mapping_reads_back slave_idx pdo_map_idx mapped_objects (tp b) ->
  exists b',
    mapping_already_matches slave_idx pdo_map_idx mapped_objects b
    = Some (true, b').
Proof.
  intros Hlen Hrb.
  unfold mapping_already_matches, mapping_reads_back, bind in *.
  destruct (read_sdo_runs slave_idx pdo_map_idx 0 1 b)
    as (k & v & t & E & ->).
  rewrite E in Hrb. destruct Hrb as (Hk & Hv & Hrest).
  apply Z.eqb_neq in Hk. rewrite Hk. cbn [Z.eqb].
  apply Z.eqb_eq in Hv. rewrite Hv.
  apply (mapping_entries_match_true slave_idx pdo_map_idx mapped_objects
           0 (emit t (EvSDOread slave_idx pdo_map_idx 0 1 k v) b));
    [lia | exact Hrest].
Qed.

(** The configuration up to the decision of step 1, in terms of what the
    state controller and step 1 return. *)
Lemma configure_unfolds (slave_idx pdo_assign_idx pdo_map_idx : Z)
    (mapped_objects : list Z) (b b0 b1 : bus T) (m : bool) :
  soem_interface_set_ethercat_state slave_idx EC_STATE_PRE_OP b
  = Some (0, b0) ->
  (usleep 100000 ;;
   mapping_already_matches slave_idx pdo_map_idx mapped_objects) b0
  = Some (m, b1) ->
  soem_interface_configure_pdo_mapping_enhanced
    slave_idx pdo_assign_idx pdo_map_idx mapped_objects b
  = if m then Some (0, b1)
    else rewrite_pdo_mapping slave_idx pdo_assign_idx pdo_map_idx
                             mapped_objects b1.
Proof.
  intros Hst Hm.
  unfold soem_interface_configure_pdo_mapping_enhanced, bind at 1.
  rewrite Hst. unfold or_fail. cbn [Z.eqb].
  unfold bind, usleep in *.
  destruct (mapping_already_matches slave_idx pdo_map_idx mapped_objects _)
    as [[m' b1'] |]; [|discriminate].
  inversion Hm; subst. now destruct m.
Qed.


(** Once the PRE-OP request has succeeded, a drive that
    reports the target count and, entry by entry, the target list makes
    the configuration return 0 without a single SDO write. *)
Lemma configure_unchanged (slave_idx pdo_assign_idx pdo_map_idx : Z)
    (mapped_objects : list Z) (b b0 : bus T) :
  (length mapped_objects <= 255)%nat ->
  soem_interface_set_ethercat_state slave_idx EC_STATE_PRE_OP b
  = Some (0, b0) ->
  mapping_reads_back slave_idx pdo_map_idx mapped_objects
                     (elapse 100000 (tp b0)) ->
  exists b',
    soem_interface_configure_pdo_mapping_enhanced
      slave_idx pdo_assign_idx pdo_map_idx mapped_objects b
    = Some (0, b')
    /\ sdo_writes (trace b') = sdo_writes (trace b).
Proof.
  intros Hlen Hst Hrb.
  destruct (mapping_already_matches_true slave_idx pdo_map_idx
              mapped_objects
              (emit (elapse 100000 (tp b0)) (EvSleep 100000) b0)
              Hlen Hrb) as (b' & Hrun).
  assert (Hm : (usleep 100000 ;;
                mapping_already_matches slave_idx pdo_map_idx
                                        mapped_objects) b0
               = Some (true, b')) by exact Hrun.
  rewrite (configure_unfolds _ _ _ _ _ _ _ _ Hst Hm).
  exists b'. split; [reflexivity|].
  destruct (set_ethercat_state_runs slave_idx EC_STATE_PRE_OP b)
    as (r0 & b0' & blocks & Hrun0 & _ & _ & _ & _ & _ & _ & Hw0).
  rewrite Hst in Hrun0. inversion Hrun0; subst r0 b0'.
  destruct (mapping_already_matches_runs slave_idx pdo_map_idx
              mapped_objects
              (emit (elapse 100000 (tp b0)) (EvSleep 100000) b0))
    as (m & b1' & Hrun1 & Hw1 & _).
  rewrite Hrun in Hrun1. inversion Hrun1; subst m b1'.
  destruct (emit_sleep_projections (elapse 100000 (tp b0)) 100000 b0)
    as [Hw2 _].
  congruence.
Qed.

Lemma pre_op_blocks (slave_idx : Z) (blocks : list (list (Z * Z))) :
  Forall (attempt_block slave_idx EC_STATE_PRE_OP) blocks ->
  concat blocks = repeat (slave_idx, EC_STATE_PRE_OP) (length blocks).
Proof.
  induction 1 as [| blk blocks Hblk _ IH]; [reflexivity|].
  cbn [concat length repeat]. rewrite IH.
  destruct Hblk as [-> | [Hop _]]; [reflexivity | discriminate].
Qed.

(** C6, as amended.  The configuration itself asks for a slave state: it
    starts by requesting PRE-OP through the state controller, between one
    and five times, and requests no other state.  When that request fails
    it returns -1 at once, without any SDO transaction. *)
Theorem pdo_configuration_requests_pre_op
    (slave_idx pdo_assign_idx pdo_map_idx : Z) (mapped_objects : list Z)
    (b : bus T) :
  exists r b' n,
    soem_interface_configure_pdo_mapping_enhanced
      slave_idx pdo_assign_idx pdo_map_idx mapped_objects b
    = Some (r, b')
    /\ state_requests (trace b')
       = state_requests (trace b)
         ++ repeat (slave_idx, EC_STATE_PRE_OP) n
    /\ (1 <= n <= 5)%nat
    /\ (forall b0,
          soem_interface_set_ethercat_state slave_idx EC_STATE_PRE_OP b
          = Some (-1, b0) ->
          r = -1 /\ b' = b0
          /\ sdo_transactions (trace b') = sdo_transactions (trace b)).
Proof.
  destruct (set_ethercat_state_runs slave_idx EC_STATE_PRE_OP b)
    as (r0 & b0 & blocks & Hrun0 & Hr0 & Hreq0 & Hall & Hlen & _ & Htx & _).
  rewrite (pre_op_blocks _ _ Hall) in Hreq0.
  unfold soem_interface_configure_pdo_mapping_enhanced, bind at 1.
  rewrite Hrun0.
  destruct Hr0 as [-> | ->]; unfold or_fail; cbn [Z.eqb].
  2:{ exists (-1), b0, (length blocks). split; [reflexivity|].
      split; [assumption|]. split; [assumption|].
      intros b0' H. inversion H; subst. auto. }
  unfold bind, usleep.
  destruct (emit_sleep_projections (elapse 100000 (tp b0)) 100000 b0)
    as [_ Hs1].
  destruct (mapping_already_matches_runs slave_idx pdo_map_idx
              mapped_objects
              (emit (elapse 100000 (tp b0)) (EvSleep 100000) b0))
    as (m & b1 & -> & _ & Hs2).
  destruct m.
  - exists 0, b1, (length blocks). split; [reflexivity|].
    split; [congruence|]. split; [assumption|]. discriminate.
  - assert (P : phase (rewrite_pdo_mapping slave_idx pdo_assign_idx
                         pdo_map_idx mapped_objects)
                  ([(pdo_assign_idx, 0, 1, zero_val)]
                   ++ [(pdo_map_idx, 0, 1, zero_val)]
                   ++ entry_writes pdo_map_idx 0 mapped_objects
                   ++ [(pdo_map_idx, 0, 1,
                        Z.of_nat (length mapped_objects))]
                   ++ [(pdo_assign_idx, 0, 1, original_assign_val)] ++ [])
                  (read_back_decides slave_idx pdo_map_idx
                     (Z.of_nat (length mapped_objects))) b1).
    { unfold rewrite_pdo_mapping.
      apply phase_seq; [apply phase_write|].
      intros c1. apply phase_sleep. intros c2.
      apply phase_seq; [apply phase_write|].
      intros c3. apply phase_sleep. intros c4.
      apply phase_seq; [apply phase_write_mapping_objects|].
      intros c5.
      apply phase_seq; [apply phase_write|].
      intros c6. apply phase_sleep. intros c7.
      apply phase_seq; [apply phase_write|].
      intros c8. apply phase_sleep. intros c9.
      apply phase_read_back. }
    destruct P as (r & b' & ws & c & Hrun & _ & Hs3 & _).
    exists r, b', (length blocks). split; [assumption|].
    split; [congruence|]. split; [assumption|]. discriminate.
Qed.
End ConfigurationFacts.

(* ================================================================== *)
(** * CiA 402 bring-up and the cyclic loop *)

Section CyclicFacts.
Context {T : Type} {TR : Transport T} {F : Type} {FL : CFloat F}.

#[local] Abbreviation world := (world T F).

Lemma bringup_frame_refl (w : world) : bringup_frame w w.
Proof. repeat split. Qed.

Lemma bringup_frame_trans (w1 w2 w3 : world) :
  bringup_frame w1 w2 -> bringup_frame w2 w3 -> bringup_frame w1 w3.
Proof.
  unfold bringup_frame.
  intros (A1 & A2 & A3 & A4 & A5 & A6 & A7 & A8)
         (B1 & B2 & B3 & B4 & B5 & B6 & B7 & B8).
  repeat split; congruence.
Qed.

Lemma cia402_state_eqb_eq (a b : cia402_state_t) :
  cia402_state_eqb a b = true <-> a = b.
Proof. destruct a, b; simpl; split; congruence. Qed.

(** One pass through the body of the bring-up loop. *)
Lemma cia402_attempt_runs (w : world) :
  match somanet_inputs w with
  | None => cia402_attempt w = Some (Some (-1), w)
  | Some img =>
      let st := get_cia402_state (statusword img) in
      if cia402_state_eqb st CIA402_STATE_OPERATION_ENABLED
      then
        cia402_attempt w
        = Some (Some 0,
                set_current_cia402_state st
                  (set_current_statusword (statusword img) w))
      else
        exists k img' w',
          cia402_attempt w = Some (None, w')
          /\ trace (ec w')
             = trace (ec w)
               ++ [EvSend (option_map
                             (with_controlword (transition_controlword st))
                             (somanet_outputs w));
                   EvReceive k img']
          /\ somanet_inputs w' = Some img'
          /\ somanet_outputs w'
             = option_map (with_controlword (transition_controlword st))
                          (somanet_outputs w)
          /\ current_controlword w' = transition_controlword st
          /\ current_cia402_state w' = st
          /\ bringup_frame w w'
  end.
Proof.
  unfold cia402_attempt, bind, gets, update, ret.
  destruct (somanet_inputs w) as [img |] eqn:Hin; [|reflexivity].
  cbn [current_statusword set_current_statusword current_cia402_state
       set_current_cia402_state].
  destruct (cia402_state_eqb (get_cia402_state (statusword img))
                             CIA402_STATE_OPERATION_ENABLED);
    [reflexivity|].
  unfold send_processdata, receive_processdata, emit.
  cbn [current_controlword set_current_controlword somanet_outputs
       set_outputs ec tp trace set_ec].
  destruct (ec_send_processdata _ _) as [r t].
  cbn [ec set_ec tp trace somanet_inputs set_current_controlword
       set_current_cia402_state set_current_statusword set_outputs].
  destruct (ec_receive_processdata _ _) as [[k img'] t'].
  rewrite Hin.
  eexists k, img', _. split; [reflexivity|].
  cbn. rewrite <- app_assoc.
  repeat split; try reflexivity.
  - destruct (somanet_outputs w); reflexivity.
  - now rewrite Hin.
Qed.

Lemma removelast_cons_cons {A : Type} (a b : A) (l : list A) :
  removelast (a :: b :: l) = a :: removelast (b :: l).
Proof. reflexivity. Qed.

Lemma last_cons_cons {A : Type} (a b d : A) (l : list A) :
  last (a :: b :: l) d = last (b :: l) d.
Proof. reflexivity. Qed.

Lemma last_default {A : Type} (l : list A) (a d d' : A) :
  last (a :: l) d = last (a :: l) d'.
Proof.
  revert a. induction l as [| x l IH]; intros a; [reflexivity|].
  rewrite !last_cons_cons. apply IH.
Qed.

(** The bring-up loop from attempt number [attempt]. *)
Lemma cia402_loop_runs (fuel : nat) :
  forall (attempt : Z) (w : world),
    0 <= attempt ->
    max_attempts - attempt <= Z.of_nat fuel ->
    exists r w' delta,
      cia402_loop fuel attempt w = Some (r, w')
      /\ trace (ec w') = trace (ec w) ++ delta
      /\ bringup_frame w w'
      /\ Z.of_nat (length (received delta))
         <= Z.max 0 (max_attempts - attempt)
      /\ sleeps delta = repeat 5000 (length (received delta))
      /\ match somanet_inputs w with
         | None =>
             r = -1 /\ delta = []
         | Some img0 =>
             let imgs := img0 :: map snd (received delta) in
             Forall not_enabled (removelast imgs)
             /\ somanet_inputs w' = Some (last imgs img0)
             /\ ((r = 0
                  /\ get_cia402_state (statusword (last imgs img0))
                     = CIA402_STATE_OPERATION_ENABLED
                  /\ current_cia402_state w'
                     = CIA402_STATE_OPERATION_ENABLED
                  /\ Z.of_nat (length (received delta))
                     < max_attempts - attempt)
                 \/ (r = -1
                     /\ Z.of_nat (length (received delta))
                        = Z.max 0 (max_attempts - attempt)))
         end.
Proof.
  unfold max_attempts.
  induction fuel as [| fuel IH]; intros attempt w Ha Hfuel.
  - assert (E : (attempt <? 50) = false) by (apply Z.ltb_ge; lia).
    cbn [cia402_loop]. unfold max_attempts. rewrite E.
    apply Z.ltb_ge in E.
    exists (-1), w, []. rewrite app_nil_r. cbn [received length map sleeps repeat].
    split; [reflexivity|]. split; [reflexivity|].
    split; [apply bringup_frame_refl|]. split; [lia|].
    split; [reflexivity|].
    destruct (somanet_inputs w) as [img0 |]; [|auto].
    cbn [removelast last]. split; [constructor|]. split; [reflexivity|].
    right. split; [reflexivity | lia].
  - cbn [cia402_loop]. unfold max_attempts.
    destruct (attempt <? 50) eqn:E.
    2:{ apply Z.ltb_ge in E.
        exists (-1), w, []. rewrite app_nil_r.
        cbn [received length map sleeps repeat].
        split; [reflexivity|]. split; [reflexivity|].
        split; [apply bringup_frame_refl|]. split; [lia|].
        split; [reflexivity|].
        destruct (somanet_inputs w) as [img0 |]; [|auto].
        cbn [removelast last]. split; [constructor|]. split; [reflexivity|].
        right. split; [reflexivity | lia]. }
    apply Z.ltb_lt in E.
    pose proof (cia402_attempt_runs w) as Hatt.
    unfold bind at 1.
    destruct (somanet_inputs w) as [img0 |] eqn:Hin.
    2:{ rewrite Hatt. exists (-1), w, []. rewrite app_nil_r.
        cbn [received length map sleeps repeat].
        split; [reflexivity|]. split; [reflexivity|].
        split; [apply bringup_frame_refl|]. split; [lia|]. auto. }
    cbv zeta in Hatt.
    destruct (cia402_state_eqb (get_cia402_state (statusword img0))
                               CIA402_STATE_OPERATION_ENABLED) eqn:Hoe.
    + rewrite Hatt. apply cia402_state_eqb_eq in Hoe.
      eexists 0, _, []. rewrite app_nil_r.
      cbn [received length map sleeps repeat removelast last].
      split; [reflexivity|]. split; [reflexivity|].
      split; [repeat split|]. split; [lia|]. split; [reflexivity|].
      split; [constructor|]. split; [exact Hin|].
      left. repeat split; auto. lia.
    + destruct Hatt as (k & img1 & w1 & Hrun & Htr & Hin1 & _ & _ & _ & Hfr).
      rewrite Hrun.
      unfold bind, on_bus, usleep.
      cbn [ec set_ec].
      set (w2 := set_ec (emit (elapse 5000 (tp (ec w1))) (EvSleep 5000)
                              (ec w1)) w1).
      destruct (IH (attempt + 1) w2 ltac:(lia) ltac:(lia))
        as (r & w' & delta & Hloop & Htr' & Hfr' & Hlen & Hsl & Hcase).
      rewrite Hloop.
      assert (Hin2 : somanet_inputs w2 = Some img1) by exact Hin1.
      rewrite Hin2 in Hcase. cbv zeta in Hcase.
      destruct Hcase as (Hall & Hlast & Hres).
      exists r, w',
        ([EvSend (option_map
                    (with_controlword
                       (transition_controlword
                          (get_cia402_state (statusword img0))))
                    (somanet_outputs w));
          EvReceive k img1; EvSleep 5000] ++ delta).
      split; [reflexivity|].
      split.
      { rewrite Htr'. subst w2. unfold emit. cbn [ec set_ec trace].
        rewrite Htr. rewrite <- !app_assoc. reflexivity. }
      split.
      { apply bringup_frame_trans with w2; [|assumption].
        destruct Hfr as (A1 & A2 & A3 & A4 & A5 & A6 & A7 & A8).
        repeat split; assumption. }
      cbn [app received sleeps length map snd repeat].
      split; [lia|]. split; [now rewrite Hsl|].
      rewrite removelast_cons_cons, last_cons_cons.
      rewrite (last_default _ img1 img0 img1).
      split.
      { constructor; [|assumption].
        unfold not_enabled. intros Heq.
        apply cia402_state_eqb_eq in Heq. congruence. }
      split; [assumption|].
      destruct Hres as [(-> & H1 & H2 & H3) | (-> & H3)].
      * left. repeat split; auto. lia.
      * right. split; [reflexivity | lia].
Qed.

Lemma cia402_loop_fuel (fuel : nat) :
  forall (attempt : Z) (w : world) (x : Z * world),
    cia402_loop fuel attempt w = Some x ->
    forall fuel', (fuel <= fuel')%nat ->
                  cia402_loop fuel' attempt w = Some x.
Proof.
  induction fuel as [| fuel IH]; intros attempt w x Hrun fuel' Hle.
  - cbn [cia402_loop] in Hrun.
    destruct fuel' as [| fuel']; [assumption|].
    cbn [cia402_loop].
    destruct (attempt <? max_attempts); [discriminate | assumption].
  - destruct fuel' as [| fuel']; [lia|].
    cbn [cia402_loop] in *.
    destruct (attempt <? max_attempts); [|assumption].
    unfold bind in *.
    destruct (cia402_attempt w) as [[[v |] w1] |]; try assumption.
    destruct (on_bus (usleep 5000) w1) as [[u w2] |]; [|discriminate].
    apply IH; [assumption | lia].
Qed.

(** C8.  The bring-up phase always returns, after at most 50 exchanges,
    each followed by a 5 ms sleep.  It returns 0 at the first attempt
    whose input image decodes to OperationEnabled: every image examined
    before decoded to another state.  It returns -1 after 50 attempts
    none of which saw OperationEnabled (or at once when there is no input
    image).  More fuel than 50 changes nothing. *)
Theorem perform_cia402_transition_terminates (slave_idx : Z) (w : world) :
  exists r w' delta,
    perform_cia402_transition_to_operational slave_idx w = Some (r, w')
    /\ trace (ec w') = trace (ec w) ++ delta
    /\ (length (received delta) <= 50)%nat
    /\ sleeps delta = repeat 5000 (length (received delta))
    /\ match somanet_inputs w with
       | None => r = -1 /\ delta = []
       | Some img0 =>
           let imgs := img0 :: map snd (received delta) in
           Forall not_enabled (removelast imgs)
           /\ ((r = 0
                /\ get_cia402_state (statusword (last imgs img0))
                   = CIA402_STATE_OPERATION_ENABLED
                /\ current_cia402_state w'
                   = CIA402_STATE_OPERATION_ENABLED
                /\ (length (received delta) < 50)%nat)
               \/ (r = -1 /\ length (received delta) = 50%nat))
       end
    /\ (forall fuel : nat,
          (50 <= fuel)%nat ->
          cia402_loop fuel 0 w
          = perform_cia402_transition_to_operational slave_idx w).
Proof.
  destruct (cia402_loop_runs (Z.to_nat max_attempts) 0 w)
    as (r & w' & delta & Hrun & Htr & _ & Hlen & Hsl & Hcase);
    [lia | unfold max_attempts; lia |].
  unfold max_attempts in *.
  exists r, w', delta.
  split; [exact Hrun|]. split; [exact Htr|]. split; [lia|].
  split; [exact Hsl|]. split.
  - destruct (somanet_inputs w) as [img0 |]; [|exact Hcase].
    cbv zeta in *. destruct Hcase as (Hall & _ & Hres).
    split; [exact Hall|].
    destruct Hres as [(-> & H1 & H2 & H3) | (-> & H3)].
    + left. repeat split; auto. lia.
    + right. split; [reflexivity | lia].
  - intros fuel Hfuel.
    unfold perform_cia402_transition_to_operational at 1.
    unfold max_attempts. rewrite Hrun.
    apply (cia402_loop_fuel (Z.to_nat 50)); [exact Hrun | lia].
Qed.

(** C3.  The controlword selected for each state, and the attempt that
    carries it: with OperationEnabled decoded the attempt returns 0 and
    emits nothing; with any other state it stores the selected
    controlword, writes it to the output image and exchanges process data
    once. *)
Theorem transition_controlword_table :
  transition_controlword CIA402_STATE_FAULT = 0x80
  /\ transition_controlword CIA402_STATE_NOT_READY = 0x06
  /\ transition_controlword CIA402_STATE_SWITCH_ON_DISABLED = 0x06
  /\ transition_controlword CIA402_STATE_QUICK_STOP_ACTIVE = 0x06
  /\ transition_controlword CIA402_STATE_READY_TO_SWITCH_ON = 0x07
  /\ transition_controlword CIA402_STATE_SWITCHED_ON = 0x0F
  /\ transition_controlword CIA402_STATE_FAULT_REACTION_ACTIVE = 0x06
  /\ (forall (w : world) (img : tx_pdo),
        somanet_inputs w = Some img ->
        get_cia402_state (statusword img) = CIA402_STATE_OPERATION_ENABLED ->
        exists w',
          cia402_attempt w = Some (Some 0, w')
          /\ ec w' = ec w
          /\ somanet_outputs w' = somanet_outputs w
          /\ current_controlword w' = current_controlword w)
  /\ (forall (w : world) (img : tx_pdo),
        somanet_inputs w = Some img ->
        get_cia402_state (statusword img) <> CIA402_STATE_OPERATION_ENABLED ->
        exists w',
          cia402_attempt w = Some (None, w')
          /\ current_controlword w'
             = transition_controlword (get_cia402_state (statusword img))
          /\ sent (trace (ec w'))
             = sent (trace (ec w))
               ++ [option_map
                     (with_controlword
                        (transition_controlword
                           (get_cia402_state (statusword img))))
                     (somanet_outputs w)]).
Proof.
  repeat (split; [reflexivity|]).
  split.
  - intros w img Hin Hoe.
    pose proof (cia402_attempt_runs w) as Hatt.
    rewrite Hin in Hatt. cbv zeta in Hatt. rewrite Hoe in Hatt.
    cbn [cia402_state_eqb] in Hatt.
    eexists. split; [exact Hatt|]. repeat split.
  - intros w img Hin Hne.
    pose proof (cia402_attempt_runs w) as Hatt.
    rewrite Hin in Hatt. cbv zeta in Hatt.
    destruct (cia402_state_eqb (get_cia402_state (statusword img))
                               CIA402_STATE_OPERATION_ENABLED) eqn:E.
    { apply cia402_state_eqb_eq in E. contradiction. }
    destruct Hatt as (k & img' & w' & Hrun & Htr & _ & _ & Hcw & _).
    exists w'. split; [exact Hrun|]. split; [exact Hcw|].
    rewrite Htr. rewrite sent_app. reflexivity.
Qed.

(** The unused two-argument planner agrees with the selection above when
    it is asked for the successor state, and never returns anything but
    Shutdown, SwitchOn, EnableOperation or FaultReset. *)
Lemma controlword_for_transition_agrees :
  get_cia402_controlword_for_transition
    CIA402_STATE_NOT_READY CIA402_STATE_READY_TO_SWITCH_ON
  = transition_controlword CIA402_STATE_NOT_READY
  /\ get_cia402_controlword_for_transition
       CIA402_STATE_SWITCH_ON_DISABLED CIA402_STATE_READY_TO_SWITCH_ON
     = transition_controlword CIA402_STATE_SWITCH_ON_DISABLED
  /\ get_cia402_controlword_for_transition
       CIA402_STATE_READY_TO_SWITCH_ON CIA402_STATE_SWITCHED_ON
     = transition_controlword CIA402_STATE_READY_TO_SWITCH_ON
  /\ get_cia402_controlword_for_transition
       CIA402_STATE_SWITCHED_ON CIA402_STATE_OPERATION_ENABLED
     = transition_controlword CIA402_STATE_SWITCHED_ON
  /\ (forall target,
        get_cia402_controlword_for_transition CIA402_STATE_FAULT target
        = transition_controlword CIA402_STATE_FAULT)
  /\ (forall target,
        get_cia402_controlword_for_transition
          CIA402_STATE_QUICK_STOP_ACTIVE target
        = transition_controlword CIA402_STATE_QUICK_STOP_ACTIVE)
  /\ (forall target,
        get_cia402_controlword_for_transition
          CIA402_STATE_OPERATION_ENABLED target = 0x06).
Proof. repeat split. Qed.

Lemma bind_some {S A B : Type} (m : M S A) (k : A -> M S B)
    (s s' : S) (a : A) :
  m s = Some (a, s') -> bind m k s = k a s'.
Proof. intros H. unfold bind. now rewrite H. Qed.

Lemma write_output_image_frame (w : world) :
  ec (write_output_image w) = ec w
  /\ somanet_inputs (write_output_image w) = somanet_inputs w
  /\ is_some (somanet_outputs (write_output_image w))
     = is_some (somanet_outputs w)
  /\ expectedWKC (write_output_image w) = expectedWKC w
  /\ target_torque_f (write_output_image w) = target_torque_f w
  /\ current_statusword (write_output_image w) = current_statusword w
  /\ current_cia402_state (write_output_image w) = current_cia402_state w
  /\ current_position_f (write_output_image w) = current_position_f w
  /\ current_velocity_f (write_output_image w) = current_velocity_f w.
Proof.
  unfold write_output_image.
  destruct (somanet_outputs w) eqn:E; cbn; rewrite ?E; repeat split.
Qed.

(** The end of an iteration, lines 500-505. *)
Lemma cycle_tail_runs (slave_idx : Z) (smi : bool) (w : world) :
  exists b' rest,
    (op <- on_bus (is_slave_operational slave_idx) ;;
     (if negb op
      then _ <- on_bus (statecheck slave_idx EC_STATE_OPERATIONAL
                                   EC_TIMEOUTSTATE) ;; ret tt
      else ret tt) ;;
     on_bus (usleep 1000) ;;
     ret smi) w
    = Some (smi, set_ec b' w)
    /\ trace b' = trace (ec w) ++ rest
    /\ received rest = [] /\ sent rest = [].
Proof.
  unfold bind, on_bus, is_slave_operational, read_slave_state, ret, bind.
  destruct (Z.land (slave_state slave_idx (tp (ec w))) 15
            =? EC_STATE_OPERATIONAL); cbn [negb].
  - unfold usleep. cbn [ec set_ec].
    eexists _, [EvSleep 1000]. split; [reflexivity|]. auto.
  - unfold statecheck. cbn [ec set_ec].
    destruct (ec_statecheck slave_idx EC_STATE_OPERATIONAL EC_TIMEOUTSTATE
                            (tp (ec w))) as [r t].
    unfold usleep, emit. cbn [ec set_ec tp trace].
    eexists _, [EvStateCheck slave_idx EC_STATE_OPERATIONAL
                             EC_TIMEOUTSTATE r; EvSleep 1000].
    split; [reflexivity|]. cbn [trace]. rewrite <- app_assoc. auto.
Qed.

(** One iteration of the cyclic loop. *)
Lemma ecat_cycle_runs (slave_idx : Z) (smi : bool) (w : world) :
  exists smi' w' k img rest,
    ecat_cycle slave_idx smi w = Some (smi', w')
    /\ cycle_exchange w = (k, img)
    /\ trace (ec w')
       = trace (ec w)
         ++ EvSend (somanet_outputs (write_output_image w))
            :: EvReceive k img :: EvSleep 5000 :: rest
    /\ expectedWKC w' = expectedWKC w
    /\ target_torque_f w' = target_torque_f w
    /\ (k < expectedWKC w ->
        communication_ok w' = 0
        /\ smi' = smi
        /\ current_statusword w' = current_statusword w
        /\ current_cia402_state w' = current_cia402_state w
        /\ current_position_f w' = current_position_f w
        /\ current_velocity_f w' = current_velocity_f w
        /\ received rest = [] /\ sent rest = [])
    /\ (expectedWKC w <= k ->
        communication_ok w' = 1
        /\ (smi = true ->
            forall img0, somanet_inputs w = Some img0 ->
            current_statusword w' = statusword img
            /\ current_cia402_state w' = get_cia402_state (statusword img)
            /\ current_position_f w'
               = f_of_int32 (position_actual_value img)
            /\ current_velocity_f w'
               = f_of_int32 (velocity_actual_value img))).
Proof.
  destruct (write_output_image_frame w)
    as (Fec & Fin & Fout & Fexp & Ftq & Fsw & Fst & Fpos & Fvel).
  unfold ecat_cycle.
  rewrite (bind_some _ _ w (write_output_image w) tt) by reflexivity.
  set (w1 := write_output_image w) in *.
  destruct (ec_send_processdata (somanet_outputs w1) (tp (ec w1)))
    as [r t1] eqn:Es.
  erewrite bind_some
    by (unfold send_processdata; rewrite Es; reflexivity).
  set (w2 := set_ec (emit t1 (EvSend (somanet_outputs w1)) (ec w1)) w1).
  destruct (ec_receive_processdata EC_TIMEOUTRET (tp (ec w2)))
    as [[k img] t2] eqn:Er.
  erewrite bind_some
    by (unfold receive_processdata; rewrite Er; reflexivity).
  rewrite (bind_some _ _ _ _ tt eq_refl).
  rewrite (bind_some _ _ _ _ tt eq_refl).
  rewrite (bind_some _ _ _ _ _ eq_refl).
  match goal with
  | |- context [bind _ _ ?w] => set (w4 := w)
  end.
  assert (Hk : wkc w4 = k) by reflexivity.
  assert (Hex : cycle_exchange w = (k, img)).
  { unfold cycle_exchange. fold w1. rewrite <- Fec, Es.
    change t1 with (tp (ec w2)). now rewrite Er. }
  assert (Hexp : expectedWKC w4 = expectedWKC w) by exact Fexp.
  assert (Htr4 : trace (ec w4)
                 = trace (ec w)
                   ++ [EvSend (somanet_outputs w1); EvReceive k img;
                       EvSleep 5000]).
  { subst w4 w2. unfold emit. cbn [ec set_ec set_wkc set_inputs trace tp].
    rewrite Fec. rewrite <- !app_assoc. reflexivity. }
  assert (Hin4 : somanet_inputs w4
                 = match somanet_inputs w with
                   | Some _ => Some img
                   | None => None
                   end).
  { subst w4 w2. cbn. now rewrite Fin. }
  assert (Hfr4 : target_torque_f w4 = target_torque_f w
                 /\ current_statusword w4 = current_statusword w
                 /\ current_cia402_state w4 = current_cia402_state w
                 /\ current_position_f w4 = current_position_f w
                 /\ current_velocity_f w4 = current_velocity_f w).
  { subst w4 w2. cbn. auto. }
  destruct Hfr4 as (Gtq & Gsw & Gst & Gpos & Gvel).
  rewrite Hk, Hexp.
  destruct (k >=? expectedWKC w) eqn:Hge.
  - (* the working counter is sufficient *)
    assert (Hge' : expectedWKC w <= k)
      by (rewrite Z.geb_leb in Hge; apply Z.leb_le in Hge; lia).
    set (w5 := read_input_image (set_communication_ok 1 w4)).
    assert (F5 : ec w5 = ec w4
                 /\ expectedWKC w5 = expectedWKC w4
                 /\ communication_ok w5 = 1
                 /\ target_torque_f w5 = target_torque_f w4
                 /\ (forall i, somanet_inputs w4 = Some i ->
                               current_statusword w5 = statusword i
                               /\ current_cia402_state w5
                                  = get_cia402_state (statusword i)
                               /\ current_position_f w5
                                  = f_of_int32 (position_actual_value i)
                               /\ current_velocity_f w5
                                  = f_of_int32 (velocity_actual_value i))).
    { subst w5. unfold read_input_image.
      cbn [somanet_inputs set_communication_ok].
      destruct (somanet_inputs w4) as [i |].
      - cbn. repeat (split; [reflexivity|]).
        intros i' Hi. injection Hi as <-. repeat split.
      - cbn. repeat (split; [reflexivity|]). discriminate. }
    destruct F5 as (Hec5 & Hexp5 & Hok5 & Htq5 & Htel5).
    assert (Hinner : exists smi' w6 delta,
               (update (set_communication_ok 1) ;;
                update read_input_image ;;
                (if negb smi && is_some (somanet_inputs w4)
                    && is_some (somanet_outputs w4)
                 then
                   r0 <- perform_cia402_transition_to_operational
                           slave_idx ;;
                   (if r0 =? 0 then ret true else ret smi)
                 else ret smi)) w4
               = Some (smi', w6)
               /\ trace (ec w6) = trace (ec w5) ++ delta
               /\ expectedWKC w6 = expectedWKC w5
               /\ communication_ok w6 = communication_ok w5
               /\ target_torque_f w6 = target_torque_f w5
               /\ (smi = true -> w6 = w5)).
    { rewrite (bind_some _ _ w4 _ tt eq_refl).
      rewrite (bind_some _ _ _ _ tt eq_refl).
      fold w5.
      destruct (negb smi && is_some (somanet_inputs w4)
                && is_some (somanet_outputs w4)) eqn:Hc.
      - destruct (cia402_loop_runs (Z.to_nat max_attempts) 0 w5)
          as (r0 & w6 & delta & Hrun & Htr & Hfr & _);
          [lia | unfold max_attempts; lia |].
        destruct Hfr as (A1 & A2 & _ & A4 & _).
        assert (Hs : smi = false) by (destruct smi; [discriminate | reflexivity]).
        rewrite (bind_some _ _ w5 w6 r0 Hrun).
        destruct (r0 =? 0); eexists _, w6, delta;
          (split; [reflexivity|]; repeat split; auto; congruence).
      - exists smi, w5, []. rewrite app_nil_r. repeat split; auto. }
    destruct Hinner as (smi' & w6 & delta & Hrun6 & Htr6 & Hexp6 & Hok6
                        & Htq6 & Hsame).
    rewrite (bind_some _ _ w4 w6 smi' Hrun6).
    destruct (cycle_tail_runs slave_idx smi' w6)
      as (b' & rest & Htail & Htr' & _ & _).
    exists smi', (set_ec b' w6), k, img, (delta ++ rest).
    split; [exact Htail|]. split; [exact Hex|].
    cbn [ec set_ec expectedWKC target_torque_f communication_ok
         current_statusword current_cia402_state current_position_f
         current_velocity_f].
    split.
    { rewrite Htr', Htr6, Hec5, Htr4. rewrite <- !app_assoc. reflexivity. }
    split; [congruence|]. split; [congruence|].
    split; [intros Hlt; lia|].
    intros _. split; [congruence|].
    intros Hs img0 Hin0. rewrite (Hsame Hs).
    apply Htel5. rewrite Hin4, Hin0. reflexivity.
  - (* the working counter is too low *)
    assert (Hlt : k < expectedWKC w) by (rewrite Z.geb_leb in Hge; apply Z.leb_gt in Hge; lia).
    rewrite (bind_some _ _ w4 (set_communication_ok 0 w4) smi eq_refl).
    destruct (cycle_tail_runs slave_idx smi (set_communication_ok 0 w4))
      as (b' & rest & Htail & Htr' & Hrec & Hsent).
    exists smi, (set_ec b' (set_communication_ok 0 w4)), k, img, rest.
    split; [exact Htail|]. split; [exact Hex|].
    cbn [ec set_ec set_communication_ok expectedWKC target_torque_f
         communication_ok current_statusword current_cia402_state
         current_position_f current_velocity_f] in *.
    split.
    { rewrite Htr', Htr4. rewrite <- !app_assoc. reflexivity. }
    split; [congruence|]. split; [congruence|].
    split; [|intros Hge'; lia].
    intros _. repeat split; auto.
Qed.

(** C1.  In the iteration that starts in [w] after the control thread
    has requested any setpoint, the target-torque field written to the
    output image is 0 whenever the state is not OperationEnabled, and the
    setpoint times 1000 converted to [int16_t] when it is.  That image is
    the first one the iteration sends.  Without an output image nothing is
    written. *)
Theorem torque_interlock (tk : tick F) (smi : bool) (w : world) :
  let w0 := control_thread tk w in
  (forall o',
      somanet_outputs (write_output_image w0) = Some o' ->
      (current_cia402_state w <> CIA402_STATE_OPERATION_ENABLED ->
       target_torque o' = 0)
      /\ (current_cia402_state w = CIA402_STATE_OPERATION_ENABLED ->
          target_torque o'
          = f_to_int16 (f_mul (target_torque_f w0) f_1000)))
  /\ (somanet_outputs w0 = None -> write_output_image w0 = w0)
  /\ (exists smi' w' rest,
        ecat_cycle 1 smi w0 = Some (smi', w')
        /\ sent (trace (ec w'))
           = sent (trace (ec w0))
             ++ somanet_outputs (write_output_image w0) :: rest).
Proof.
  intros w0.
  assert (Hst : current_cia402_state w0 = current_cia402_state w).
  { subst w0. unfold control_thread, soem_interface_send_and_receive_pdo.
    destruct (requested_torque tk); [|reflexivity].
    destruct (truthy (master_initialized w)); reflexivity. }
  split; [|split].
  - intros o' Ho. unfold write_output_image in Ho.
    destruct (somanet_outputs w0) as [o |] eqn:Eo; [|congruence].
    rewrite Hst in Ho. cbn in Ho. injection Ho as <-.
    split; intros H.
    + destruct (cia402_state_eqb (current_cia402_state w)
                                 CIA402_STATE_OPERATION_ENABLED) eqn:E;
        [|reflexivity].
      apply cia402_state_eqb_eq in E. contradiction.
    + rewrite H. reflexivity.
  - intros Hn. unfold write_output_image. now rewrite Hn.
  - destruct (ecat_cycle_runs 1 smi w0)
      as (smi' & w' & k & img & rest & Hrun & _ & Htr & _).
    exists smi', w', (sent rest). split; [exact Hrun|].
    rewrite Htr, sent_app. reflexivity.
Qed.

(** C9.  [expectedWKC] is assigned once, to twice the outputs counter plus
    the inputs counter of group 0, and an iteration leaves it alone.  An
    iteration whose exchange returns less than [expectedWKC] ends with
    [communication_ok = 0]; one that returns at least [expectedWKC] ends
    with [communication_ok = 1].  Either way the iteration returns and the
    loop goes on to its next test of [ecat_thread_running]. *)
Theorem working_counter_classification (smi : bool) (w : world) :
  expectedWKC (assign_expectedWKC w)
  = group_outputsWKC (tp (ec w)) * 2 + group_inputsWKC (tp (ec w))
  /\ exists smi' w',
      ecat_cycle 1 smi w = Some (smi', w')
      /\ expectedWKC w' = expectedWKC w
      /\ (fst (cycle_exchange w) < expectedWKC w ->
          communication_ok w' = 0)
      /\ (expectedWKC w <= fst (cycle_exchange w) ->
          communication_ok w' = 1)
      /\ (forall (tk : tick F) (ticks : list (tick F)) (w0 : world),
            ecat_thread_running tk = true ->
            control_thread tk w0 = w ->
            ecat_loop (tk :: ticks) smi w0 = ecat_loop ticks smi' w').
Proof.
  split; [reflexivity|].
  destruct (ecat_cycle_runs 1 smi w)
    as (smi' & w' & k & img & rest & Hrun & Hex & _ & Hexp & _ & Hlow
        & Hhigh).
  rewrite Hex. cbn [fst].
  exists smi', w'. split; [exact Hrun|]. split; [exact Hexp|].
  split; [intros H; now apply Hlow|].
  split; [intros H; now apply Hhigh|].
  intros tk ticks w0 Hrunning Hw0.
  cbn [ecat_loop]. rewrite Hrunning.
  rewrite (bind_some _ _ w0 w tt) by (unfold update; now rewrite Hw0).
  now rewrite (bind_some _ _ w w' smi' Hrun).
Qed.

(** C10.  An iteration whose exchange returns less than [expectedWKC]
    leaves the statusword, the CiA 402 state, the position and the
    velocity as they were, so the getters return the previous values while
    [communication_ok] is 0.  An iteration with a sufficient working
    counter (and the bring-up already done) sets the four of them from the
    input image just received. *)
Theorem degraded_cycle_keeps_telemetry (smi : bool) (w : world) :
  exists smi' w',
    ecat_cycle 1 smi w = Some (smi', w')
    /\ (fst (cycle_exchange w) < expectedWKC w ->
        soem_interface_get_communication_status w' = 0
        /\ soem_interface_get_statusword w'
           = soem_interface_get_statusword w
        /\ soem_interface_get_cia402_state w'
           = soem_interface_get_cia402_state w
        /\ soem_interface_get_current_position w'
           = soem_interface_get_current_position w
        /\ soem_interface_get_current_velocity w'
           = soem_interface_get_current_velocity w)
    /\ (expectedWKC w <= fst (cycle_exchange w) ->
        smi = true ->
        somanet_inputs w <> None ->
        let img := snd (cycle_exchange w) in
        soem_interface_get_communication_status w' = 1
        /\ soem_interface_get_statusword w' = statusword img
        /\ soem_interface_get_cia402_state w'
           = get_cia402_state (statusword img)
        /\ soem_interface_get_current_position w'
           = f_of_int32 (position_actual_value img)
        /\ soem_interface_get_current_velocity w'
           = f_of_int32 (velocity_actual_value img)).
Proof.
  destruct (ecat_cycle_runs 1 smi w)
    as (smi' & w' & k & img & rest & Hrun & Hex & _ & _ & _ & Hlow
        & Hhigh).
  rewrite Hex. cbn [fst snd].
  exists smi', w'. split; [exact Hrun|].
  unfold soem_interface_get_communication_status,
    soem_interface_get_statusword, soem_interface_get_cia402_state,
    soem_interface_get_current_position,
    soem_interface_get_current_velocity.
  split.
  - intros H. destruct (Hlow H) as (A & _ & B & C & D & E & _).
    auto.
  - intros H Hs Hin. destruct (Hhigh H) as (A & B).
    destruct (somanet_inputs w) as [img0 |] eqn:E; [|contradiction].
    destruct (B Hs img0 eq_refl) as (B1 & B2 & B3 & B4).
    cbv zeta. auto.
Qed.
End CyclicFacts.

(* ================================================================== *)
(** * Facts about the scripted drive *)

Lemma quiet_set_state (slave_idx : Z) od st tr :
  exists tr',
    soem_interface_set_ethercat_state slave_idx EC_STATE_PRE_OP
                                      (quiet_bus od st tr)
    = Some (0, quiet_bus od EC_STATE_PRE_OP tr')
    /\ sdo_writes tr' = sdo_writes tr.
Proof.
  eexists. split; [reflexivity|].
  unfold emit, quiet_bus. cbn [trace]. project_trace. cbn [sdo_writes].
  now rewrite !app_nil_r.
Qed.

Lemma quiet_read (slave_idx index subindex size : Z) od st tr :
  soem_interface_read_sdo slave_idx index subindex size (quiet_bus od st tr)
  = Some (match od index subindex with
          | Some v => (0, v)
          | None => (-1, 0)
          end,
          quiet_bus od st
            (tr ++ [EvSDOread slave_idx index subindex size
                      (match od index subindex with
                       | Some _ => 1
                       | None => 0
                       end)
                      (match od index subindex with
                       | Some v => v
                       | None => 0
                       end)])).
Proof.
  unfold soem_interface_read_sdo, quiet_bus, quiet_drive, emit; cbn.
  unfold drive_SDOread, next_fault; cbn.
  destruct (od index subindex); reflexivity.
Qed.

Lemma quiet_write (slave_idx index subindex size data : Z) od st tr :
  soem_interface_write_sdo slave_idx index subindex size data
                           (quiet_bus od st tr)
  = Some (0, quiet_bus (od_store index subindex data od) st
               (tr ++ [EvSDOwrite slave_idx index subindex size data 1])).
Proof. reflexivity. Qed.

Lemma quiet_sleep (usec : Z) od st tr :
  usleep usec (quiet_bus od st tr)
  = Some (tt, quiet_bus od st (tr ++ [EvSleep usec])).
Proof. reflexivity. Qed.

Lemma quiet_entries_match (slave_idx pdo_map_idx : Z) od st
    (mapped_objects : list Z) :
  forall (i : Z) (tr : list event),
  exists tr',
    mapping_entries_match slave_idx pdo_map_idx i mapped_objects
                          (quiet_bus od st tr)
    = Some (od_entries_match od pdo_map_idx i mapped_objects,
            quiet_bus od st tr')
    /\ sdo_writes tr' = sdo_writes tr.
Proof.
  induction mapped_objects as [| obj rest IH]; intros i tr.
  - exists tr. split; reflexivity.
  - cbn [mapping_entries_match od_entries_match]. unfold bind.
    rewrite quiet_read.
    destruct (od pdo_map_idx (uint8 (i + 1))) as [v |]; cbn [Z.eqb].
    + destruct (uint32 v =? obj).
      * destruct (IH (i + 1)
                    (tr ++ [EvSDOread slave_idx pdo_map_idx (uint8 (i + 1))
                                      4 1 v]))
          as (tr' & -> & Hw).
        exists tr'. split; [reflexivity|].
        rewrite Hw, sdo_writes_app. cbn [sdo_writes]. apply app_nil_r.
      * eexists. split; [reflexivity|].
        rewrite sdo_writes_app. cbn [sdo_writes]. apply app_nil_r.
    + eexists. split; [reflexivity|].
      rewrite sdo_writes_app. cbn [sdo_writes]. apply app_nil_r.
Qed.

Lemma quiet_already_matches (slave_idx pdo_map_idx : Z) od st
    (mapped_objects : list Z) (tr : list event) :
  exists tr',
    mapping_already_matches slave_idx pdo_map_idx mapped_objects
                            (quiet_bus od st tr)
    = Some (od_matches od pdo_map_idx mapped_objects, quiet_bus od st tr')
    /\ sdo_writes tr' = sdo_writes tr.
Proof.
  unfold mapping_already_matches, od_matches, bind.
  rewrite quiet_read.
  destruct (od pdo_map_idx 0) as [v |]; cbn [Z.eqb].
  - destruct (uint8 v =? Z.of_nat (length mapped_objects)).
    + destruct (quiet_entries_match slave_idx pdo_map_idx od st
                  mapped_objects 0
                  (tr ++ [EvSDOread slave_idx pdo_map_idx 0 1 1 v]))
        as (tr' & -> & Hw).
      exists tr'. split; [reflexivity|].
      rewrite Hw, sdo_writes_app. cbn [sdo_writes]. apply app_nil_r.
    + eexists. split; [reflexivity|].
      rewrite sdo_writes_app. cbn [sdo_writes]. apply app_nil_r.
  - eexists. split; [reflexivity|].
    rewrite sdo_writes_app. cbn [sdo_writes]. apply app_nil_r.
Qed.

Lemma quiet_write_objects (slave_idx pdo_map_idx : Z) st
    (mapped_objects : list Z) :
  forall (i : Z) od (tr : list event),
  exists tr',
    write_mapping_objects slave_idx pdo_map_idx i mapped_objects
                          (quiet_bus od st tr)
    = Some (0, quiet_bus (store_entries pdo_map_idx i mapped_objects od)
                 st tr').
Proof.
  induction mapped_objects as [| obj rest IH]; intros i od tr.
  - exists tr. reflexivity.
  - cbn [write_mapping_objects store_entries]. unfold bind.
    rewrite quiet_write. unfold or_fail. cbn [Z.eqb].
    rewrite quiet_sleep. apply IH.
Qed.

Lemma quiet_rewrite (slave_idx pdo_assign_idx pdo_map_idx : Z) od st
    (mapped_objects : list Z) (tr : list event) :
  exists r tr',
    rewrite_pdo_mapping slave_idx pdo_assign_idx pdo_map_idx mapped_objects
                        (quiet_bus od st tr)
    = Some (r, quiet_bus (rewritten_od pdo_assign_idx pdo_map_idx
                                       mapped_objects od) st tr').
Proof.
  unfold rewrite_pdo_mapping, rewritten_od, zero_val, original_assign_val.
  unfold bind at 1. rewrite quiet_write. unfold or_fail at 1. cbn [Z.eqb].
  unfold bind at 1. rewrite quiet_sleep.
  unfold bind at 1. rewrite quiet_write. unfold or_fail at 1. cbn [Z.eqb].
  unfold bind at 1. rewrite quiet_sleep.
  unfold bind at 1.
  match goal with
  | |- context [write_mapping_objects ?s ?m ?i ?l (quiet_bus ?o ?t ?r)] =>
      destruct (quiet_write_objects s m t l i o r) as (tr1 & ->)
  end.
  unfold or_fail at 1. cbn [Z.eqb].
  unfold bind at 1. rewrite quiet_write. unfold or_fail at 1. cbn [Z.eqb].
  unfold bind at 1. rewrite quiet_sleep.
  unfold bind at 1. rewrite quiet_write. unfold or_fail at 1. cbn [Z.eqb].
  unfold bind at 1. rewrite quiet_sleep.
  unfold bind. rewrite quiet_read.
  match goal with
  | |- context [match ?x with Some _ => _ | None => _ end] =>
      destruct x as [v |]
  end; cbn [Z.eqb].
  - destruct (uint8 v =? Z.of_nat (length mapped_objects));
      eexists _, _; reflexivity.
  - eexists _, _; reflexivity.
Qed.

Lemma store_entries_below (pdo_map_idx : Z) (mapped_objects : list Z) :
  forall (i : nat) od (index s : Z),
    (i + length mapped_objects <= 255)%nat ->
    s <= Z.of_nat i ->
    store_entries pdo_map_idx (Z.of_nat i) mapped_objects od index s
    = od index s.
Proof.
  induction mapped_objects as [| obj rest IH]; intros i od index s Hlen Hs;
    [reflexivity|].
  cbn [store_entries length] in *.
  replace (Z.of_nat i + 1) with (Z.of_nat (S i)) by lia.
  rewrite IH by lia.
  unfold od_store. rewrite uint8_small by lia.
  destruct (Z.eqb_spec s (Z.of_nat (S i))) as [E | _]; [lia|].
  now rewrite andb_false_r.
Qed.

Lemma store_entries_lookup (pdo_map_idx : Z) (mapped_objects : list Z) :
  forall (i : nat) od (j : nat) (obj : Z),
    (i + length mapped_objects <= 255)%nat ->
    nth_error mapped_objects j = Some obj ->
    store_entries pdo_map_idx (Z.of_nat i) mapped_objects od pdo_map_idx
                  (Z.of_nat (i + 1 + j))
    = Some obj.
Proof.
  induction mapped_objects as [| o rest IH]; intros i od j obj Hlen Hj.
  - destruct j; discriminate.
  - cbn [store_entries length] in *.
    replace (Z.of_nat i + 1) with (Z.of_nat (S i)) by lia.
    destruct j as [| j]; cbn [nth_error] in Hj.
    + injection Hj as ->.
      rewrite store_entries_below by lia.
      unfold od_store. rewrite uint8_small by lia.
      replace (Z.of_nat (i + 1 + 0)) with (Z.of_nat (S i)) by lia.
      now rewrite !Z.eqb_refl.
    + replace (i + 1 + S j)%nat with (S i + 1 + j)%nat by lia.
      apply IH; [lia | assumption].
Qed.

Lemma od_entries_match_intro (pdo_map_idx : Z) (od : Z -> Z -> option Z)
    (mapped_objects : list Z) :
  forall i : nat,
    (i + length mapped_objects <= 255)%nat ->
    Forall (fun x => 0 <= x < 2 ^ 32) mapped_objects ->
    (forall j obj,
        nth_error mapped_objects j = Some obj ->
        od pdo_map_idx (Z.of_nat (i + 1 + j)) = Some obj) ->
    od_entries_match od pdo_map_idx (Z.of_nat i) mapped_objects = true.
Proof.
  induction mapped_objects as [| o rest IH]; intros i Hlen Hrange Hod;
    [reflexivity|].
  cbn [od_entries_match length] in *.
  rewrite uint8_small by lia.
  replace (Z.of_nat i + 1) with (Z.of_nat (i + 1 + 0)) by lia.
  rewrite (Hod 0%nat o eq_refl).
  inversion Hrange as [| ? ? Ho Hrest]; subst.
  unfold uint32. rewrite Z.mod_small by exact Ho. rewrite Z.eqb_refl.
  replace (Z.of_nat (i + 1 + 0)) with (Z.of_nat (S i)) by lia.
  apply IH; [lia | assumption |].
  intros j obj Hj.
  replace (S i + 1 + j)%nat with (i + 1 + S j)%nat by lia.
  now apply Hod.
Qed.

Lemma rewritten_od_matches (pdo_assign_idx pdo_map_idx : Z)
    (mapped_objects : list Z) (od : Z -> Z -> option Z) :
  (length mapped_objects <= 255)%nat ->
  Forall (fun x => 0 <= x < 2 ^ 32) mapped_objects ->
  pdo_assign_idx <> pdo_map_idx ->
  od_matches (rewritten_od pdo_assign_idx pdo_map_idx mapped_objects od)
             pdo_map_idx mapped_objects
  = true.
Proof.
  intros Hlen Hrange Hne.
  assert (Hidx : (pdo_map_idx =? pdo_assign_idx) = false)
    by (apply Z.eqb_neq; congruence).
  unfold od_matches.
  assert (Hcount : rewritten_od pdo_assign_idx pdo_map_idx mapped_objects od
                                pdo_map_idx 0
                   = Some (Z.of_nat (length mapped_objects))).
  { unfold rewritten_od, od_store at 1 2.
    rewrite Hidx, !Z.eqb_refl. reflexivity. }
  rewrite Hcount, uint8_small by lia. rewrite Z.eqb_refl.
  apply (od_entries_match_intro pdo_map_idx _ mapped_objects 0);
    [lia | assumption |].
  intros j obj Hj.
  unfold rewritten_od, od_store at 1 2.
  rewrite Hidx. cbn [andb].
  destruct (Z.eqb_spec (Z.of_nat (0 + 1 + j)) 0) as [E | _]; [lia|].
  rewrite andb_false_r.
  apply (store_entries_lookup pdo_map_idx mapped_objects 0); [lia | exact Hj].
Qed.

Lemma quiet_configure (slave_idx pdo_assign_idx pdo_map_idx : Z) od st
    (mapped_objects : list Z) (tr : list event) :
  if od_matches od pdo_map_idx mapped_objects
  then exists tr',
      soem_interface_configure_pdo_mapping_enhanced
        slave_idx pdo_assign_idx pdo_map_idx mapped_objects
        (quiet_bus od st tr)
      = Some (0, quiet_bus od EC_STATE_PRE_OP tr')
      /\ sdo_writes tr' = sdo_writes tr
  else exists r tr',
      soem_interface_configure_pdo_mapping_enhanced
        slave_idx pdo_assign_idx pdo_map_idx mapped_objects
        (quiet_bus od st tr)
      = Some (r, quiet_bus (rewritten_od pdo_assign_idx pdo_map_idx
                                         mapped_objects od)
                   EC_STATE_PRE_OP tr').
Proof.
  destruct (quiet_set_state slave_idx od st tr) as (tr0 & Hst & Hw0).
  destruct (quiet_already_matches slave_idx pdo_map_idx od EC_STATE_PRE_OP
              mapped_objects (tr0 ++ [EvSleep 100000]))
    as (tr1 & Hm & Hw1).
  assert (Hm' : (usleep 100000 ;;
                 mapping_already_matches slave_idx pdo_map_idx
                                         mapped_objects)
                  (quiet_bus od EC_STATE_PRE_OP tr0)
                = Some (od_matches od pdo_map_idx mapped_objects,
                        quiet_bus od EC_STATE_PRE_OP tr1)).
  { unfold bind. rewrite quiet_sleep. exact Hm. }
  rewrite (configure_unfolds _ _ _ _ _ _ _ _ Hst Hm').
  destruct (od_matches od pdo_map_idx mapped_objects).
  - exists tr1. split; [reflexivity|].
    rewrite Hw1, sdo_writes_app, Hw0. cbn [sdo_writes]. apply app_nil_r.
  - apply quiet_rewrite.
Qed.

(** C5.  A drive that already reports the target mapping is left alone:
    once the PRE-OP request has succeeded, the configuration returns 0
    without a single SDO write.  Hence, on a drive that stores what is
    written and answers every transaction, a second configuration with the
    same target list after a first one that returned 0 returns 0 and issues
    no SDO write. *)
Theorem pdo_configuration_idempotent :
  (forall (T : Type) (TR : Transport T)
          (slave_idx pdo_assign_idx pdo_map_idx : Z)
          (mapped_objects : list Z) (b b0 : bus T),
      (length mapped_objects <= 255)%nat ->
      soem_interface_set_ethercat_state slave_idx EC_STATE_PRE_OP b
      = Some (0, b0) ->
      mapping_reads_back slave_idx pdo_map_idx mapped_objects
                         (elapse 100000 (tp b0)) ->
      exists b',
        soem_interface_configure_pdo_mapping_enhanced
          slave_idx pdo_assign_idx pdo_map_idx mapped_objects b
        = Some (0, b')
        /\ sdo_writes (trace b') = sdo_writes (trace b))
  /\ (forall (slave_idx pdo_assign_idx pdo_map_idx : Z)
             (mapped_objects : list Z) (od : Z -> Z -> option Z) (st : Z)
             (b1 : bus drive),
        (length mapped_objects <= 255)%nat ->
        Forall (fun x => 0 <= x < 2 ^ 32) mapped_objects ->
        pdo_assign_idx <> pdo_map_idx ->
        soem_interface_configure_pdo_mapping_enhanced
          slave_idx pdo_assign_idx pdo_map_idx mapped_objects
          (fresh_bus (quiet_drive od st))
        = Some (0, b1) ->
        exists b2,
          soem_interface_configure_pdo_mapping_enhanced
            slave_idx pdo_assign_idx pdo_map_idx mapped_objects b1
          = Some (0, b2)
          /\ sdo_writes (trace b2) = sdo_writes (trace b1)).
Proof.
  split.
  - intros T TR slave_idx pdo_assign_idx pdo_map_idx mapped_objects b b0.
    apply configure_unchanged.
  - intros slave_idx pdo_assign_idx pdo_map_idx mapped_objects od st b1
           Hlen Hrange Hne Hfirst.
    change (fresh_bus (quiet_drive od st)) with (quiet_bus od st []) in Hfirst.
    pose proof (quiet_configure slave_idx pdo_assign_idx pdo_map_idx od st
                  mapped_objects []) as Hq.
    destruct (od_matches od pdo_map_idx mapped_objects) eqn:Hm.
    + destruct Hq as (tr1 & Hrun & _).
      rewrite Hrun in Hfirst. injection Hfirst as <-.
      pose proof (quiet_configure slave_idx pdo_assign_idx pdo_map_idx od
                    EC_STATE_PRE_OP mapped_objects tr1) as Hq2.
      rewrite Hm in Hq2. destruct Hq2 as (tr2 & Hrun2 & Hw2).
      exists (quiet_bus od EC_STATE_PRE_OP tr2). split; assumption.
    + destruct Hq as (r & tr1 & Hrun).
      rewrite Hrun in Hfirst. injection Hfirst as -> <-.
      pose proof (quiet_configure slave_idx pdo_assign_idx pdo_map_idx
                    (rewritten_od pdo_assign_idx pdo_map_idx
                                  mapped_objects od)
                    EC_STATE_PRE_OP mapped_objects tr1) as Hq2.
      rewrite (rewritten_od_matches _ _ _ _ Hlen Hrange Hne) in Hq2.
      destruct Hq2 as (tr2 & Hrun2 & Hw2).
      eexists. split; [exact Hrun2 | exact Hw2].
Qed.

(* ================================================================== *)
(** * Closed examples on the scripted drive *)


Example read_back_failure_run :
  option_map (fun x : Z * bus drive =>
                (fst x, map fst (sdo_writes (trace (snd x)))))
             (soem_interface_configure_pdo_mapping_enhanced
                1 0x1C12 0x1600 rxpdo_mapping (fresh_bus read_back_fails))
  = Some (-1, planned_writes 0x1C12 0x1600 rxpdo_mapping).
Proof. vm_compute. reflexivity. Qed.

(** The assignment object held 2 before the run; the run writes 1. *)
Example assignment_written_one :
  partial_od 0x1C12 0 = Some 2
  /\ option_map (fun x : Z * bus drive =>
                   (fst x, d_od (tp (snd x)) 0x1C12 0))
                (soem_interface_configure_pdo_mapping_enhanced
                   1 0x1C12 0x1600 rxpdo_mapping
                   (fresh_bus (quiet_drive partial_od EC_STATE_PRE_OP)))
     = Some (0, Some 1).
Proof. split; vm_compute; reflexivity. Qed.

(** C6, as stated, fails: on an operational slave the configuration
    requests PRE-OP and the slave ends in PRE-OP. *)
Lemma configuration_requests_pre_op_on_operational_slave :
  ~ configuration_requests_no_state.
Proof.
  intros H.
  assert (P : option_map
                (fun x : Z * bus drive => state_requests (trace (snd x)))
                (soem_interface_configure_pdo_mapping_enhanced
                   1 0x1C12 0x1600 rxpdo_mapping
                   (fresh_bus (quiet_drive mapped_od EC_STATE_OPERATIONAL)))
              = Some [(1, EC_STATE_PRE_OP)])
    by (vm_compute; reflexivity).
  destruct (soem_interface_configure_pdo_mapping_enhanced
              1 0x1C12 0x1600 rxpdo_mapping
              (fresh_bus (quiet_drive mapped_od EC_STATE_OPERATIONAL)))
    as [[r b'] |] eqn:E; [|discriminate].
  cbn [option_map snd] in P. injection P as P.
  destruct (H _ r b' E) as [Hreq _].
  rewrite P in Hreq. discriminate.
Qed.

Example operational_slave_taken_to_pre_op :
  option_map (fun x : Z * bus drive => (fst x, d_state (tp (snd x))))
             (soem_interface_configure_pdo_mapping_enhanced
                1 0x1C12 0x1600 rxpdo_mapping
                (fresh_bus (quiet_drive mapped_od EC_STATE_OPERATIONAL)))
  = Some (0, EC_STATE_PRE_OP).
Proof. vm_compute. reflexivity. Qed.

(** C7, as stated, fails: when the SAFE-OP check returns 0 the attempt
    ends after the SAFE-OP request, without a second OPERATIONAL request. *)
Lemma escalation_without_second_request :
  ~ escalation_always_rerequests.
Proof.
  intros H.
  destruct (H stuck_in_pre_op EC_STATE_PRE_OP _ eq_refl eq_refl)
    as (r & b' & Hrun & Hreq).
  assert (P : option_map
                (fun x : option Z * bus drive =>
                   state_requests (trace (snd x)))
                (set_state_attempt 1 EC_STATE_OPERATIONAL
                                   (fresh_bus stuck_in_pre_op))
              = Some [(1, EC_STATE_OPERATIONAL); (1, EC_STATE_SAFE_OP)])
    by (vm_compute; reflexivity).
  rewrite Hrun in P. cbn [option_map snd] in P.
  rewrite Hreq in P. discriminate.
Qed.

(** A slave that never confirms: five attempts, each with one escalation
    and no second OPERATIONAL request, then -1. *)
Example never_confirming_slave :
  option_map (fun x : Z * bus drive =>
                (fst x, state_requests (trace (snd x))))
             (soem_interface_set_ethercat_state
                1 EC_STATE_OPERATIONAL (fresh_bus never_confirms))
  = Some (-1, concat (repeat [(1, EC_STATE_OPERATIONAL);
                              (1, EC_STATE_SAFE_OP)] 5)).
Proof. vm_compute. reflexivity. Qed.

(** Four entries reported, three matching and one not: the whole sequence
    is written. *)
Example one_mismatch_rewrites_all :
  let od := od_store 0x1600 4 0x60640020 mapped_od in
  option_map (fun x : Z * bus drive =>
                (fst x, map fst (sdo_writes (trace (snd x)))))
             (soem_interface_configure_pdo_mapping_enhanced
                1 0x1C12 0x1600 rxpdo_mapping
                (fresh_bus (quiet_drive od EC_STATE_PRE_OP)))
  = Some (0, planned_writes 0x1C12 0x1600 rxpdo_mapping).
Proof. vm_compute. reflexivity. Qed.

(* ================================================================== *)
(** * The theorems at concrete inputs *)

Lemma torque_interlock_witness :
  let tk := {| ecat_thread_running := true;
               requested_torque := Some (3 # 2) |} in
  let w := fresh_world (quiet_drive mapped_od EC_STATE_OPERATIONAL)
                       (Some some_outputs) (Some ready_image)
                       CIA402_STATE_SWITCHED_ON 0 in
  current_cia402_state w <> CIA402_STATE_OPERATION_ENABLED
  /\ target_torque_f (control_thread tk w) = 3 # 2
  /\ exists o',
      somanet_outputs (write_output_image (control_thread tk w)) = Some o'
      /\ target_torque o' = 0.
Proof.
  intros tk w. split; [discriminate|]. split; [reflexivity|].
  eexists. split; [reflexivity|].
  apply (proj1 (proj1 (torque_interlock tk false w) _ eq_refl)).
  discriminate.
Defined.

Lemma transition_controlword_table_witness :
  let w := fresh_world (quiet_drive mapped_od EC_STATE_OPERATIONAL)
                       (Some some_outputs) (Some ready_image)
                       CIA402_STATE_NOT_READY 0 in
  somanet_inputs w = Some ready_image
  /\ get_cia402_state (statusword ready_image)
     <> CIA402_STATE_OPERATION_ENABLED
  /\ exists w',
      cia402_attempt w = Some (None, w')
      /\ current_controlword w' = 0x07.
Proof.
  intros w. split; [reflexivity|]. split; [discriminate|].
  destruct (transition_controlword_table (T := drive) (F := Q))
    as (_ & _ & _ & _ & _ & _ & _ & _ & H).
  destruct (H w ready_image eq_refl ltac:(discriminate))
    as (w' & Hrun & Hcw & _).
  exists w'. split; [exact Hrun | exact Hcw].
Defined.


Lemma pdo_configuration_idempotent_witness :
  (exists b',
      soem_interface_configure_pdo_mapping_enhanced
        1 0x1C12 0x1600 rxpdo_mapping
        (fresh_bus (quiet_drive mapped_od EC_STATE_PRE_OP))
      = Some (0, b')
      /\ sdo_writes (trace b') = [])
  /\ (exists b1 b2,
        soem_interface_configure_pdo_mapping_enhanced
          1 0x1C12 0x1600 rxpdo_mapping
          (fresh_bus (quiet_drive partial_od EC_STATE_PRE_OP))
        = Some (0, b1)
        /\ soem_interface_configure_pdo_mapping_enhanced
             1 0x1C12 0x1600 rxpdo_mapping b1
           = Some (0, b2)
        /\ sdo_writes (trace b2) = sdo_writes (trace b1)).
Proof.
  split.
  - edestruct (proj1 pdo_configuration_idempotent drive _
                 1 0x1C12 0x1600 rxpdo_mapping
                 (fresh_bus (quiet_drive mapped_od EC_STATE_PRE_OP)))
      as (b' & H1 & H2).
    + cbn; lia.
    + reflexivity.
    + cbn. repeat split; discriminate.
    + exists b'. split; [exact H1 | exact H2].
  - assert (P : option_map fst
                  (soem_interface_configure_pdo_mapping_enhanced
                     1 0x1C12 0x1600 rxpdo_mapping
                     (fresh_bus (quiet_drive partial_od EC_STATE_PRE_OP)))
                = Some 0) by (vm_compute; reflexivity).
    destruct (soem_interface_configure_pdo_mapping_enhanced
                1 0x1C12 0x1600 rxpdo_mapping
                (fresh_bus (quiet_drive partial_od EC_STATE_PRE_OP)))
      as [[r b1] |] eqn:E; [|discriminate].
    cbn [option_map fst] in P. injection P as ->.
    destruct (proj2 pdo_configuration_idempotent
                1 0x1C12 0x1600 rxpdo_mapping partial_od EC_STATE_PRE_OP b1)
      as (b2 & H1 & H2).
    + cbn; lia.
    + repeat constructor; lia.
    + discriminate.
    + exact E.
    + exists b1, b2. split; [reflexivity|]. split; [exact H1 | exact H2].
Defined.

Lemma pdo_configuration_requests_pre_op_witness :
  exists r b' b0,
    soem_interface_set_ethercat_state 1 EC_STATE_PRE_OP
                                      (fresh_bus stays_in_init)
    = Some (-1, b0)
    /\ soem_interface_configure_pdo_mapping_enhanced
         1 0x1C12 0x1600 rxpdo_mapping (fresh_bus stays_in_init)
       = Some (r, b')
    /\ r = -1
    /\ sdo_transactions (trace b') = 0%nat.
Proof.
  destruct (pdo_configuration_requests_pre_op (T := drive)
              1 0x1C12 0x1600 rxpdo_mapping (fresh_bus stays_in_init))
    as (r & b' & n & Hrun & _ & _ & Hfail).
  assert (P : option_map fst
                (soem_interface_set_ethercat_state
                   1 EC_STATE_PRE_OP (fresh_bus stays_in_init))
              = Some (-1)) by (vm_compute; reflexivity).
  destruct (soem_interface_set_ethercat_state
              1 EC_STATE_PRE_OP (fresh_bus stays_in_init))
    as [[r0 b0] |] eqn:E; [|discriminate].
  cbn [option_map fst] in P. injection P as ->.
  exists r, b', b0. split; [reflexivity|]. split; [exact Hrun|].
  destruct (Hfail b0 eq_refl) as (Hr & _ & Htx).
  split; [exact Hr | exact Htx].
Defined.

Lemma set_ethercat_state_retries_and_escalation_witness :
  (exists r b',
      set_state_attempt 1 EC_STATE_OPERATIONAL (fresh_bus stuck_in_pre_op)
      = Some (r, b')
      /\ r = None
      /\ state_requests (trace b')
         = [(1, EC_STATE_OPERATIONAL); (1, EC_STATE_SAFE_OP)])
  /\ (exists b',
        soem_interface_set_ethercat_state 1 EC_STATE_SAFE_OP
                                          (fresh_bus never_confirms)
        = Some (-1, b')
        /\ retries 1 EC_STATE_SAFE_OP 0 (fresh_bus never_confirms)
                   5 (-1) b').
Proof.
  split.
  - pose proof (proj2 (set_ethercat_state_retries_and_escalation
                         (T := drive))) as H.
    edestruct H with (slave_idx := 1) (b := fresh_bus stuck_in_pre_op)
      as (safe & b2 & r & b' & Hsafe & Hrun & Hreq & Hno).
    + vm_compute. reflexivity.
    + vm_compute. reflexivity.
    + vm_compute in Hsafe. injection Hsafe as <- <-.
      exists r, b'. split; [exact Hrun|].
      split; [exact (proj1 (Hno eq_refl)) | exact Hreq].
  - destruct (proj1 (set_ethercat_state_retries_and_escalation
                       (T := drive))
                1 EC_STATE_SAFE_OP (fresh_bus never_confirms))
      as (r & b' & blocks & Hrun & _ & _ & _ & _ & Hfail & Hchain).
    assert (P : option_map fst
                  (soem_interface_set_ethercat_state
                     1 EC_STATE_SAFE_OP (fresh_bus never_confirms))
                = Some (-1)) by (vm_compute; reflexivity).
    rewrite Hrun in P. cbn [option_map fst] in P. injection P as ->.
    rewrite (Hfail eq_refl) in Hchain.
    exists b'. split; [exact Hrun | exact Hchain].
Defined.

Lemma perform_cia402_transition_terminates_witness :
  let w := fresh_world healthy_drive (Some some_outputs) (Some ready_image)
                       CIA402_STATE_NOT_READY 0 in
  (50 <= 60)%nat
  /\ cia402_loop 60 0 w = perform_cia402_transition_to_operational 1 w
  /\ option_map fst (perform_cia402_transition_to_operational 1 w) = Some 0.
Proof.
  intros w. split; [lia|].
  destruct (perform_cia402_transition_terminates 1 w)
    as (r & w' & delta & _ & _ & _ & _ & _ & Hfuel).
  split; [apply Hfuel; lia|]. vm_compute. reflexivity.
Defined.

Lemma working_counter_classification_witness :
  let w := fresh_world degraded_drive (Some some_outputs) (Some ready_image)
                       CIA402_STATE_SWITCHED_ON 0 in
  fst (cycle_exchange w) < expectedWKC w
  /\ exists smi' w',
      ecat_cycle 1 true w = Some (smi', w')
      /\ communication_ok w' = 0.
Proof.
  intros w. split; [reflexivity|].
  destruct (working_counter_classification true w)
    as (_ & smi' & w' & Hrun & _ & Hlow & _).
  exists smi', w'. split; [exact Hrun|]. apply Hlow. reflexivity.
Defined.

Lemma degraded_cycle_keeps_telemetry_witness :
  let w := fresh_world degraded_drive (Some some_outputs) (Some ready_image)
                       CIA402_STATE_SWITCHED_ON 0 in
  fst (cycle_exchange w) < expectedWKC w
  /\ statusword (snd (cycle_exchange w)) = 0x0237
  /\ exists smi' w',
      ecat_cycle 1 true w = Some (smi', w')
      /\ soem_interface_get_statusword w' = 0
      /\ soem_interface_get_cia402_state w' = CIA402_STATE_SWITCHED_ON.
Proof.
  intros w. split; [reflexivity|]. split; [reflexivity|].
  destruct (degraded_cycle_keeps_telemetry true w)
    as (smi' & w' & Hrun & Hlow & _).
  exists smi', w'. split; [exact Hrun|].
  destruct (Hlow eq_refl) as (_ & Hsw & Hst & _).
  split; [exact Hsw | exact Hst].
Defined.

Example healthy_cycle_updates_telemetry :
  let w := fresh_world healthy_drive (Some some_outputs) (Some ready_image)
                       CIA402_STATE_SWITCHED_ON 0 in
  option_map (fun x : bool * world drive Q =>
                (communication_ok (snd x), current_statusword (snd x),
                 current_cia402_state (snd x), current_position_f (snd x)))
             (ecat_cycle 1 true w)
  = Some (1, 0x0237, CIA402_STATE_OPERATION_ENABLED, 100 # 1).
Proof. vm_compute. reflexivity. Qed.

(* ================================================================== *)
(** * More about the slave-state controller *)

Lemma time_slept_app (a b : list event) :
  time_slept (a ++ b) = time_slept a + time_slept b.
Proof.
  unfold time_slept. rewrite sleeps_app.
  induction (sleeps a) as [| x l IH]; cbn [app fold_right]; lia.
Qed.

Lemma attempt_trace_facts (slave desired : Z) (r : option Z) (st : Z)
    (delta : list event) :
  attempt_trace slave desired r st delta ->
  Forall (state_event slave) delta
  /\ 20000 <= time_slept delta <= 420000
  /\ (r = Some 0 \/ r = None)
  /\ (desired <> EC_STATE_OPERATIONAL ->
      time_slept delta = 20000
      /\ state_requests delta = [(slave, desired)]
      /\ (r = Some 0 -> Z.land st 0x0F = desired)).
Proof.
  intros [(k & -> & Hr) | [(Hop & k & k2 & -> & Hk2 & ->)
                          | (Hop & k & k2 & k3 & -> & Hk2 & Hr)]].
  - split; [repeat constructor|]. split; [cbn; lia|].
    split; [destruct Hr as [(-> & _) | ->]; auto|].
    intros _. split; [reflexivity|]. split; [reflexivity|].
    intros ->. destruct Hr as [(_ & _ & H) | H]; [exact H | discriminate].
  - split; [repeat constructor|]. split; [cbn; lia|].
    split; [auto | contradiction].
  - split; [repeat constructor|]. split; [cbn; lia|].
    split; [destruct Hr as [(-> & _) | (-> & _)]; auto | contradiction].
Qed.

Section ControllerFacts.
Context {T : Type} {TR : Transport T}.

Ltac run_state_call :=
  cbn [tp trace];
  match goal with
  | |- context [ec_statecheck ?s ?r ?t ?x] =>
      destruct (ec_statecheck s r t x) as [? ?] eqn:?
  | |- context [ec_writestate ?s ?x] =>
      destruct (ec_writestate s x) as [? ?] eqn:?
  end.

Lemma set_state_attempt_trace (slave_idx desired_state : Z) (b : bus T) :
  exists r b' delta,
    set_state_attempt slave_idx desired_state b = Some (r, b')
    /\ trace b' = trace b ++ delta
    /\ attempt_trace slave_idx desired_state r
                     (slave_state slave_idx (tp b')) delta.
Proof.
  unfold set_state_attempt, bind, clear_ALstatuscode, request_state,
    usleep, statecheck, read_slave_state, ret, emit.
  repeat run_state_call. cbn [tp trace].
  match goal with
  | |- context [(0 <? ?k) && (Z.land ?st 15 =? desired_state)] =>
      destruct (Z.ltb_spec 0 k) as [Hk | Hk];
      destruct (Z.eqb_spec (Z.land st 15) desired_state) as [Hst | Hst];
      cbn [andb]
  end.
  1:{ eexists _, _, _. split; [reflexivity|]. cbn [trace tp].
      split; [rewrite <- !app_assoc; reflexivity|].
      left. eexists. split; [reflexivity|]. left. auto. }
  all: match goal with
       | |- context [if ?c then _ else _] => destruct c eqn:Hesc
       end.
  all: try (eexists _, _, _; split; [reflexivity|]; cbn [trace tp];
            split; [rewrite <- !app_assoc; reflexivity|];
            left; eexists; split; [reflexivity|]; right; reflexivity).
  all: apply andb_true_iff in Hesc; destruct Hesc as [Hop _];
    apply Z.eqb_eq in Hop.
  all: repeat run_state_call; cbn [tp trace].
  all: match goal with
       | |- context [0 <? ?k2] => destruct (Z.ltb_spec 0 k2) as [Hk2 | Hk2]
       end.
  all: try (eexists _, _, _; split; [reflexivity|]; cbn [trace tp];
            split; [rewrite <- !app_assoc; reflexivity|];
            right; left; split; [exact Hop|];
            eexists _, _; rewrite Hop; split; [reflexivity|]; auto).
  all: repeat run_state_call; cbn [tp trace].
  all: match goal with
       | |- context [0 <? ?k3] => destruct (Z.ltb_spec 0 k3) as [Hk3 | Hk3]
       end.
  all: eexists _, _, _; split; [reflexivity|]; cbn [trace tp];
    split; [rewrite <- !app_assoc; reflexivity|];
    right; right; split; [exact Hop|];
    eexists _, _, _; rewrite Hop; split; [reflexivity|]; auto.
Qed.

Lemma set_state_loop_trace (slave_idx desired_state : Z) (fuel : nat) :
  forall (retry_count : Z) (b : bus T),
    0 <= retry_count ->
    max_retries - retry_count <= Z.of_nat fuel ->
    exists r b' delta n,
      set_state_loop fuel slave_idx desired_state retry_count b
      = Some (r, b')
      /\ trace b' = trace b ++ delta
      /\ Forall (state_event slave_idx) delta
      /\ 0 <= n <= Z.max 0 (max_retries - retry_count)
      /\ (retry_count < max_retries -> 1 <= n)
      /\ (r = 0 \/ r = -1)
      /\ (r = -1 -> n = Z.max 0 (max_retries - retry_count))
      /\ 20000 * n + 50000 * Z.max 0 (n - 1) <= time_slept delta
         <= 420000 * n + 50000 * Z.max 0 (n - 1)
      /\ (desired_state <> EC_STATE_OPERATIONAL ->
          time_slept delta = 20000 * n + 50000 * Z.max 0 (n - 1)
          /\ state_requests delta
             = repeat (slave_idx, desired_state) (Z.to_nat n)
          /\ (r = 0 ->
              Z.land (slave_state slave_idx (tp b')) 0x0F = desired_state)).
Proof.
  unfold max_retries.
  assert (Hstop : forall rc (b : bus T),
             5 <= rc ->
             exists r b' delta n,
               ret (-1) b = Some (r, b')
               /\ trace b' = trace b ++ delta
               /\ Forall (state_event slave_idx) delta
               /\ 0 <= n <= Z.max 0 (5 - rc)
               /\ (rc < 5 -> 1 <= n)
               /\ (r = 0 \/ r = -1)
               /\ (r = -1 -> n = Z.max 0 (5 - rc))
               /\ 20000 * n + 50000 * Z.max 0 (n - 1) <= time_slept delta
                  <= 420000 * n + 50000 * Z.max 0 (n - 1)
               /\ (desired_state <> EC_STATE_OPERATIONAL ->
                   time_slept delta = 20000 * n + 50000 * Z.max 0 (n - 1)
                   /\ state_requests delta
                      = repeat (slave_idx, desired_state) (Z.to_nat n)
                   /\ (r = 0 ->
                       Z.land (slave_state slave_idx (tp b')) 0x0F
                       = desired_state))).
  { intros rc b Hrc. exists (-1), b, [], 0.
    split; [reflexivity|]. split; [now rewrite app_nil_r|].
    split; [constructor|]. split; [lia|]. split; [lia|].
    split; [auto|]. split; [lia|]. split; [cbn; lia|].
    intros _. split; [reflexivity|]. split; [reflexivity|]. discriminate. }
  induction fuel as [| fuel IH]; intros rc b Hrc Hfuel.
  - cbn [set_state_loop]. unfold max_retries.
    destruct (Z.ltb_spec rc 5) as [Hlt | Hge]; [lia|]. now apply Hstop.
  - cbn [set_state_loop]. unfold max_retries.
    destruct (Z.ltb_spec rc 5) as [Hlt | Hge]; [|now apply Hstop].
    destruct (set_state_attempt_trace slave_idx desired_state b)
      as (ra & b1 & d1 & Hrun & Htr1 & Hat).
    destruct (attempt_trace_facts _ _ _ _ _ Hat)
      as (Hev1 & Htime1 & Hra & Hplain1).
    unfold bind at 1. rewrite Hrun.
    destruct Hra as [-> | ->].
    + exists 0, b1, d1, 1.
      split; [reflexivity|]. split; [exact Htr1|]. split; [exact Hev1|].
      split; [lia|]. split; [lia|]. split; [auto|]. split; [lia|].
      split; [lia|].
      intros Hne. destruct (Hplain1 Hne) as (Ht & Hreq & Hpost).
      split; [lia|]. split; [exact Hreq|]. intros _. now apply Hpost.
    + set (u := if rc + 1 <? 5 then usleep 50000 else ret tt).
      assert (Hu : exists b2 d2,
                 u b1 = Some (tt, b2)
                 /\ trace b2 = trace b1 ++ d2
                 /\ Forall (state_event slave_idx) d2
                 /\ state_requests d2 = []
                 /\ time_slept d2 = (if rc + 1 <? 5 then 50000 else 0)).
      { subst u. destruct (rc + 1 <? 5).
        - eexists _, [EvSleep 50000]. split; [reflexivity|].
          split; [reflexivity|]. split; [repeat constructor|]. auto.
        - exists b1, []. split; [reflexivity|].
          split; [now rewrite app_nil_r|]. split; [constructor|]. auto. }
      destruct Hu as (b2 & d2 & Hu & Htr2 & Hev2 & Hreq2 & Htime2).
      unfold bind. rewrite Hu.
      destruct (IH (rc + 1) b2 ltac:(lia) ltac:(lia))
        as (r & b' & d3 & n & Hloop & Htr3 & Hev3 & Hn & Hn1 & Hr & Hfail
            & Htime3 & Hplain3).
      rewrite Hloop.
      exists r, b', (d1 ++ d2 ++ d3), (n + 1).
      split; [reflexivity|].
      split; [rewrite Htr3, Htr2, Htr1, <- !app_assoc; reflexivity|].
      split; [repeat (apply Forall_app; split); assumption|].
      split; [lia|]. split; [lia|]. split; [exact Hr|].
      split; [intros Hm; specialize (Hfail Hm); lia|].
      rewrite !time_slept_app, Htime2.
      destruct (Z.ltb_spec (rc + 1) 5) as [Hlt' | Hge'].
      * specialize (Hn1 Hlt').
        split; [lia|].
        intros Hne. destruct (Hplain1 Hne) as (Ht1 & Hreq1 & _).
        destruct (Hplain3 Hne) as (Ht3 & Hreq3 & Hpost).
        split; [lia|]. split; [|exact Hpost].
        rewrite !state_requests_app, Hreq1, Hreq2, Hreq3.
        replace (Z.to_nat (n + 1)) with (S (Z.to_nat n)) by lia.
        reflexivity.
      * assert (n = 0) by lia. subst n.
        split; [lia|].
        intros Hne. destruct (Hplain1 Hne) as (Ht1 & Hreq1 & _).
        destruct (Hplain3 Hne) as (Ht3 & Hreq3 & Hpost).
        split; [lia|]. split; [|exact Hpost].
        rewrite !state_requests_app, Hreq1, Hreq2, Hreq3. reflexivity.
Qed.

(** X1.  The state controller only talks about the state of its slave: every
    event is a state request or state check for [slave_idx], or a sleep.
    It sleeps at least 20 ms and at most 420 ms per attempt and 50 ms
    between attempts, 2.3 s in all at most. *)
Theorem set_ethercat_state_footprint (slave_idx desired_state : Z)
    (b : bus T) :
  exists r b' delta,
    soem_interface_set_ethercat_state slave_idx desired_state b
    = Some (r, b')
    /\ trace b' = trace b ++ delta
    /\ Forall (state_event slave_idx) delta
    /\ 20000 <= time_slept delta <= 2300000.
Proof.
  destruct (set_state_loop_trace slave_idx desired_state
              (Z.to_nat max_retries) 0 b)
    as (r & b' & delta & n & Hrun & Htr & Hev & Hn & Hn1 & _ & _ & Htime & _);
    [lia | unfold max_retries; lia |].
  unfold max_retries in *.
  exists r, b', delta. split; [exact Hrun|]. split; [exact Htr|].
  split; [exact Hev|]. specialize (Hn1 ltac:(lia)). lia.
Qed.

(** X2.  For a target other than OPERATIONAL the controller never escalates:
    after [n] attempts, between one and five, it has requested the target
    state [n] times and nothing else, and has slept 20 ms per attempt and
    50 ms between attempts.  It returns -1 only after five attempts, and
    when it returns 0 the state left in [ec_slave[].state] is the target
    (low four bits). *)
Theorem set_ethercat_state_without_escalation (slave_idx desired_state : Z)
    (b : bus T) :
  desired_state <> EC_STATE_OPERATIONAL ->
  exists r b' delta n,
    soem_interface_set_ethercat_state slave_idx desired_state b
    = Some (r, b')
    /\ trace b' = trace b ++ delta
    /\ 1 <= n <= 5
    /\ state_requests delta = repeat (slave_idx, desired_state) (Z.to_nat n)
    /\ time_slept delta = 70000 * n - 50000
    /\ (r = 0 \/ r = -1)
    /\ (r = -1 -> n = 5)
    /\ (r = 0 ->
        Z.land (slave_state slave_idx (tp b')) 0x0F = desired_state).
Proof.
  intros Hne.
  destruct (set_state_loop_trace slave_idx desired_state
              (Z.to_nat max_retries) 0 b)
    as (r & b' & delta & n & Hrun & Htr & _ & Hn & Hn1 & Hr & Hfail & _
        & Hplain);
    [lia | unfold max_retries; lia |].
  unfold max_retries in *.
  destruct (Hplain Hne) as (Htime & Hreq & Hpost).
  specialize (Hn1 ltac:(lia)).
  exists r, b', delta, n. split; [exact Hrun|]. split; [exact Htr|].
  split; [lia|]. split; [exact Hreq|]. split; [lia|].
  split; [exact Hr|]. split; [intros Hm; specialize (Hfail Hm); lia|].
  exact Hpost.
Qed.
End ControllerFacts.

(** X3.  Through the escalation the controller returns 0 on the strength of the
    two return values of [ec_statecheck] alone: whatever state the last
    check leaves in [ec_slave[].state], PRE-OP included, the result is 0. *)
Theorem escalation_success_ignores_state (k1 st1 k2 st2 k3 st3 : Z)
    (od : Z -> Z -> option Z) :
  Z.land st1 0x0F = EC_STATE_PRE_OP ->
  0 < k2 ->
  0 < k3 ->
  exists b',
    soem_interface_set_ethercat_state
      1 EC_STATE_OPERATIONAL
      (fresh_bus {| d_od := od; d_sdo_faults := []; d_state := st1;
                    d_checks := [(k1, st1); (k2, st2); (k3, st3)];
                    d_exchanges := [] |})
    = Some (0, b')
    /\ slave_state 1 (tp b') = st3
    /\ state_requests (trace b')
       = [(1, EC_STATE_OPERATIONAL); (1, EC_STATE_SAFE_OP);
          (1, EC_STATE_OPERATIONAL)].
Proof.
  intros H1 H2 H3.
  apply Z.ltb_lt in H2, H3.
  unfold soem_interface_set_ethercat_state.
  change (Z.to_nat max_retries) with 5%nat.
  cbn [set_state_loop]. change (0 <? max_retries) with true. cbv iota.
  unfold bind at 1.
  assert (E : set_state_attempt 1 EC_STATE_OPERATIONAL
                (fresh_bus {| d_od := od; d_sdo_faults := []; d_state := st1;
                              d_checks := [(k1, st1); (k2, st2); (k3, st3)];
                              d_exchanges := [] |})
              = Some (Some 0,
                      {| tp := {| d_od := od; d_sdo_faults := [];
                                  d_state := st3; d_checks := [];
                                  d_exchanges := [] |};
                         trace := first_try 1 EC_STATE_OPERATIONAL k1
                                  ++ escalation_try 1 EC_STATE_SAFE_OP k2
                                  ++ escalation_try 1 EC_STATE_OPERATIONAL
                                                    k3 |})).
  { unfold set_state_attempt, bind, clear_ALstatuscode, request_state,
      usleep, statecheck, read_slave_state, ret, emit, fresh_bus.
    cbn. rewrite H1.
    change (EC_STATE_PRE_OP =? EC_STATE_OPERATIONAL) with false.
    rewrite andb_false_r. cbn. rewrite H2. cbn. rewrite H3. reflexivity. }
  rewrite E. eexists. split; [reflexivity|]. split; reflexivity.
Qed.

Lemma set_ethercat_state_without_escalation_witness :
  EC_STATE_SAFE_OP <> EC_STATE_OPERATIONAL
  /\ exists r b',
      soem_interface_set_ethercat_state 1 EC_STATE_SAFE_OP
                                        (fresh_bus never_confirms)
      = Some (r, b')
      /\ time_slept (trace b') = 300000.
Proof.
  split; [discriminate|].
  destruct (set_ethercat_state_without_escalation
              (T := drive) 1 EC_STATE_SAFE_OP (fresh_bus never_confirms))
    as (r & b' & delta & n & Hrun & Htr & Hn & Hreq & Htime & Hr & Hfail
        & Hpost); [discriminate|].
  exists r, b'. split; [exact Hrun|].
  assert (P : option_map fst
                (soem_interface_set_ethercat_state
                   1 EC_STATE_SAFE_OP (fresh_bus never_confirms))
              = Some (-1)) by (vm_compute; reflexivity).
  rewrite Hrun in P. cbn [option_map fst] in P. injection P as ->.
  rewrite Htr. cbn [fresh_bus trace app]. rewrite Htime.
  rewrite (Hfail eq_refl). reflexivity.
Defined.

Lemma escalation_success_ignores_state_witness :
  Z.land EC_STATE_PRE_OP 0x0F = EC_STATE_PRE_OP
  /\ 0 < 2
  /\ exists b',
      soem_interface_set_ethercat_state
        1 EC_STATE_OPERATIONAL
        (fresh_bus {| d_od := partial_od; d_sdo_faults := [];
                      d_state := EC_STATE_PRE_OP;
                      d_checks := [(2, EC_STATE_PRE_OP);
                                   (2, EC_STATE_PRE_OP);
                                   (2, EC_STATE_PRE_OP)];
                      d_exchanges := [] |})
      = Some (0, b')
      /\ slave_state 1 (tp b') = EC_STATE_PRE_OP.
Proof.
  split; [reflexivity|]. split; [lia|].
  destruct (escalation_success_ignores_state
              2 EC_STATE_PRE_OP 2 EC_STATE_PRE_OP 2 EC_STATE_PRE_OP
              partial_od eq_refl ltac:(lia) ltac:(lia))
    as (b' & Hrun & Hst & _).
  exists b'. split; [exact Hrun | exact Hst].
Defined.

(* ================================================================== *)
(** * Footprints: what a master-side function never does *)

Lemma sdo_addresses_app (a b : list event) :
  sdo_addresses (a ++ b) = sdo_addresses a ++ sdo_addresses b.
Proof.
  induction a as [| e a IH]; [reflexivity|].
  destruct e; simpl; rewrite IH; reflexivity.
Qed.

Lemma sdo_reads_project (slave : Z) (indices : list Z)
    (delta : list event) :
  Forall (sdo_read_of slave indices) delta ->
  sdo_writes delta = []
  /\ state_requests delta = []
  /\ sleeps delta = []
  /\ sent delta = []
  /\ received delta = []
  /\ sdo_transactions delta = length delta
  /\ Forall (fun a => fst a = slave /\ In (snd a) indices)
            (sdo_addresses delta).
Proof.
  induction 1 as [| e delta He _ IH]; [repeat split; constructor|].
  destruct IH as (I1 & I2 & I3 & I4 & I5 & I6 & I7).
  destruct e; cbn in *; try contradiction.
  repeat split; try assumption; [congruence|].
  constructor; assumption.
Qed.

Section Footprints.
Context {T : Type} {TR : Transport T}.

Lemma bind_returns {S A B : Type} (m : M S A) (k : A -> M S B)
    (Q : B -> Prop) :
  (forall a s r s', k a s = Some (r, s') -> Q r) ->
  forall s r s', bind m k s = Some (r, s') -> Q r.
Proof.
  intros Hk s r s' H. unfold bind in H.
  destruct (m s) as [[a s1] |]; [|discriminate].
  eapply Hk. exact H.
Qed.

Lemma within_ret {A : Type} (P : event -> Prop) (a : A) :
  stays_within P (ret a : M (bus T) A).
Proof.
  intros b. exists a, b, []. split; [reflexivity|].
  split; [now rewrite app_nil_r | constructor].
Qed.

Lemma within_bind {A B : Type} (P : event -> Prop) (m : M (bus T) A)
    (k : A -> M (bus T) B) :
  stays_within P m ->
  (forall a, stays_within P (k a)) ->
  stays_within P (bind m k).
Proof.
  intros Hm Hk b.
  destruct (Hm b) as (a & b1 & d1 & Hrun & Htr & Hall).
  destruct (Hk a b1) as (r & b' & d2 & Hrun' & Htr' & Hall').
  exists r, b', (d1 ++ d2). unfold bind. rewrite Hrun.
  split; [exact Hrun'|].
  split; [rewrite Htr', Htr, <- app_assoc; reflexivity|].
  apply Forall_app; split; assumption.
Qed.

Lemma within_weaken {A : Type} (P Q : event -> Prop) (m : M (bus T) A) :
  (forall e, P e -> Q e) ->
  stays_within P m -> stays_within Q m.
Proof.
  intros HPQ Hm b.
  destruct (Hm b) as (a & b' & d & Hrun & Htr & Hall).
  exists a, b', d. split; [exact Hrun|]. split; [exact Htr|].
  eapply Forall_impl; [exact HPQ | exact Hall].
Qed.

Lemma within_or_fail (P : event -> Prop) (rc : Z) (k : M (bus T) Z) :
  stays_within P k -> stays_within P (or_fail rc k).
Proof.
  intros Hk. unfold or_fail. destruct (rc =? 0); [exact Hk|].
  apply within_ret.
Qed.

Lemma within_usleep (P : event -> Prop) (usec : Z) :
  P (EvSleep usec) -> stays_within P (usleep usec).
Proof.
  intros HP b. eexists tt, _, [EvSleep usec]. split; [reflexivity|].
  split; [reflexivity|]. repeat constructor. exact HP.
Qed.

Lemma within_read_sdo (P : event -> Prop) (slave_idx index subindex size : Z) :
  (forall k v, P (EvSDOread slave_idx index subindex size k v)) ->
  stays_within P (soem_interface_read_sdo slave_idx index subindex size).
Proof.
  intros HP b. unfold soem_interface_read_sdo.
  destruct (ec_SDOread slave_idx index subindex false size EC_TIMEOUTRXM
                       (tp b)) as [[k v] t].
  destruct (k =? 0);
    (eexists _, _, [_]; split; [reflexivity|]; split; [reflexivity|];
     repeat constructor; apply HP).
Qed.

Lemma within_write_sdo (P : event -> Prop)
    (slave_idx index subindex size data : Z) :
  (forall k, P (EvSDOwrite slave_idx index subindex size data k)) ->
  stays_within P (soem_interface_write_sdo slave_idx index subindex size
                                           data).
Proof.
  intros HP b. unfold soem_interface_write_sdo.
  destruct (ec_SDOwrite slave_idx index subindex false size data
                        EC_TIMEOUTRXM (tp b)) as [k t].
  destruct (k =? 0);
    (eexists _, _, [_]; split; [reflexivity|]; split; [reflexivity|];
     repeat constructor; apply HP).
Qed.

Lemma within_set_ethercat_state (slave_idx desired_state : Z) :
  stays_within (state_event slave_idx)
               (soem_interface_set_ethercat_state slave_idx desired_state).
Proof.
  intros b.
  destruct (set_state_loop_trace slave_idx desired_state
              (Z.to_nat max_retries) 0 b)
    as (r & b' & delta & n & Hrun & Htr & Hev & _);
    [lia | unfold max_retries; lia |].
  exists r, b', delta. auto.
Qed.

Lemma within_read_first_objects (slave_idx index num : Z) (fuel : nat) :
  forall (i : Z) (b : bus T),
    1 <= i ->
    4 - i <= Z.of_nat fuel ->
    exists b' delta,
      read_first_objects fuel slave_idx index i num b = Some (tt, b')
      /\ trace b' = trace b ++ delta
      /\ Forall (sdo_read_of slave_idx [index]) delta
      /\ Z.of_nat (length delta) <= Z.max 0 (4 - i).
Proof.
  induction fuel as [| fuel IH]; intros i b Hi Hfuel;
    cbn [read_first_objects].
  - destruct (Z.leb_spec i 3) as [H3 | H3]; [lia|].
    rewrite andb_false_r. exists b, []. split; [reflexivity|].
    split; [now rewrite app_nil_r|]. split; [constructor | cbn; lia].
  - destruct ((i <=? num) && (i <=? 3)) eqn:Hc.
    2:{ exists b, []. split; [reflexivity|].
        split; [now rewrite app_nil_r|]. split; [constructor | cbn; lia]. }
    apply andb_true_iff in Hc. destruct Hc as [_ H3]. apply Z.leb_le in H3.
    destruct (within_read_sdo (sdo_read_of slave_idx [index])
                slave_idx index (uint8 i) 4
                ltac:(intros; cbn; auto) b)
      as (a & b1 & d1 & Hrun & Htr1 & Hall1).
    unfold bind. rewrite Hrun.
    destruct (IH (i + 1) b1 ltac:(lia) ltac:(lia))
      as (b' & d2 & Hrun' & Htr2 & Hall2 & Hlen2).
    exists b', (d1 ++ d2). split; [exact Hrun'|].
    split; [rewrite Htr2, Htr1, <- app_assoc; reflexivity|].
    split; [apply Forall_app; split; assumption|].
    assert (Hl1 : length d1 = 1%nat).
    { unfold soem_interface_read_sdo in Hrun.
      destruct (ec_SDOread slave_idx index (uint8 i) false 4 EC_TIMEOUTRXM
                           (tp b)) as [[k v] t].
      destruct (k =? 0); injection Hrun as _ <-;
        unfold emit in Htr1; cbn [trace] in Htr1;
        apply app_inv_head in Htr1; now subst d1. }
    rewrite length_app, Hl1. lia.
Qed.

Lemma within_read_all_objects (slave_idx index num : Z) (fuel : nat) :
  forall (i : Z) (b : bus T),
    1 <= i ->
    0 <= num <= 255 ->
    256 - i <= Z.of_nat fuel ->
    exists b' delta,
      read_all_objects fuel slave_idx index i num b = Some (tt, b')
      /\ trace b' = trace b ++ delta
      /\ Forall (sdo_read_of slave_idx [index]) delta.
Proof.
  induction fuel as [| fuel IH]; intros i b Hi Hnum Hfuel;
    cbn [read_all_objects].
  - destruct (Z.leb_spec i num) as [H3 | H3]; [lia|].
    exists b, []. split; [reflexivity|].
    split; [now rewrite app_nil_r | constructor].
  - destruct (Z.leb_spec i num) as [H3 | H3].
    2:{ exists b, []. split; [reflexivity|].
        split; [now rewrite app_nil_r | constructor]. }
    destruct (within_read_sdo (sdo_read_of slave_idx [index])
                slave_idx index (uint8 i) 4
                ltac:(intros; cbn; auto) b)
      as (a & b1 & d1 & Hrun & Htr1 & Hall1).
    unfold bind. rewrite Hrun.
    destruct (IH (i + 1) b1 ltac:(lia) Hnum ltac:(lia))
      as (b' & d2 & Hrun' & Htr2 & Hall2).
    exists b', (d1 ++ d2). split; [exact Hrun'|].
    split; [rewrite Htr2, Htr1, <- app_assoc; reflexivity|].
    apply Forall_app; split; assumption.
Qed.

Lemma uint8_range (v : Z) : 0 <= uint8 v <= 255.
Proof.
  unfold uint8. pose proof (Z.mod_pos_bound v (2 ^ 8) ltac:(lia)). lia.
Qed.

(** X4.  [check_pdo_mapping_needed] always returns 1.  It only reads: at most
    eight SDO reads, all of slave [slave_idx] on objects 0x1600 and 0x1A00;
    no SDO write, no state request, no sleep. *)
Theorem check_pdo_mapping_needed_reads_only (slave_idx : Z) (b : bus T) :
  exists b' delta,
    check_pdo_mapping_needed slave_idx b = Some (1, b')
    /\ trace b' = trace b ++ delta
    /\ Forall (sdo_read_of slave_idx [0x1600; 0x1A00]) delta
    /\ (1 <= length delta <= 8)%nat
    /\ sdo_writes delta = []
    /\ state_requests delta = [].
Proof.
  assert (Hblock : forall index (b : bus T),
             In index [0x1600; 0x1A00] ->
             exists b' delta,
               (' (rc, num_mapped_objects) <-
                  soem_interface_read_sdo slave_idx index 0x00 1 ;;
                (if rc =? 0
                 then read_first_objects 3 slave_idx index 1
                                         (uint8 num_mapped_objects)
                 else ret tt)) b
               = Some (tt, b')
               /\ trace b' = trace b ++ delta
               /\ Forall (sdo_read_of slave_idx [0x1600; 0x1A00]) delta
               /\ (1 <= length delta <= 4)%nat).
  { intros index b0 Hin. unfold bind, soem_interface_read_sdo.
    destruct (ec_SDOread slave_idx index 0 false 1 EC_TIMEOUTRXM (tp b0))
      as [[k v] t].
    destruct (k =? 0); cbn [Z.eqb].
    - exists (emit t (EvSDOread slave_idx index 0 1 k v) b0),
        [EvSDOread slave_idx index 0 1 k v].
      split; [reflexivity|]. split; [reflexivity|].
      split; [|cbn; lia].
      constructor; [split; [reflexivity | exact Hin] | constructor].
    - destruct (within_read_first_objects slave_idx index (uint8 v) 3 1
                  (emit t (EvSDOread slave_idx index 0 1 k v) b0)
                  ltac:(lia) ltac:(lia))
        as (b' & d & Hrun & Htr & Hall & Hlen).
      exists b', (EvSDOread slave_idx index 0 1 k v :: d).
      split; [exact Hrun|].
      split; [rewrite Htr; unfold emit; cbn [trace];
              rewrite <- app_assoc; reflexivity|].
      split.
      + constructor; [split; [reflexivity | exact Hin]|].
        eapply Forall_impl; [|exact Hall].
        intros e He. destruct e; cbn in *; try contradiction.
        destruct He as [-> [<- | []]]. split; [reflexivity | exact Hin].
      + cbn [length]. lia. }
  unfold check_pdo_mapping_needed.
  destruct (Hblock 0x1600 b ltac:(cbn; auto))
    as (b1 & d1 & Hrun1 & Htr1 & Hall1 & Hlen1).
  destruct (Hblock 0x1A00 b1 ltac:(cbn; auto))
    as (b2 & d2 & Hrun2 & Htr2 & Hall2 & Hlen2).
  unfold bind in *.
  destruct (soem_interface_read_sdo slave_idx 0x1600 0 1 b)
    as [[[rc1 n1] c1] |]; [|discriminate].
  rewrite Hrun1.
  destruct (soem_interface_read_sdo slave_idx 0x1A00 0 1 b1)
    as [[[rc2 n2] c2] |]; [|discriminate].
  rewrite Hrun2.
  exists b2, (d1 ++ d2). split; [reflexivity|].
  split; [rewrite Htr2, Htr1, <- app_assoc; reflexivity|].
  assert (Hall : Forall (sdo_read_of slave_idx [0x1600; 0x1A00]) (d1 ++ d2))
    by (apply Forall_app; split; assumption).
  split; [exact Hall|]. split; [rewrite length_app; lia|].
  destruct (sdo_reads_project _ _ _ Hall) as (P1 & P2 & _).
  split; assumption.
Qed.

(** X5.  [validate_pdo_configuration] always returns 0 and only reads: every
    event is an SDO read of slave [slave_idx] on the two mapping objects or
    the two assignment objects. *)
Theorem validate_pdo_configuration_reads_only (slave_idx : Z) (b : bus T) :
  exists b' delta,
    validate_pdo_configuration slave_idx b = Some (0, b')
    /\ trace b' = trace b ++ delta
    /\ Forall (sdo_read_of slave_idx [0x1600; 0x1A00; 0x1C12; 0x1C13]) delta
    /\ sdo_writes delta = []
    /\ state_requests delta = [].
Proof.
  set (P := sdo_read_of slave_idx [0x1600; 0x1A00; 0x1C12; 0x1C13]).
  assert (Hread : forall index sub,
             In index [0x1600; 0x1A00; 0x1C12; 0x1C13] ->
             stays_within P (soem_interface_read_sdo slave_idx index sub 1)).
  { intros index sub Hin. apply within_read_sdo. intros k v. split; auto. }
  assert (Hloop : forall index num,
             In index [0x1600; 0x1A00; 0x1C12; 0x1C13] ->
             stays_within P (read_all_objects 255 slave_idx index 1
                                              (uint8 num))).
  { intros index num Hin b0.
    destruct (within_read_all_objects slave_idx index (uint8 num) 255 1 b0
                ltac:(lia) (uint8_range num) ltac:(lia))
      as (b' & d & Hrun & Htr & Hall).
    exists tt, b', d. split; [exact Hrun|]. split; [exact Htr|].
    eapply Forall_impl; [|exact Hall].
    intros e He. destruct e; cbn in *; try contradiction.
    destruct He as [-> [<- | []]]. split; [reflexivity | exact Hin]. }
  assert (W : stays_within P (validate_pdo_configuration slave_idx)).
  { unfold validate_pdo_configuration.
    apply within_bind; [apply Hread; cbn; auto|]. intros [rc1 n1].
    apply within_bind.
    { destruct (rc1 =? 0); [apply Hloop; cbn; auto | apply within_ret]. }
    intros _.
    apply within_bind; [apply Hread; cbn; auto|]. intros [rc2 n2].
    apply within_bind.
    { destruct (rc2 =? 0); [apply Hloop; cbn; auto | apply within_ret]. }
    intros _.
    apply within_bind; [apply Hread; cbn; auto 6|]. intros _.
    apply within_bind; [apply Hread; cbn; auto 6|]. intros _.
    apply within_ret. }
  destruct (W b) as (r & b' & delta & Hrun & Htr & Hall).
  assert (Hr : r = 0).
  { revert Hrun. unfold validate_pdo_configuration.
    generalize b at 1. generalize b'. generalize r.
    intros r0 s' s.
    apply (bind_returns _ _ (fun r => r = 0)). intros [rc1 n1] ? ? ?.
    apply (bind_returns _ _ (fun r => r = 0)). intros _ ? ? ?.
    apply (bind_returns _ _ (fun r => r = 0)). intros [rc2 n2] ? ? ?.
    apply (bind_returns _ _ (fun r => r = 0)). intros _ ? ? ?.
    apply (bind_returns _ _ (fun r => r = 0)). intros _ ? ? ?.
    apply (bind_returns _ _ (fun r => r = 0)). intros _ ? ? ?.
    unfold ret. intros H. now injection H as <- _. }
  subst r. exists b', delta. split; [exact Hrun|]. split; [exact Htr|].
  split; [exact Hall|].
  destruct (sdo_reads_project _ _ _ Hall) as (P1 & P2 & _).
  split; assumption.
Qed.
End Footprints.

(* ================================================================== *)
(** * Parameter initialisation *)

Section ParameterFacts.
Context {T : Type} {TR : Transport T}.

Lemma write_sdo_runs (slave_idx index subindex size data : Z) (b : bus T) :
  exists rc k t,
    soem_interface_write_sdo slave_idx index subindex size data b
    = Some (rc, emit t (EvSDOwrite slave_idx index subindex size data k) b)
    /\ ((rc = -1 /\ k = 0) \/ (rc = 0 /\ k <> 0)).
Proof.
  unfold soem_interface_write_sdo.
  destruct (ec_SDOwrite slave_idx index subindex false size data
                        EC_TIMEOUTRXM (tp b)) as [k t].
  destruct (Z.eqb_spec k 0) as [-> | Hk].
  - exists (-1), 0, t. auto.
  - exists 0, k, t. auto.
Qed.

Ltac next_write :=
  match goal with
  | |- context [bind (soem_interface_write_sdo ?s ?i ?u ?z ?d) _ ?b] =>
      let rc := fresh "rc" in
      let k := fresh "k" in
      let t := fresh "t" in
      let E := fresh "E" in
      let H := fresh "H" in
      destruct (write_sdo_runs s i u z d b) as (rc & k & t & E & H);
      rewrite (bind_some _ _ _ _ _ E)
  end.

(** X6.  [initialize_cia402_parameters] fails only on its first write, the mode
    of operation, and then issues nothing else.  Otherwise it returns 0
    whatever the other seven writes and the final read answer: it issues the
    eight parameter writes in order, sleeps 100 ms and reads object 0x6061
    once. *)
Theorem initialize_cia402_parameters_tolerant (slave_idx : Z) (b : bus T) :
  exists r b',
    initialize_cia402_parameters slave_idx b = Some (r, b')
    /\ ((r = -1
         /\ trace b' = trace b ++ [EvSDOwrite slave_idx 0x6060 0 1 4 0])
        \/ (r = 0
            /\ exists ks k v,
              length ks = 8%nat
              /\ hd 0 ks <> 0
              /\ trace b'
                 = trace b
                   ++ write_events slave_idx parameter_writes ks
                   ++ [EvSleep 100000;
                       EvSDOread slave_idx 0x6061 0 1 k v])).
Proof.
  unfold initialize_cia402_parameters. cbv zeta.
  next_write.
  destruct H as [(-> & ->) | (-> & Hk)]; unfold or_fail; cbn [Z.eqb].
  { eexists _, _. split; [reflexivity|]. left. split; reflexivity. }
  do 7 next_write.
  rewrite (bind_some _ _ _ _ tt eq_refl).
  match goal with
  | |- context [bind (soem_interface_read_sdo ?s ?i ?u ?z) _ ?b0] =>
      destruct (read_sdo_runs s i u z b0) as (kr & v & tr & _ & Er);
      rewrite (bind_some _ _ _ _ _ Er)
  end.
  eexists _, _. split; [reflexivity|]. right. split; [reflexivity|].
  exists [k; k0; k1; k2; k3; k4; k5; k6], kr, v.
  split; [reflexivity|]. split; [exact Hk|].
  unfold emit. cbn [trace write_events parameter_writes combine map].
  rewrite <- !app_assoc. reflexivity.
Qed.
End ParameterFacts.

(* ================================================================== *)
(** * Footprint of the PDO configuration *)

Lemma mapping_events_project (slave a m : Z) (delta : list event) :
  Forall (mapping_event slave a m) delta ->
  state_requests delta = []
  /\ received delta = []
  /\ sent delta = []
  /\ Forall (fun x => fst x = slave /\ (snd x = a \/ snd x = m))
            (sdo_addresses delta).
Proof.
  induction 1 as [| e delta He _ IH]; [repeat split; constructor|].
  destruct IH as (I1 & I2 & I3 & I4).
  destruct e; cbn in *; try contradiction;
    try (repeat split; assumption).
  - destruct He as [-> He]. repeat split; try assumption.
    constructor; [split; [reflexivity | exact He] | assumption].
  - destruct He as [-> ->]. repeat split; try assumption.
    constructor; [split; [reflexivity | now right] | assumption].
Qed.

Lemma state_events_requests (slave : Z) (delta : list event) :
  Forall (state_event slave) delta ->
  sdo_addresses delta = []
  /\ sdo_writes delta = []
  /\ sdo_transactions delta = 0%nat
  /\ received delta = [] /\ sent delta = [].
Proof.
  induction 1 as [| e delta He _ IH]; [repeat split|].
  destruct e; cbn in *; try contradiction; assumption.
Qed.

Section ConfigurationFootprint.
Context {T : Type} {TR : Transport T}.

Lemma within_mapping_entries_match (slave_idx a m : Z)
    (mapped_objects : list Z) :
  forall i, stays_within (mapping_event slave_idx a m)
                         (mapping_entries_match slave_idx m i
                                                mapped_objects).
Proof.
  induction mapped_objects as [| obj rest IH]; intros i;
    cbn [mapping_entries_match]; [apply within_ret|].
  apply within_bind.
  - apply within_read_sdo. intros; cbn; auto.
  - intros [rc cur]. destruct (rc =? 0); [|apply within_ret].
    destruct (uint32 cur =? obj); [apply IH | apply within_ret].
Qed.

Lemma within_mapping_already_matches (slave_idx a m : Z)
    (mapped_objects : list Z) :
  stays_within (mapping_event slave_idx a m)
               (mapping_already_matches slave_idx m mapped_objects).
Proof.
  unfold mapping_already_matches. apply within_bind.
  - apply within_read_sdo. intros; cbn; auto.
  - intros [rc cur]. destruct (rc =? 0); [|apply within_ret].
    destruct (uint8 cur =? _);
      [apply within_mapping_entries_match | apply within_ret].
Qed.

Lemma within_write_mapping_objects (slave_idx a m : Z)
    (mapped_objects : list Z) :
  forall i, stays_within (mapping_event slave_idx a m)
                         (write_mapping_objects slave_idx m i
                                                mapped_objects).
Proof.
  induction mapped_objects as [| obj rest IH]; intros i;
    cbn [write_mapping_objects]; [apply within_ret|].
  apply within_bind.
  - apply within_write_sdo. intros; cbn; auto.
  - intros rc. apply within_or_fail. apply within_bind.
    + apply within_usleep. exact I.
    + intros _. apply IH.
Qed.

Lemma within_rewrite_pdo_mapping (slave_idx a m : Z)
    (mapped_objects : list Z) :
  stays_within (mapping_event slave_idx a m)
               (rewrite_pdo_mapping slave_idx a m mapped_objects).
Proof.
  unfold rewrite_pdo_mapping.
  repeat first
    [ apply within_ret
    | apply within_or_fail
    | apply within_write_mapping_objects
    | apply within_usleep; exact I
    | apply within_write_sdo; intros; cbn; auto
    | apply within_read_sdo; intros; cbn; auto
    | apply within_bind; [|intros ?]
    | match goal with
      | |- stays_within _ (let '(_, _) := ?p in _) => destruct p
      | |- stays_within _ (if ?c then _ else _) => destruct c
      end ].
Qed.

Lemma zero_or_minus_one_or_fail (rc : Z) (k : M (bus T) Z) :
  (forall s r s', k s = Some (r, s') -> r = 0 \/ r = -1) ->
  forall s r s', or_fail rc k s = Some (r, s') -> r = 0 \/ r = -1.
Proof.
  intros Hk s r s'. unfold or_fail. destruct (rc =? 0); [apply Hk|].
  unfold ret. intros H. injection H as <- _. now right.
Qed.

Lemma rewrite_pdo_mapping_result (slave_idx a m : Z)
    (mapped_objects : list Z) (s : bus T) (r : Z) (s' : bus T) :
  rewrite_pdo_mapping slave_idx a m mapped_objects s = Some (r, s') ->
  r = 0 \/ r = -1.
Proof.
  revert s r s'. unfold rewrite_pdo_mapping.
  repeat first
    [ apply (bind_returns _ _ (fun r => r = 0 \/ r = -1)); intros ? ? ? ?
    | apply zero_or_minus_one_or_fail; intros ? ? ?
    | match goal with
      | |- context [let '(_, _) := ?p in _] => destruct p
      | |- context [if ?c then _ else _] => destruct c
      end ].
  all: unfold ret; intros H; injection H as <- _; auto.
Qed.

Lemma configure_runs_footprint
    (slave_idx pdo_assign_idx pdo_map_idx : Z) (mapped_objects : list Z)
    (b : bus T) :
  exists r b' d1 d2 n,
    soem_interface_configure_pdo_mapping_enhanced
      slave_idx pdo_assign_idx pdo_map_idx mapped_objects b
    = Some (r, b')
    /\ trace b' = trace b ++ d1 ++ d2
    /\ (r = 0 \/ r = -1)
    /\ Forall (state_event slave_idx) d1
    /\ state_requests d1 = repeat (slave_idx, EC_STATE_PRE_OP) n
    /\ (1 <= n <= 5)%nat
    /\ Forall (mapping_event slave_idx pdo_assign_idx pdo_map_idx) d2.
Proof.
  destruct (set_state_loop_trace slave_idx EC_STATE_PRE_OP
              (Z.to_nat max_retries) 0 b)
    as (r0 & b0 & d1 & n & Hrun0 & Htr0 & Hev0 & Hn & Hn1 & Hr0 & _ & _
        & Hplain); [lia | unfold max_retries; lia |].
  unfold max_retries in *.
  destruct (Hplain ltac:(discriminate)) as (_ & Hreq & _).
  specialize (Hn1 ltac:(lia)).
  set (rest := (usleep 100000 ;;
                matches <- mapping_already_matches slave_idx pdo_map_idx
                                                   mapped_objects ;;
                if (matches : bool) then ret 0
                else rewrite_pdo_mapping slave_idx pdo_assign_idx
                                         pdo_map_idx mapped_objects)).
  assert (Hrest : stays_within
                    (mapping_event slave_idx pdo_assign_idx pdo_map_idx)
                    (or_fail r0 rest)).
  { apply within_or_fail. subst rest.
    apply within_bind; [apply within_usleep; exact I|]. intros _.
    apply within_bind; [apply within_mapping_already_matches|].
    intros [|]; [apply within_ret | apply within_rewrite_pdo_mapping]. }
  destruct (Hrest b0) as (r & b' & d2 & Hrun & Htr & Hev).
  assert (Hr : r = 0 \/ r = -1).
  { revert Hrun. apply zero_or_minus_one_or_fail. subst rest.
    intros s r1 s'.
    apply (bind_returns _ _ (fun r => r = 0 \/ r = -1)). intros _ ? ? ?.
    apply (bind_returns _ _ (fun r => r = 0 \/ r = -1)).
    intros [|] ? ? ?; [|apply rewrite_pdo_mapping_result].
    unfold ret. intros H. injection H as <- _. now left. }
  exists r, b', d1, d2, (Z.to_nat n).
  split.
  { unfold soem_interface_configure_pdo_mapping_enhanced.
    unfold soem_interface_set_ethercat_state.
    rewrite (bind_some _ _ _ _ _ Hrun0). exact Hrun. }
  split; [rewrite Htr, Htr0, <- app_assoc; reflexivity|].
  split; [exact Hr|]. split; [exact Hev0|]. split; [exact Hreq|].
  split; [lia | exact Hev].
Qed.

(** X7.  The PDO configuration stays on its slave and its two objects: it
    requests PRE-OP between one and five times, then only sleeps, reads the
    mapping object and writes the assignment and mapping objects.  It
    exchanges no process data and returns 0 or -1. *)
Theorem pdo_configuration_footprint
    (slave_idx pdo_assign_idx pdo_map_idx : Z) (mapped_objects : list Z)
    (b : bus T) :
  exists r b' d1 d2 n,
    soem_interface_configure_pdo_mapping_enhanced
      slave_idx pdo_assign_idx pdo_map_idx mapped_objects b
    = Some (r, b')
    /\ trace b' = trace b ++ d1 ++ d2
    /\ (r = 0 \/ r = -1)
    /\ Forall (state_event slave_idx) d1
    /\ state_requests d1 = repeat (slave_idx, EC_STATE_PRE_OP) n
    /\ (1 <= n <= 5)%nat
    /\ Forall (mapping_event slave_idx pdo_assign_idx pdo_map_idx) d2
    /\ Forall (fun x => fst x = slave_idx
                        /\ (snd x = pdo_assign_idx \/ snd x = pdo_map_idx))
              (sdo_addresses (d1 ++ d2))
    /\ sent (d1 ++ d2) = [] /\ received (d1 ++ d2) = [].
Proof.
  destruct (configure_runs_footprint slave_idx pdo_assign_idx pdo_map_idx
              mapped_objects b)
    as (r & b' & d1 & d2 & n & Hrun & Htr & Hr & Hev1 & Hreq & Hn & Hev2).
  exists r, b', d1, d2, n.
  split; [exact Hrun|]. split; [exact Htr|]. split; [exact Hr|].
  split; [exact Hev1|]. split; [exact Hreq|]. split; [exact Hn|].
  split; [exact Hev2|].
  destruct (state_events_requests _ _ Hev1) as (A1 & _ & _ & A4 & A5).
  destruct (mapping_events_project _ _ _ _ Hev2) as (_ & B2 & B3 & B4).
  rewrite sdo_addresses_app, sent_app, received_app, A1, A4, A5, B2, B3.
  auto.
Qed.

(** X8.  [configure_somanet_pdo_mapping_enhanced] returns -1 exactly when its
    INIT request fails, or that one succeeds and its PRE-OP request fails;
    it then stops in the bus that request left, before any SDO transaction.
    When both succeed it returns 0: after the single probe read when the
    probe of object 0x1C12 fails, writing nothing, and otherwise after both
    configurations, whatever they return.  It requests INIT between one and
    five times and after that only PRE-OP, at most fifteen times. *)
Theorem configure_somanet_outcomes (slave_idx : Z) (b : bus T) :
  exists r b' r0 b0 ds rest n1 n2,
    configure_somanet_pdo_mapping_enhanced slave_idx b = Some (r, b')
    /\ soem_interface_set_ethercat_state slave_idx EC_STATE_INIT b
       = Some (r0, b0)
    /\ trace b' = trace b ++ ds ++ rest
    /\ Forall (state_event slave_idx) ds
    /\ state_requests (ds ++ rest)
       = repeat (slave_idx, EC_STATE_INIT) n1
         ++ repeat (slave_idx, EC_STATE_PRE_OP) n2
    /\ (1 <= n1 <= 5)%nat /\ (n2 <= 15)%nat
    /\ ((r0 = -1 /\ r = -1 /\ b' = b0 /\ rest = [] /\ n2 = 0%nat)
        \/ (r0 = 0
            /\ exists r1 b1,
              soem_interface_set_ethercat_state slave_idx EC_STATE_PRE_OP b0
              = Some (r1, b1)
              /\ ((r1 = -1 /\ r = -1 /\ b' = b1 /\ rest = [])
                  \/ (r1 = 0 /\ r = 0
                      /\ exists k v t,
                        ec_SDOread slave_idx 0x1C12 0 false 1 EC_TIMEOUTRXM
                                   (tp b1)
                        = (k, v, t)
                        /\ ((k = 0
                             /\ rest = [EvSDOread slave_idx 0x1C12 0 1 0 v])
                            \/ (k <> 0
                                /\ exists ra b3 rb rest',
                                  soem_interface_configure_pdo_mapping_enhanced
                                    slave_idx 0x1C12 0x1600 rxpdo_mapping
                                    (emit t (EvSDOread slave_idx 0x1C12 0 1
                                                       k v) b1)
                                  = Some (ra, b3)
                                  /\ soem_interface_configure_pdo_mapping_enhanced
                                       slave_idx 0x1C13 0x1A00 txpdo_mapping
                                       b3
                                     = Some (rb, b')
                                  /\ rest = EvSDOread slave_idx 0x1C12 0 1
                                                      k v :: rest'
                                  /\ Forall (somanet_event slave_idx)
                                            rest')))))).
Proof.
  destruct (set_state_loop_trace slave_idx EC_STATE_INIT
              (Z.to_nat max_retries) 0 b)
    as (r0 & b0 & d0 & n0 & Hrun0 & Htr0 & Hev0 & Hn0 & Hn0' & Hr0 & _ & _
        & Hplain0); [lia | unfold max_retries; lia |].
  unfold max_retries in *.
  destruct (Hplain0 ltac:(discriminate)) as (_ & Hreq0 & _).
  specialize (Hn0' ltac:(lia)).
  assert (Hinit : soem_interface_set_ethercat_state slave_idx EC_STATE_INIT b
                  = Some (r0, b0)) by exact Hrun0.
  unfold configure_somanet_pdo_mapping_enhanced.
  rewrite (bind_some _ _ _ _ _ Hinit).
  destruct Hr0 as [-> | ->]; unfold or_fail at 1; cbn [Z.eqb].
  2:{ exists (-1), b0, (-1), b0, d0, [], (Z.to_nat n0), 0%nat.
      split; [reflexivity|]. split; [exact Hinit|]. rewrite !app_nil_r.
      split; [exact Htr0|]. split; [exact Hev0|]. split; [exact Hreq0|].
      split; [lia|]. split; [lia|]. left. auto 6. }
  destruct (set_state_loop_trace slave_idx EC_STATE_PRE_OP
              (Z.to_nat max_retries) 0 b0)
    as (r1 & b1 & d1 & n1 & Hrun1 & Htr1 & Hev1 & Hn1 & Hn1' & Hr1 & _ & _
        & Hplain1); [lia | unfold max_retries; lia |].
  unfold max_retries in *.
  destruct (Hplain1 ltac:(discriminate)) as (_ & Hreq1 & _).
  specialize (Hn1' ltac:(lia)).
  assert (Hpre : soem_interface_set_ethercat_state slave_idx EC_STATE_PRE_OP
                                                   b0
                 = Some (r1, b1)) by exact Hrun1.
  rewrite (bind_some _ _ _ _ _ Hpre).
  assert (Hds : Forall (state_event slave_idx) (d0 ++ d1))
    by (apply Forall_app; split; assumption).
  assert (Hreq : state_requests (d0 ++ d1)
                 = repeat (slave_idx, EC_STATE_INIT) (Z.to_nat n0)
                   ++ repeat (slave_idx, EC_STATE_PRE_OP) (Z.to_nat n1))
    by (rewrite state_requests_app, Hreq0, Hreq1; reflexivity).
  destruct Hr1 as [-> | ->]; unfold or_fail at 1; cbn [Z.eqb].
  2:{ exists (-1), b1, 0, b0, (d0 ++ d1), [], (Z.to_nat n0), (Z.to_nat n1).
      split; [reflexivity|]. split; [exact Hinit|]. rewrite !app_nil_r.
      split; [rewrite Htr1, Htr0, <- app_assoc; reflexivity|].
      split; [exact Hds|]. split; [exact Hreq|].
      split; [lia|]. split; [lia|]. right. split; [reflexivity|].
      exists (-1), b1. split; [exact Hpre|]. left. auto. }
  destruct (read_sdo_runs slave_idx 0x1C12 0 1 b1)
    as (k & v & t & Eread & Er).
  rewrite (bind_some _ _ _ _ _ Er).
  destruct (Z.eqb_spec k 0) as [-> | Hk]; cbn [Z.eqb negb].
  { eexists 0, _, 0, b0, (d0 ++ d1), [EvSDOread slave_idx 0x1C12 0 1 0 v],
      (Z.to_nat n0), (Z.to_nat n1).
    split; [reflexivity|]. split; [exact Hinit|].
    split; [unfold emit; cbn [trace];
            rewrite Htr1, Htr0, <- !app_assoc; reflexivity|].
    split; [exact Hds|].
    split; [rewrite state_requests_app, Hreq; cbn [state_requests];
            now rewrite app_nil_r|].
    split; [lia|]. split; [lia|]. right. split; [reflexivity|].
    exists 0, b1. split; [exact Hpre|]. right.
    split; [reflexivity|]. split; [reflexivity|].
    exists 0, v, t. split; [exact Eread|]. left. auto. }
  set (b2 := emit t (EvSDOread slave_idx 0x1C12 0 1 k v) b1).
  destruct (configure_runs_footprint slave_idx 0x1C12 0x1600 rxpdo_mapping
              b2)
    as (ra & b3 & da1 & da2 & na & Hruna & Htra & _ & Heva1 & Hreqa & Hna
        & Heva2).
  rewrite (bind_some _ _ _ _ _ Hruna).
  destruct (configure_runs_footprint slave_idx 0x1C13 0x1A00 txpdo_mapping
              b3)
    as (rb & b4 & db1 & db2 & nb & Hrunb & Htrb & _ & Hevb1 & Hreqb & Hnb
        & Hevb2).
  rewrite (bind_some _ _ _ _ _ Hrunb).
  destruct (mapping_events_project _ _ _ _ Heva2) as (Qa & _).
  destruct (mapping_events_project _ _ _ _ Hevb2) as (Qb & _).
  exists 0, b4, 0, b0, (d0 ++ d1),
    (EvSDOread slave_idx 0x1C12 0 1 k v :: (da1 ++ da2) ++ (db1 ++ db2)),
    (Z.to_nat n0), (Z.to_nat n1 + (na + nb))%nat.
  split; [reflexivity|]. split; [exact Hinit|].
  split.
  { rewrite Htrb, Htra. subst b2. unfold emit; cbn [trace].
    rewrite Htr1, Htr0, <- !app_assoc. reflexivity. }
  split; [exact Hds|].
  split.
  { rewrite state_requests_app, Hreq. cbn [state_requests].
    rewrite !state_requests_app, Hreqa, Hreqb, Qa, Qb, !app_nil_r.
    rewrite <- app_assoc, <- !repeat_app. reflexivity. }
  split; [lia|]. split; [lia|]. right. split; [reflexivity|].
  exists 0, b1. split; [exact Hpre|]. right.
  split; [reflexivity|]. split; [reflexivity|].
  exists k, v, t. split; [exact Eread|]. right. split; [exact Hk|].
  exists ra, b3, rb, ((da1 ++ da2) ++ (db1 ++ db2)).
  split; [exact Hruna|]. split; [exact Hrunb|]. split; [reflexivity|].
  repeat (apply Forall_app; split).
  - eapply Forall_impl; [|exact Heva1]. intros e He. now left.
  - eapply Forall_impl; [|exact Heva2]. intros e He. right. now left.
  - eapply Forall_impl; [|exact Hevb1]. intros e He. now left.
  - eapply Forall_impl; [|exact Hevb2]. intros e He. right. now right.
Qed.

End ConfigurationFootprint.

(* ================================================================== *)
(** * Mapping entries *)

(** X9.  The three fields [validate_pdo_configuration] takes out of a 32-bit
    mapping entry determine the entry, and an entry put together from an
    index, a subindex and a bit length gives these back. *)
Theorem mapping_entry_fields :
  (forall e : Z,
      0 <= e < 2 ^ 32 ->
      e = entry_index e * 2 ^ 16 + entry_subindex e * 2 ^ 8
          + entry_bit_length e
      /\ 0 <= entry_index e < 2 ^ 16
      /\ 0 <= entry_subindex e < 2 ^ 8
      /\ 0 <= entry_bit_length e < 2 ^ 8)
  /\ (forall index subindex bit_length : Z,
        0 <= index < 2 ^ 16 ->
        0 <= subindex < 2 ^ 8 ->
        0 <= bit_length < 2 ^ 8 ->
        let e := index * 2 ^ 16 + subindex * 2 ^ 8 + bit_length in
        entry_index e = index
        /\ entry_subindex e = subindex
        /\ entry_bit_length e = bit_length).
Proof.
  unfold entry_index, entry_subindex, entry_bit_length.
  change 0xFFFF with (Z.ones 16). change 0xFF with (Z.ones 8).
  split.
  - intros e He.
    rewrite !Z.land_ones, !Z.shiftr_div_pow2 by lia.
    change (2 ^ 32) with 4294967296 in He.
    change (2 ^ 16) with 65536. change (2 ^ 8) with 256.
    Z.div_mod_to_equations. lia.
  - intros index subindex bit_length Hi Hs Hb. cbv zeta.
    rewrite !Z.land_ones, !Z.shiftr_div_pow2 by lia.
    change (2 ^ 16) with 65536 in *. change (2 ^ 8) with 256 in *.
    Z.div_mod_to_equations. lia.
Qed.

Lemma mapping_entry_fields_witness :
  0x60710010 = entry_index 0x60710010 * 2 ^ 16
               + entry_subindex 0x60710010 * 2 ^ 8
               + entry_bit_length 0x60710010
  /\ entry_index (0x6071 * 2 ^ 16 + 0 * 2 ^ 8 + 16) = 0x6071.
Proof.
  split.
  - destruct (proj1 mapping_entry_fields 0x60710010) as (H & _);
      [lia | exact H].
  - destruct (proj2 mapping_entry_fields 0x6071 0 16) as (H & _);
      [lia | lia | lia | exact H].
Defined.

(* ================================================================== *)
(** * The decoder and the planner together *)

(** X10.  What the bring-up planner commands, read off the statusword itself:
    Enable Operation (0x000F) exactly for the SwitchedOn pattern, Switch On
    (0x0007) exactly for the ReadyToSwitchOn pattern, Fault Reset (0x0080)
    exactly when bit 3 is set and the pattern is not FaultReactionActive,
    and Shutdown (0x0006) in every other case.  The state is
    OperationEnabled exactly for the pattern 0x27. *)
Theorem planner_on_statusword (statusword : Z) :
  let cw := transition_controlword (get_cia402_state statusword) in
  let state_bits := Z.land statusword 0x006F in
  (cw = 0x000F <-> state_bits = 0x0023)
  /\ (cw = 0x0007 <-> state_bits = 0x0021)
  /\ (cw = 0x0080 <->
      Z.testbit statusword 3 = true /\ state_bits <> 0x000F)
  /\ (get_cia402_state statusword = CIA402_STATE_OPERATION_ENABLED <->
      state_bits = 0x0027)
  /\ (cw = 0x0006 \/ cw = 0x0007 \/ cw = 0x000F \/ cw = 0x0080).
Proof.
  assert (Hb : Z.testbit (Z.land statusword 0x6F) 3
               = Z.testbit statusword 3).
  { rewrite Z.land_spec. change (Z.testbit 0x6F 3) with true.
    apply andb_true_r. }
  pose proof (state_bits_range statusword) as Hr.
  unfold get_cia402_state. rewrite fault_bit_test. cbv zeta.
  rewrite <- Hb. clear Hb.
  generalize dependent (Z.land statusword 0x6F). intros bits Hr.
  change (2 ^ 7) with 128 in Hr.
  destruct bits as [| p | p];
    [vm_compute; intuition (try discriminate; try congruence) | | lia].
  do 7 (destruct p as [p | p |];
        try lia;
        try solve [vm_compute;
                   intuition (try discriminate; try congruence)]).
Qed.

(* ================================================================== *)
(** * The bring-up phase and the cyclic loop as a whole *)

Lemma last_cons_default {A : Type} (a d : A) (l : list A) :
  last (a :: l) d = last l a.
Proof.
  destruct l as [| b l]; [reflexivity|].
  rewrite last_cons_cons. apply last_default.
Qed.

Lemma bringup_command_rebased (c : Z) (o : option rx_pdo) (img : tx_pdo) :
  bringup_command (option_map (with_controlword c) o) img
  = bringup_command o img.
Proof. destruct o; reflexivity. Qed.

Lemma bringup_events_rebased (c : Z) (o : option rx_pdo) :
  forall (rcv : list (Z * tx_pdo)) (img : tx_pdo),
    bringup_events (option_map (with_controlword c) o) img rcv
    = bringup_events o img rcv.
Proof.
  induction rcv as [| [k i] rcv IH]; intros img; cbn [bringup_events];
    [reflexivity|].
  now rewrite bringup_command_rebased, IH.
Qed.

Lemma bringup_command_setpoint (o : option rx_pdo) (img : tx_pdo) :
  same_setpoint o (bringup_command o img).
Proof. destruct o; repeat split. Qed.

Lemma bringup_events_projections (o : option rx_pdo) :
  forall (rcv : list (Z * tx_pdo)) (img0 : tx_pdo),
    received (bringup_events o img0 rcv) = rcv
    /\ sent (bringup_events o img0 rcv)
       = map (bringup_command o) (removelast (img0 :: map snd rcv))
    /\ sleeps (bringup_events o img0 rcv) = repeat 5000 (length rcv)
    /\ state_requests (bringup_events o img0 rcv) = []
    /\ sdo_transactions (bringup_events o img0 rcv) = 0%nat.
Proof.
  induction rcv as [| [k i] rcv IH]; intros img0.
  - repeat split.
  - destruct (IH i) as (A & B & C & D & E).
    cbn [bringup_events received sent sleeps state_requests
         sdo_transactions map snd length repeat].
    rewrite removelast_cons_cons. cbn [map].
    rewrite A, B, C, D, E. repeat split.
Qed.

Lemma bringup_events_sent (o : option rx_pdo) (P : option rx_pdo -> Prop)
    (rcv : list (Z * tx_pdo)) (img0 : tx_pdo) :
  (forall img, P (bringup_command o img)) ->
  Forall P (sent (bringup_events o img0 rcv)).
Proof.
  intros H.
  destruct (bringup_events_projections o rcv img0) as (_ & -> & _).
  apply Forall_forall. intros x Hx.
  apply in_map_iff in Hx. destruct Hx as (img & <- & _). apply H.
Qed.

Section WorldFacts.
Context {T : Type} {TR : Transport T} {F : Type} {FL : CFloat F}.

#[local] Abbreviation world := (world T F).

(** The bring-up loop from attempt number [attempt]: the exact events, the
    output image left behind, and what it takes to leave the state
    OperationEnabled. *)
Lemma cia402_loop_trace (fuel : nat) :
  forall (attempt : Z) (w : world),
    0 <= attempt ->
    max_attempts - attempt <= Z.of_nat fuel ->
    exists r w' delta,
      cia402_loop fuel attempt w = Some (r, w')
      /\ trace (ec w') = trace (ec w) ++ delta
      /\ (r = 0 \/ r = -1)
      /\ (r = 0 ->
          current_cia402_state w' = CIA402_STATE_OPERATION_ENABLED)
      /\ match somanet_inputs w with
         | None => delta = [] /\ w' = w
         | Some img0 =>
             delta = bringup_events (somanet_outputs w) img0
                                    (received delta)
             /\ somanet_outputs w'
                = last (sent delta) (somanet_outputs w)
             /\ (current_cia402_state w <> CIA402_STATE_OPERATION_ENABLED ->
                 Forall not_enabled (img0 :: map snd (received delta)) ->
                 current_cia402_state w' <> CIA402_STATE_OPERATION_ENABLED
                 /\ r = -1)
         end.
Proof.
  unfold max_attempts.
  assert (Hstop : forall w : world,
             exists r w' delta,
               ret (-1) w = Some (r, w')
               /\ trace (ec w') = trace (ec w) ++ delta
               /\ (r = 0 \/ r = -1)
               /\ (r = 0 ->
                   current_cia402_state w' = CIA402_STATE_OPERATION_ENABLED)
               /\ match somanet_inputs w with
                  | None => delta = [] /\ w' = w
                  | Some img0 =>
                      delta = bringup_events (somanet_outputs w) img0
                                             (received delta)
                      /\ somanet_outputs w'
                         = last (sent delta) (somanet_outputs w)
                      /\ (current_cia402_state w
                          <> CIA402_STATE_OPERATION_ENABLED ->
                          Forall not_enabled
                                 (img0 :: map snd (received delta)) ->
                          current_cia402_state w'
                          <> CIA402_STATE_OPERATION_ENABLED
                          /\ r = -1)
                  end).
  { intros w. exists (-1), w, []. rewrite app_nil_r.
    split; [reflexivity|]. split; [reflexivity|]. split; [now right|].
    split; [discriminate|].
    destruct (somanet_inputs w) as [img0 |]; [|auto].
    cbn [received bringup_events sent last].
    split; [reflexivity|]. split; [reflexivity|]. auto. }
  induction fuel as [| fuel IH]; intros attempt w Ha Hfuel.
  - assert (E : (attempt <? 50) = false) by (apply Z.ltb_ge; lia).
    cbn [cia402_loop]. unfold max_attempts. rewrite E. apply Hstop.
  - cbn [cia402_loop]. unfold max_attempts.
    destruct (attempt <? 50) eqn:E; [|apply Hstop].
    apply Z.ltb_lt in E.
    pose proof (cia402_attempt_runs w) as Hatt.
    unfold bind at 1.
    destruct (somanet_inputs w) as [img0 |] eqn:Hin.
    2:{ rewrite Hatt. exists (-1), w, []. rewrite app_nil_r.
        split; [reflexivity|]. split; [reflexivity|]. split; [now right|].
        split; [discriminate|]. auto. }
    cbv zeta in Hatt.
    destruct (cia402_state_eqb (get_cia402_state (statusword img0))
                               CIA402_STATE_OPERATION_ENABLED) eqn:Hoe.
    + rewrite Hatt. apply cia402_state_eqb_eq in Hoe.
      eexists 0, _, []. rewrite app_nil_r.
      split; [reflexivity|]. split; [reflexivity|]. split; [now left|].
      split; [intros _; exact Hoe|].
      cbn [received bringup_events sent last map].
      split; [reflexivity|]. split; [reflexivity|].
      intros _ Hall. inversion Hall as [| ? ? Hhd _].
      exfalso. apply Hhd. exact Hoe.
    + destruct Hatt
        as (k & img1 & w1 & Hrun & Htr & Hin1 & Hout1 & _ & Hst1 & _).
      rewrite Hrun.
      unfold bind, on_bus, usleep.
      cbn [ec set_ec].
      set (w2 := set_ec (emit (elapse 5000 (tp (ec w1))) (EvSleep 5000)
                              (ec w1)) w1).
      destruct (IH (attempt + 1) w2 ltac:(lia) ltac:(lia))
        as (r & w' & delta & Hloop & Htr' & Hr & Hzero & Hcase).
      rewrite Hloop.
      assert (Hin2 : somanet_inputs w2 = Some img1) by exact Hin1.
      assert (Hout2 : somanet_outputs w2
                      = bringup_command (somanet_outputs w) img0)
        by exact Hout1.
      assert (Hst2 : current_cia402_state w2
                     = get_cia402_state (statusword img0))
        by exact Hst1.
      rewrite Hin2 in Hcase.
      destruct Hcase as (Hshape & Hout & Hsafe).
      exists r, w',
        ([EvSend (bringup_command (somanet_outputs w) img0);
          EvReceive k img1; EvSleep 5000] ++ delta).
      split; [reflexivity|].
      split.
      { rewrite Htr'. subst w2. unfold emit. cbn [ec set_ec trace].
        rewrite Htr. rewrite <- !app_assoc. reflexivity. }
      split; [exact Hr|]. split; [exact Hzero|].
      cbn [app received sent map snd bringup_events].
      split.
      { do 3 f_equal. etransitivity; [exact Hshape|].
        rewrite Hout2. apply bringup_events_rebased. }
      split.
      { rewrite last_cons_default, Hout, Hout2. reflexivity. }
      intros _ Hall. apply Hsafe.
      * rewrite Hst2. intros Heq.
        apply cia402_state_eqb_eq in Heq. congruence.
      * inversion Hall; assumption.
Qed.

(** X11.  The bring-up phase is pure process data: it starts no SDO transaction
    and requests no EtherCAT state.  Its events are, for each image it
    examines before the last, the command of the planner for that image,
    the exchange and a 5 ms sleep.  Every frame it sends differs from the
    output image it found at most in the controlword, and the output image
    it leaves is the last frame it sent. *)
Theorem bringup_changes_only_controlword (slave_idx : Z) (w : world) :
  exists r w' delta,
    perform_cia402_transition_to_operational slave_idx w = Some (r, w')
    /\ trace (ec w') = trace (ec w) ++ delta
    /\ sdo_transactions delta = 0%nat
    /\ state_requests delta = []
    /\ Forall (same_setpoint (somanet_outputs w)) (sent delta)
    /\ match somanet_inputs w with
       | None => delta = [] /\ w' = w
       | Some img0 =>
           delta = bringup_events (somanet_outputs w) img0 (received delta)
           /\ sent delta
              = map (bringup_command (somanet_outputs w))
                    (removelast (img0 :: map snd (received delta)))
           /\ somanet_outputs w' = last (sent delta) (somanet_outputs w)
       end.
Proof.
  destruct (cia402_loop_trace (Z.to_nat max_attempts) 0 w)
    as (r & w' & delta & Hrun & Htr & _ & _ & Hcase);
    [lia | unfold max_attempts; lia |].
  exists r, w', delta. split; [exact Hrun|]. split; [exact Htr|].
  destruct (somanet_inputs w) as [img0 |].
  - destruct Hcase as (Hshape & Hout & _).
    destruct (bringup_events_projections (somanet_outputs w)
                (received delta) img0) as (_ & B & _ & D & E).
    rewrite <- Hshape in B, D, E.
    split; [exact E|]. split; [exact D|].
    split.
    { rewrite Hshape. apply bringup_events_sent.
      apply bringup_command_setpoint. }
    split; [exact Hshape|]. split; [exact B | exact Hout].
  - destruct Hcase as (-> & ->). repeat split. constructor.
Qed.

End WorldFacts.

Section CycleFacts.
Context {T : Type} {TR : Transport T} {F : Type} {FL : CFloat F}.

#[local] Abbreviation world := (world T F).

(** The end of an iteration, lines 500-505, with its events. *)
Lemma cycle_tail_shape (slave_idx : Z) (smi : bool) (w : world) :
  exists b' rest,
    (op <- on_bus (is_slave_operational slave_idx) ;;
     (if negb op
      then _ <- on_bus (statecheck slave_idx EC_STATE_OPERATIONAL
                                   EC_TIMEOUTSTATE) ;; ret tt
      else ret tt) ;;
     on_bus (usleep 1000) ;;
     ret smi) w
    = Some (smi, set_ec b' w)
    /\ trace b' = trace (ec w) ++ rest
    /\ (rest = [EvSleep 1000]
        \/ exists r,
          rest = [EvStateCheck slave_idx EC_STATE_OPERATIONAL
                               EC_TIMEOUTSTATE r; EvSleep 1000]).
Proof.
  unfold bind, on_bus, is_slave_operational, read_slave_state, ret, bind.
  destruct (Z.land (slave_state slave_idx (tp (ec w))) 15
            =? EC_STATE_OPERATIONAL); cbn [negb].
  - unfold usleep. cbn [ec set_ec].
    eexists _, [EvSleep 1000]. split; [reflexivity|]. auto.
  - unfold statecheck. cbn [ec set_ec].
    destruct (ec_statecheck slave_idx EC_STATE_OPERATIONAL EC_TIMEOUTSTATE
                            (tp (ec w))) as [r t].
    unfold usleep, emit. cbn [ec set_ec tp trace].
    eexists _, [EvStateCheck slave_idx EC_STATE_OPERATIONAL
                             EC_TIMEOUTSTATE r; EvSleep 1000].
    split; [reflexivity|]. cbn [trace]. rewrite <- app_assoc.
    split; [reflexivity|]. right. now exists r.
Qed.

Lemma write_output_image_fields (w : world) :
  carries (current_controlword w) (somanet_outputs (write_output_image w))
  /\ (current_cia402_state w <> CIA402_STATE_OPERATION_ENABLED ->
      zero_torque (somanet_outputs (write_output_image w)))
  /\ master_initialized (write_output_image w) = master_initialized w
  /\ current_controlword (write_output_image w) = current_controlword w.
Proof.
  unfold write_output_image.
  destruct (somanet_outputs w) as [o |] eqn:Eo.
  - cbn. split; [auto|]. split; [|auto].
    intros Hne.
    destruct (cia402_state_eqb (current_cia402_state w)
                               CIA402_STATE_OPERATION_ENABLED) eqn:E;
      [|reflexivity].
    apply cia402_state_eqb_eq in E. contradiction.
  - rewrite Eo. cbn. auto.
Qed.

(** One iteration of the cyclic loop, event by event. *)
Lemma ecat_cycle_steps (slave_idx : Z) (smi : bool) (w : world) :
  exists smi' w' k img mid rest,
    ecat_cycle slave_idx smi w = Some (smi', w')
    /\ cycle_exchange w = (k, img)
    /\ trace (ec w')
       = trace (ec w)
         ++ EvSend (somanet_outputs (write_output_image w))
            :: EvReceive k img :: EvSleep 5000 :: mid ++ rest
    /\ (rest = [EvSleep 1000]
        \/ exists r,
          rest = [EvStateCheck slave_idx EC_STATE_OPERATIONAL
                               EC_TIMEOUTSTATE r; EvSleep 1000])
    /\ mid = bringup_events (somanet_outputs (write_output_image w)) img
                            (received mid)
    /\ somanet_outputs w'
       = last (sent mid) (somanet_outputs (write_output_image w))
    /\ master_initialized w' = master_initialized w
    /\ (smi = true \/ k < expectedWKC w
        \/ somanet_inputs w = None \/ somanet_outputs w = None ->
        mid = [] /\ smi' = smi
        /\ current_controlword w' = current_controlword w)
    /\ (current_cia402_state w <> CIA402_STATE_OPERATION_ENABLED ->
        Forall not_enabled (img :: map snd (received mid)) ->
        current_cia402_state w' <> CIA402_STATE_OPERATION_ENABLED
        /\ smi' = smi)
    /\ (smi' = true ->
        smi = true
        \/ current_cia402_state w' = CIA402_STATE_OPERATION_ENABLED).
Proof.
  destruct (write_output_image_frame w)
    as (Fec & Fin & Fout & Fexp & Ftq & Fsw & Fst & Fpos & Fvel).
  destruct (write_output_image_fields w) as (_ & _ & Fmi & Fcw).
  unfold ecat_cycle.
  rewrite (bind_some _ _ w (write_output_image w) tt) by reflexivity.
  set (w1 := write_output_image w) in *.
  destruct (ec_send_processdata (somanet_outputs w1) (tp (ec w1)))
    as [r t1] eqn:Es.
  erewrite bind_some
    by (unfold send_processdata; rewrite Es; reflexivity).
  set (w2 := set_ec (emit t1 (EvSend (somanet_outputs w1)) (ec w1)) w1).
  destruct (ec_receive_processdata EC_TIMEOUTRET (tp (ec w2)))
    as [[k img] t2] eqn:Er.
  erewrite bind_some
    by (unfold receive_processdata; rewrite Er; reflexivity).
  rewrite (bind_some _ _ _ _ tt eq_refl).
  rewrite (bind_some _ _ _ _ tt eq_refl).
  rewrite (bind_some _ _ _ _ _ eq_refl).
  match goal with
  | |- context [bind _ _ ?w] => set (w4 := w)
  end.
  assert (Hk : wkc w4 = k) by reflexivity.
  assert (Hex : cycle_exchange w = (k, img)).
  { unfold cycle_exchange. fold w1. rewrite <- Fec, Es.
    change t1 with (tp (ec w2)). now rewrite Er. }
  assert (Hexp : expectedWKC w4 = expectedWKC w) by exact Fexp.
  assert (Htr4 : trace (ec w4)
                 = trace (ec w)
                   ++ [EvSend (somanet_outputs w1); EvReceive k img;
                       EvSleep 5000]).
  { subst w4 w2. unfold emit. cbn [ec set_ec set_wkc set_inputs trace tp].
    rewrite Fec. rewrite <- !app_assoc. reflexivity. }
  assert (Hin4 : somanet_inputs w4
                 = match somanet_inputs w with
                   | Some _ => Some img
                   | None => None
                   end).
  { subst w4 w2. cbn. now rewrite Fin. }
  assert (Hfr4 : somanet_outputs w4 = somanet_outputs w1
                 /\ master_initialized w4 = master_initialized w
                 /\ current_controlword w4 = current_controlword w
                 /\ current_cia402_state w4 = current_cia402_state w).
  { subst w4 w2. cbn. auto. }
  destruct Hfr4 as (Gout & Gmi & Gcw & Gst).
  rewrite Hk, Hexp.
  destruct (k >=? expectedWKC w) eqn:Hge.
  - (* the working counter is sufficient *)
    assert (Hge' : expectedWKC w <= k)
      by (rewrite Z.geb_leb in Hge; apply Z.leb_le in Hge; lia).
    set (w5 := read_input_image (set_communication_ok 1 w4)).
    assert (F5 : ec w5 = ec w4
                 /\ somanet_outputs w5 = somanet_outputs w4
                 /\ somanet_inputs w5 = somanet_inputs w4
                 /\ master_initialized w5 = master_initialized w4
                 /\ current_controlword w5 = current_controlword w4
                 /\ current_cia402_state w5
                    = match somanet_inputs w4 with
                      | Some i => get_cia402_state (statusword i)
                      | None => current_cia402_state w4
                      end).
    { subst w5. clearbody w4. unfold read_input_image.
      cbn [somanet_inputs set_communication_ok].
      destruct (somanet_inputs w4) as [i |] eqn:Ei; cbn; rewrite ?Ei;
        repeat split. }
    destruct F5 as (Hec5 & Hout5 & Hin5 & Hmi5 & Hcw5 & Hst5).
    assert (Hinner : exists smi' w6 mid,
               (update (set_communication_ok 1) ;;
                update read_input_image ;;
                (if negb smi && is_some (somanet_inputs w4)
                    && is_some (somanet_outputs w4)
                 then
                   r0 <- perform_cia402_transition_to_operational
                           slave_idx ;;
                   (if r0 =? 0 then ret true else ret smi)
                 else ret smi)) w4
               = Some (smi', w6)
               /\ trace (ec w6) = trace (ec w5) ++ mid
               /\ mid = bringup_events (somanet_outputs w1) img
                                       (received mid)
               /\ somanet_outputs w6
                  = last (sent mid) (somanet_outputs w1)
               /\ master_initialized w6 = master_initialized w
               /\ (smi = true \/ somanet_inputs w = None
                   \/ somanet_outputs w = None ->
                   mid = [] /\ smi' = smi
                   /\ current_controlword w6 = current_controlword w)
               /\ (current_cia402_state w
                   <> CIA402_STATE_OPERATION_ENABLED ->
                   Forall not_enabled (img :: map snd (received mid)) ->
                   current_cia402_state w6
                   <> CIA402_STATE_OPERATION_ENABLED
                   /\ smi' = smi)
               /\ (smi' = true ->
                   smi = true
                   \/ current_cia402_state w6
                      = CIA402_STATE_OPERATION_ENABLED)).
    { rewrite (bind_some _ _ w4 _ tt eq_refl).
      rewrite (bind_some _ _ _ _ tt eq_refl).
      fold w5.
      destruct (negb smi && is_some (somanet_inputs w4)
                && is_some (somanet_outputs w4)) eqn:Hc.
      - apply andb_prop in Hc. destruct Hc as (Hc & Hso).
        apply andb_prop in Hc. destruct Hc as (Hs & Hsi).
        assert (Hsmi : smi = false)
          by (destruct smi; [discriminate | reflexivity]).
        assert (Hi4 : somanet_inputs w4 = Some img).
        { rewrite Hin4 in *. destruct (somanet_inputs w);
            [reflexivity | discriminate]. }
        assert (Ho : somanet_outputs w <> None).
        { intros Hn. rewrite Gout in Hso. subst w1.
          rewrite Fout, Hn in Hso. discriminate. }
        assert (Hi : somanet_inputs w <> None).
        { intros Hn. rewrite Hin4, Hn in Hsi. discriminate. }
        destruct (cia402_loop_trace (Z.to_nat max_attempts) 0 w5)
          as (r0 & w6 & mid & Hrun & Htr & Hr & Hzero & Hcase);
          [lia | unfold max_attempts; lia |].
        destruct (cia402_loop_runs (Z.to_nat max_attempts) 0 w5)
          as (r0' & w6' & mid' & Hrun' & _ & Hfr & _);
          [lia | unfold max_attempts; lia |].
        rewrite Hrun in Hrun'. injection Hrun' as <- <-.
        destruct Hfr as (_ & _ & A3 & _).
        rewrite Hin5, Hi4, Hout5, Gout in Hcase.
        destruct Hcase as (Hshape & Hout & Hsafe).
        unfold perform_cia402_transition_to_operational.
        rewrite (bind_some _ _ w5 w6 r0 Hrun).
        exists (if r0 =? 0 then true else smi), w6, mid.
        split; [destruct (r0 =? 0); reflexivity|].
        split; [exact Htr|]. split; [exact Hshape|].
        split; [exact Hout|]. split; [congruence|].
        split.
        { intros [Hp | [Hp | Hp]]; [congruence | contradiction
                                    | contradiction]. }
        split.
        { intros Hne Hall.
          destruct Hsafe as (Hst6 & ->).
          - rewrite Hst5, Hi4. inversion Hall; assumption.
          - exact Hall.
          - split; [exact Hst6 | reflexivity]. }
        intros Hs'. right. apply Hzero.
        destruct Hr as [-> | ->]; [reflexivity|].
        cbn in Hs'. congruence.
      - exists smi, w5, []. rewrite app_nil_r.
        cbn [received bringup_events sent last].
        split; [reflexivity|]. split; [reflexivity|].
        split; [reflexivity|]. split; [congruence|].
        split; [congruence|].
        split; [intros _; repeat split; congruence|].
        split; [|auto].
        intros Hne Hall. split; [|reflexivity].
        rewrite Hst5, Hin4.
        destruct (somanet_inputs w); [|congruence].
        inversion Hall; assumption. }
    destruct Hinner as (smi' & w6 & mid & Hrun6 & Htr6 & Hshape & Hout6
                        & Hmi6 & Hnone & Hsafe & Hlatch).
    rewrite (bind_some _ _ w4 w6 smi' Hrun6).
    destruct (cycle_tail_shape slave_idx smi' w6)
      as (b' & rest & Htail & Htr' & Hrest).
    exists smi', (set_ec b' w6), k, img, mid, rest.
    split; [exact Htail|]. split; [exact Hex|].
    cbn [ec set_ec somanet_outputs master_initialized current_controlword
         current_cia402_state].
    split.
    { rewrite Htr', Htr6, Hec5, Htr4. rewrite <- !app_assoc. reflexivity. }
    split; [exact Hrest|]. split; [exact Hshape|]. split; [exact Hout6|].
    split; [exact Hmi6|].
    split.
    { intros [Hp | [Hp | Hp]]; [auto | lia | auto]. }
    split; [exact Hsafe | exact Hlatch].
  - (* the working counter is too low *)
    assert (Hlt : k < expectedWKC w)
      by (rewrite Z.geb_leb in Hge; apply Z.leb_gt in Hge; lia).
    rewrite (bind_some _ _ w4 (set_communication_ok 0 w4) smi eq_refl).
    destruct (cycle_tail_shape slave_idx smi (set_communication_ok 0 w4))
      as (b' & rest & Htail & Htr' & Hrest).
    exists smi, (set_ec b' (set_communication_ok 0 w4)), k, img, [], rest.
    split; [exact Htail|]. split; [exact Hex|].
    cbn [ec set_ec set_communication_ok somanet_outputs master_initialized
         current_controlword current_cia402_state app received
         bringup_events sent last] in *.
    split.
    { rewrite Htr', Htr4. rewrite <- !app_assoc. reflexivity. }
    split; [exact Hrest|]. split; [reflexivity|]. split; [exact Gout|].
    split; [exact Gmi|].
    split; [intros _; repeat split; exact Gcw|].
    split; [|auto].
    intros Hne _. split; [congruence | reflexivity].
Qed.

End CycleFacts.

Section LoopFacts.
Context {T : Type} {TR : Transport T} {F : Type} {FL : CFloat F}.

#[local] Abbreviation world := (world T F).

Lemma control_thread_frame (tk : tick F) (w : world) :
  ec (control_thread tk w) = ec w
  /\ current_cia402_state (control_thread tk w) = current_cia402_state w
  /\ current_controlword (control_thread tk w) = current_controlword w.
Proof.
  unfold control_thread, soem_interface_send_and_receive_pdo.
  destruct (requested_torque tk);
    [destruct (truthy (master_initialized w))|]; repeat split.
Qed.

Lemma ecat_loop_step (tk : tick F) (ticks : list (tick F))
    (smi smi' : bool) (w w' : world) :
  running tk ->
  ecat_cycle 1 smi (control_thread tk w) = Some (smi', w') ->
  ecat_loop (tk :: ticks) smi w = ecat_loop ticks smi' w'.
Proof.
  intros Hr Hc. cbn [ecat_loop]. unfold running in Hr. rewrite Hr.
  rewrite (bind_some _ _ w (control_thread tk w) tt) by reflexivity.
  now rewrite (bind_some _ _ _ _ _ Hc).
Qed.

Lemma cycle_tail_projections (slave_idx : Z) (rest : list event) :
  rest = [EvSleep 1000]
  \/ (exists r,
         rest = [EvStateCheck slave_idx EC_STATE_OPERATIONAL
                              EC_TIMEOUTSTATE r; EvSleep 1000]) ->
  received rest = [] /\ sent rest = [] /\ state_requests rest = []
  /\ sdo_transactions rest = 0%nat /\ time_slept rest = 1000.
Proof. intros [-> | (r & ->)]; repeat split. Qed.

Lemma bringup_command_zero_torque (o : option rx_pdo) (img : tx_pdo) :
  zero_torque o -> zero_torque (bringup_command o img).
Proof. destruct o; auto. Qed.

(** X12.  The bring-up phase is entered only by an iteration that has not yet
    initialised the state machine, whose exchange returned at least
    [expectedWKC], and that has both process images.  Any other iteration
    makes one exchange, sleeps 5 ms, checks the slave state at most once,
    sleeps 1 ms, and leaves [state_machine_initialized] and the controlword
    as they were.  [state_machine_initialized] becomes true only with the
    state OperationEnabled. *)
Theorem cycle_bringup_gate (slave_idx : Z) (smi : bool) (w : world) :
  exists smi' w' k img mid rest,
    ecat_cycle slave_idx smi w = Some (smi', w')
    /\ cycle_exchange w = (k, img)
    /\ trace (ec w')
       = trace (ec w)
         ++ EvSend (somanet_outputs (write_output_image w))
            :: EvReceive k img :: EvSleep 5000 :: mid ++ rest
    /\ (rest = [EvSleep 1000]
        \/ exists r,
          rest = [EvStateCheck slave_idx EC_STATE_OPERATIONAL
                               EC_TIMEOUTSTATE r; EvSleep 1000])
    /\ mid = bringup_events (somanet_outputs (write_output_image w)) img
                            (received mid)
    /\ (smi = true \/ k < expectedWKC w
        \/ somanet_inputs w = None \/ somanet_outputs w = None ->
        mid = [] /\ smi' = smi
        /\ current_controlword w' = current_controlword w
        /\ somanet_outputs w' = somanet_outputs (write_output_image w))
    /\ (smi' = true ->
        smi = true
        \/ current_cia402_state w' = CIA402_STATE_OPERATION_ENABLED)
    /\ master_initialized w' = master_initialized w.
Proof.
  destruct (ecat_cycle_steps slave_idx smi w)
    as (smi' & w' & k & img & mid & rest & Hrun & Hex & Htr & Hrest
        & Hshape & Hout & Hmi & Hnone & _ & Hlatch).
  exists smi', w', k, img, mid, rest.
  split; [exact Hrun|]. split; [exact Hex|]. split; [exact Htr|].
  split; [exact Hrest|]. split; [exact Hshape|].
  split; [|split; [exact Hlatch | exact Hmi]].
  intros Hp. destruct (Hnone Hp) as (Hm & Hs & Hcw).
  split; [exact Hm|]. split; [exact Hs|]. split; [exact Hcw|].
  rewrite Hout, Hm. reflexivity.
Qed.

(** X13.  Torque interlock over the whole cyclic loop: as long as the state was
    not OperationEnabled when the loop started and no input image received
    since decodes to OperationEnabled, every frame the loop sends, the
    frames of the bring-up phase included, carries target torque 0, whatever
    setpoints the control thread requests.  The loop returns when it reads
    [ecat_thread_running = 0], after one exchange or more for every
    iteration. *)
Theorem no_torque_before_enabled (ticks : list (tick F)) (stop : tick F)
    (smi : bool) (w : world) :
  Forall running ticks ->
  ecat_thread_running stop = false ->
  exists w' delta,
    ecat_loop (ticks ++ [stop]) smi w = Some (tt, w')
    /\ trace (ec w') = trace (ec w) ++ delta
    /\ (length ticks <= length (received delta))%nat
    /\ (current_cia402_state w <> CIA402_STATE_OPERATION_ENABLED ->
        Forall not_enabled (map snd (received delta)) ->
        Forall zero_torque (sent delta)
        /\ current_cia402_state w' <> CIA402_STATE_OPERATION_ENABLED).
Proof.
  intros Hticks Hstop. revert smi w.
  induction Hticks as [| tk ticks Htk Hticks IH]; intros smi w.
  - exists w, []. rewrite app_nil_r. cbn [app ecat_loop]. rewrite Hstop.
    split; [reflexivity|]. split; [reflexivity|].
    split; [cbn; lia|]. intros Hne _. split; [constructor | exact Hne].
  - destruct (control_thread_frame tk w) as (Cec & Cst & _).
    set (w0 := control_thread tk w) in *.
    destruct (ecat_cycle_steps 1 smi w0)
      as (smi1 & w1 & k & img & mid & rest & Hrun & _ & Htr & Hrest
          & Hshape & _ & _ & _ & Hsafe & _).
    destruct (cycle_tail_projections 1 rest Hrest)
      as (Rrec & Rsent & _).
    destruct (IH smi1 w1) as (w' & delta & Hloop & Htr' & Hlen & Hinv).
    exists w',
      (([EvSend (somanet_outputs (write_output_image w0));
         EvReceive k img; EvSleep 5000] ++ mid ++ rest) ++ delta).
    cbn [app].
    split; [rewrite (ecat_loop_step tk _ smi smi1 w w1 Htk Hrun);
            exact Hloop|].
    split.
    { rewrite Htr', Htr, Cec. rewrite <- !app_assoc. cbn [app].
      rewrite <- ?app_assoc. reflexivity. }
    project_trace. cbn [received sent app]. project_trace.
    rewrite Rrec, Rsent, !app_nil_r.
    split; [cbn [length]; rewrite length_app; lia|].
    intros Hne Hall.
    cbn [map snd] in Hall. rewrite map_app in Hall.
    apply Forall_cons_iff in Hall. destruct Hall as (Himg & Hall).
    apply Forall_app in Hall. destruct Hall as (Hmid & Hdelta).
    destruct Hsafe as (Hst1 & _).
    { rewrite Cst. exact Hne. }
    { constructor; assumption. }
    destruct (Hinv Hst1 Hdelta) as (Hzero & Hst').
    split; [|exact Hst'].
    assert (Hz : zero_torque (somanet_outputs (write_output_image w0))).
    { apply write_output_image_fields. rewrite Cst. exact Hne. }
    constructor; [exact Hz|].
    apply Forall_app. split; [|exact Hzero].
    rewrite Hshape. apply bringup_events_sent.
    intros i. apply bringup_command_zero_torque. exact Hz.
Qed.

(** X14.  Once the state machine is initialised the loop is one exchange per
    iteration and nothing else on the bus: no bring-up, no state request, no
    SDO transaction, 6 ms of sleep per iteration.  The controlword is never
    assigned again: every frame carries the controlword the loop started
    with, in torque mode, whatever the drive reports. *)
Theorem initialized_loop_keeps_controlword (ticks : list (tick F))
    (stop : tick F) (w : world) :
  Forall running ticks ->
  ecat_thread_running stop = false ->
  exists w' delta,
    ecat_loop (ticks ++ [stop]) true w = Some (tt, w')
    /\ trace (ec w') = trace (ec w) ++ delta
    /\ length (sent delta) = length ticks
    /\ length (received delta) = length ticks
    /\ Forall (carries (current_controlword w)) (sent delta)
    /\ state_requests delta = []
    /\ sdo_transactions delta = 0%nat
    /\ time_slept delta = 6000 * Z.of_nat (length ticks)
    /\ current_controlword w' = current_controlword w.
Proof.
  intros Hticks Hstop. revert w.
  induction Hticks as [| tk ticks Htk Hticks IH]; intros w.
  - exists w, []. rewrite app_nil_r. cbn [app ecat_loop]. rewrite Hstop.
    repeat split. constructor.
  - destruct (control_thread_frame tk w) as (Cec & _ & Ccw).
    set (w0 := control_thread tk w) in *.
    destruct (ecat_cycle_steps 1 true w0)
      as (smi1 & w1 & k & img & mid & rest & Hrun & _ & Htr & Hrest
          & _ & _ & _ & Hnone & _).
    destruct (Hnone (or_introl eq_refl)) as (-> & -> & Hcw).
    destruct (cycle_tail_projections 1 rest Hrest)
      as (Rrec & Rsent & Rreq & Rsdo & Rtime).
    destruct (IH w1)
      as (w' & delta & Hloop & Htr' & Hls & Hlr & Hall & Hreq & Hsdo
          & Htime & Hcw').
    exists w',
      (([EvSend (somanet_outputs (write_output_image w0));
         EvReceive k img; EvSleep 5000] ++ rest) ++ delta).
    split; [cbn [app];
            rewrite (ecat_loop_step tk _ true true w w1 Htk Hrun);
            exact Hloop|].
    split.
    { rewrite Htr', Htr, Cec. rewrite <- !app_assoc. cbn [app].
      rewrite <- ?app_assoc. reflexivity. }
    rewrite !time_slept_app. project_trace.
    rewrite Rrec, Rsent, Rreq, Rsdo, Rtime, Hreq, Hsdo, Htime.
    cbn [sent received state_requests sdo_transactions app length].
    split; [now rewrite Hls|]. split; [now rewrite Hlr|].
    split.
    { constructor.
      - rewrite <- Ccw. apply write_output_image_fields.
      - rewrite <- Ccw, <- Hcw. exact Hall. }
    split; [reflexivity|]. split; [reflexivity|].
    split; [|congruence].
    change (time_slept [EvSend (somanet_outputs (write_output_image w0));
                        EvReceive k img; EvSleep 5000]) with 5000.
    lia.
Qed.

End LoopFacts.

Section ShutdownFacts.
Context {T : Type} {TR : Transport T} {TD : Teardown T}
        {F : Type} {FL : CFloat F}.

#[local] Abbreviation world := (world T F).

(** A state request for a target other than OPERATIONAL, made from the
    world. *)
Lemma on_bus_set_state (slave_idx desired_state : Z) (w : world) :
  desired_state <> EC_STATE_OPERATIONAL ->
  exists r b' delta n,
    on_bus (soem_interface_set_ethercat_state slave_idx desired_state) w
    = Some (r, set_ec b' w)
    /\ trace b' = trace (ec w) ++ delta
    /\ Forall (state_event slave_idx) delta
    /\ state_requests delta = repeat (slave_idx, desired_state) n
    /\ (1 <= n <= 5)%nat
    /\ sent delta = [].
Proof.
  intros Hne.
  destruct (set_state_loop_trace slave_idx desired_state
              (Z.to_nat max_retries) 0 (ec w))
    as (r & b' & delta & n & Hrun & Htr & Hev & Hn & Hn1 & _ & _ & _
        & Hplain);
    [lia | unfold max_retries; lia |].
  unfold max_retries in *.
  destruct (Hplain Hne) as (_ & Hreq & _).
  specialize (Hn1 ltac:(lia)).
  exists r, b', delta, (Z.to_nat n).
  split.
  { unfold on_bus, soem_interface_set_ethercat_state, max_retries.
    now rewrite Hrun. }
  split; [exact Htr|]. split; [exact Hev|]. split; [exact Hreq|].
  split; [lia|].
  clear - Hev. induction Hev as [| e l He _ IH]; [reflexivity|].
  destruct e; cbn in He; try contradiction; exact IH.
Qed.

(** X15.  Stopping an initialised master sends exactly one frame, with target
    torque 0 and controlword 0x0006, sleeps 10 ms, and then requests
    SAFE-OP and after it INIT for slave 0, each between one and five times
    and whatever the first request returned.  It ends with
    [master_initialized = 0], so that a second stop does nothing and a
    later setpoint is dropped. *)
Theorem stop_master_shutdown (w : world) :
  truthy (master_initialized w) = true ->
  exists w' ds1 ds2 n1 n2,
    soem_interface_stop_master w = Some (tt, w')
    /\ trace (ec w')
       = trace (ec w)
         ++ EvSend (option_map safe_image (somanet_outputs w))
            :: EvSleep 10000 :: ds1 ++ ds2
    /\ Forall (state_event 0) (ds1 ++ ds2)
    /\ sent (ds1 ++ ds2) = []
    /\ state_requests ds1 = repeat (0, EC_STATE_SAFE_OP) n1
    /\ state_requests ds2 = repeat (0, EC_STATE_INIT) n2
    /\ (1 <= n1 <= 5)%nat /\ (1 <= n2 <= 5)%nat
    /\ master_initialized w' = 0
    /\ somanet_outputs w' = option_map safe_image (somanet_outputs w)
    /\ soem_interface_stop_master w' = Some (tt, w')
    /\ (forall v, soem_interface_send_and_receive_pdo v w' = w').
Proof.
  intros Hinit.
  unfold soem_interface_stop_master at 1. rewrite Hinit.
  rewrite (bind_some _ _ w _ tt eq_refl).
  match goal with
  | |- context [bind _ _ ?x] => set (w1 := x)
  end.
  assert (Hout1 : somanet_outputs w1
                  = option_map safe_image (somanet_outputs w))
    by (subst w1; cbn; destruct (somanet_outputs w); reflexivity).
  assert (Hec1 : ec w1 = ec w) by reflexivity.
  clearbody w1.
  destruct (ec_send_processdata (somanet_outputs w1) (tp (ec w1)))
    as [r t1] eqn:Es.
  erewrite bind_some
    by (unfold send_processdata; rewrite Es; reflexivity).
  rewrite (bind_some _ _ _ _ tt eq_refl).
  match goal with
  | |- context [bind _ _ ?x] => set (w2 := x)
  end.
  assert (Hout2 : somanet_outputs w2 = somanet_outputs w1) by reflexivity.
  assert (Htr2 : trace (ec w2)
                 = trace (ec w)
                   ++ [EvSend (option_map safe_image (somanet_outputs w));
                       EvSleep 10000]).
  { subst w2. unfold emit. cbn [ec set_ec trace tp].
    rewrite Hec1, Hout1, <- app_assoc. reflexivity. }
  clearbody w2.
  destruct (on_bus_set_state 0 EC_STATE_SAFE_OP w2)
    as (r1 & b1 & ds1 & n1 & Hrun1 & Htrb1 & Hev1 & Hreq1 & Hn1 & Hs1);
    [discriminate|].
  rewrite (bind_some _ _ _ _ _ Hrun1).
  destruct (on_bus_set_state 0 EC_STATE_INIT (set_ec b1 w2))
    as (r2 & b2 & ds2 & n2 & Hrun2 & Htrb2 & Hev2 & Hreq2 & Hn2 & Hs2);
    [discriminate|].
  rewrite (bind_some _ _ _ _ _ Hrun2).
  cbn [ec set_ec] in Htrb2.
  eexists _, ds1, ds2, n1, n2.
  split; [reflexivity|].
  unfold soem_interface_stop_master, soem_interface_send_and_receive_pdo,
    truthy.
  cbn [ec set_ec set_master_initialized master_initialized trace
       somanet_outputs Z.eqb negb].
  split.
  { rewrite Htrb2, Htrb1, Htr2, <- !app_assoc. reflexivity. }
  split; [apply Forall_app; split; assumption|].
  split; [rewrite sent_app, Hs1, Hs2; reflexivity|].
  split; [exact Hreq1|]. split; [exact Hreq2|].
  split; [exact Hn1|]. split; [exact Hn2|].
  split; [reflexivity|]. split; [congruence|].
  split; [reflexivity|]. intros v. reflexivity.
Qed.

End ShutdownFacts.

(* ================================================================== *)
(** * The loop and the shutdown on the scripted drive *)

Lemma no_torque_before_enabled_witness :
  let w := fresh_world silent_drive (Some some_outputs) (Some ready_image)
                       CIA402_STATE_SWITCHED_ON (3 # 1) in
  let ticks := [{| ecat_thread_running := true;
                   requested_torque := Some (1 # 2) |}] in
  let stop := {| ecat_thread_running := false;
                 requested_torque := None |} in
  exists w',
    ecat_loop (ticks ++ [stop]) false w = Some (tt, w')
    /\ Forall zero_torque (sent (trace (ec w')))
    /\ current_cia402_state w' <> CIA402_STATE_OPERATION_ENABLED.
Proof.
  intros w ticks stop.
  destruct (no_torque_before_enabled ticks stop false w)
    as (w' & delta & Hrun & Htr & _ & Hsafe).
  - repeat constructor.
  - reflexivity.
  - assert (P : option_map (fun x => received (trace (ec (snd x))))
                  (ecat_loop (ticks ++ [stop]) false w)
                = Some [(2, ready_image)]) by (vm_compute; reflexivity).
    rewrite Hrun in P. cbn [option_map snd] in P.
    rewrite Htr in P. cbn [w fresh_world fresh_bus ec trace app] in P, Htr.
    injection P as P.
    exists w'. split; [exact Hrun|]. rewrite Htr. apply Hsafe.
    + discriminate.
    + rewrite P. repeat constructor. discriminate.
Defined.

Lemma initialized_loop_keeps_controlword_witness :
  let w := fresh_world healthy_drive (Some some_outputs) (Some ready_image)
                       CIA402_STATE_OPERATION_ENABLED (3 # 1) in
  let ticks := [{| ecat_thread_running := true;
                   requested_torque := Some (1 # 2) |};
                {| ecat_thread_running := true;
                   requested_torque := None |}] in
  let stop := {| ecat_thread_running := false;
                 requested_torque := None |} in
  exists w' delta,
    ecat_loop (ticks ++ [stop]) true w = Some (tt, w')
    /\ trace (ec w') = delta
    /\ length (sent delta) = 2%nat
    /\ Forall (carries 0) (sent delta)
    /\ time_slept delta = 12000.
Proof.
  intros w ticks stop.
  destruct (initialized_loop_keeps_controlword ticks stop w)
    as (w' & delta & Hrun & Htr & Hls & _ & Hall & _ & _ & Htime & _).
  - repeat constructor.
  - reflexivity.
  - exists w', delta. split; [exact Hrun|]. split; [exact Htr|].
    split; [exact Hls|]. split; [exact Hall | exact Htime].
Defined.

Lemma stop_master_shutdown_witness :
  let w := fresh_world healthy_drive (Some some_outputs) (Some ready_image)
                       CIA402_STATE_OPERATION_ENABLED (3 # 1) in
  exists w',
    soem_interface_stop_master w = Some (tt, w')
    /\ master_initialized w' = 0
    /\ somanet_outputs w' = Some (safe_image some_outputs).
Proof.
  intros w.
  destruct (stop_master_shutdown w)
    as (w' & ds1 & ds2 & n1 & n2 & Hrun & _ & _ & _ & _ & _ & _ & _ & Hmi
        & Hout & _).
  - reflexivity.
  - exists w'. split; [exact Hrun|]. split; [exact Hmi | exact Hout].
Defined.
